(** * Anthropic provider adapter (Example_Functions/anthropic_v2.py)

    A shallow embedding of the [Pipe] class: content normalisation
    ([process_content], [process_image], [process_pdf]), payload
    construction and header negotiation ([pipe]), transport with retry on
    HTTP 429 ([_send_request]), and the response and event-stream decoders
    ([_handle_response], [_stream_with_ui]).

    Conventions of the embedding.
    - A Python [str] is a Rocq [string] holding its UTF-8 encoding; [bytes]
      are a [string] too, one [ascii] per byte.  ASCII literals of the source
      are therefore written as they are, and [str.split], [str.startswith]
      on ASCII separators act bytewise.  [len] counts code points
      ([py_len]).
    - Python values that travel through the adapter (request bodies, JSON
      documents, payloads) are [pyval]; a [dict] is an association list in
      insertion order with distinct keys.
    - An exception is a value [pyexc] (its class and the text of [str(e)]);
      fallible code returns [result].
    - The network, the clock, the log and the host's event emitter are the
      fields of [World]; the instance attributes of [Pipe] are [PipeSelf].
    - Library functions whose behaviour is not part of this repository
      ([json.loads], [int]/[float] of a string, [str] of a value,
      [pop_system_message]) are the fields of the class [PyRuntime]; the
      module [Ref] gives an executable instance. *)

From Stdlib Require Import ZArith List String Ascii Bool Lia QArith.
From Stdlib Require Import DecimalString.
From Corelib Require Import SpecFloat.
Import ListNotations.
Open Scope string_scope.
Open Scope Z_scope.

(** ** Python values *)

#[warnings="-register-all"]
Inductive pyval : Type :=
| PNone
| PBool (b : bool)
| PInt (z : Z)
| PFloat (f : spec_float)
| PStr (s : string)
| PList (l : list pyval)
| PDict (d : list (string * pyval)).

Definition pydict := list (string * pyval).

(** ** Exceptions and fallible results *)

Inductive exc_class : Type :=
| KeyError | IndexError | TypeError | ValueError | AttributeError
| OverflowError | UnicodeDecodeError
| JSONDecodeError          (* json.JSONDecodeError *)
| RequestException         (* requests.exceptions.RequestException and subclasses *)
| ClientError              (* aiohttp.ClientError and subclasses *)
| OtherException.          (* any other subclass of Exception *)

Record pyexc : Type := mk_exc { exc_cls : exc_class; exc_str : string }.

Inductive result (A : Type) : Type :=
| Ok (a : A)
| Raise (e : pyexc).
Arguments Ok {A} a.
Arguments Raise {A} e.

Definition rbind {A B} (r : result A) (k : A -> result B) : result B :=
  match r with
  | Ok a => k a
  | Raise e => Raise e
  end.

Declare Scope result_scope.
Delimit Scope result_scope with result.
Notation "x <- r ;; k" := (rbind r (fun x => k))
  (at level 61, r at next level, right associativity) : result_scope.
Notation "' p <- r ;; k" := (rbind r (fun p => k))
  (at level 61, p pattern, r at next level, right associativity) : result_scope.

Definition raise {A} (c : exc_class) (msg : string) : result A :=
  Raise (mk_exc c msg).

Definition exc_class_eqb (a b : exc_class) : bool :=
  match a, b with
  | KeyError, KeyError | IndexError, IndexError | TypeError, TypeError
  | ValueError, ValueError | AttributeError, AttributeError
  | OverflowError, OverflowError | UnicodeDecodeError, UnicodeDecodeError
  | JSONDecodeError, JSONDecodeError | RequestException, RequestException
  | ClientError, ClientError | OtherException, OtherException => true
  | _, _ => false
  end.

(** ** Strings *)

Definition string_of_Z (z : Z) : string := NilZero.string_of_int (Z.to_int z).

(** [s.startswith(p)] *)
Definition startswith (s p : string) : bool := String.prefix p s.

(** [s[n:]] on bytes *)
Fixpoint drop (n : nat) (s : string) : string :=
  match n, s with
  | O, _ => s
  | S n', String _ s' => drop n' s'
  | S _, EmptyString => EmptyString
  end.

(** [s.split(c)] for a one-character separator: never empty. *)
Fixpoint split (c : ascii) (s : string) : list string :=
  match s with
  | EmptyString => [EmptyString]
  | String a s' =>
      if Ascii.eqb a c then EmptyString :: split c s'
      else match split c s' with
           | h :: t => String a h :: t
           | [] => [String a EmptyString]
           end
  end.

(** [s.split(c, 1)]: at most one cut, at the first occurrence of [c]. *)
Fixpoint split1 (c : ascii) (s : string) : list string :=
  match s with
  | EmptyString => [EmptyString]
  | String a s' =>
      if Ascii.eqb a c then [EmptyString; s']
      else match split1 c s' with
           | h :: t => String a h :: t
           | [] => [String a EmptyString]
           end
  end.

(** [l[-1]] of a non-empty list; [split] never returns the empty list, the
    default is not reached from the adapter. *)
Definition last_str (l : list string) : string := List.last l EmptyString.

(** [sep.join(l)] *)
Fixpoint join (sep : string) (l : list string) : string :=
  match l with
  | [] => EmptyString
  | [x] => x
  | x :: t => x ++ sep ++ join sep t
  end.

(** [x in l] for a list of strings *)
Definition str_in (x : string) (l : list string) : bool :=
  existsb (String.eqb x) l.

(** A byte that continues a UTF-8 sequence: [10xxxxxx]. *)
Definition utf8_cont (a : ascii) : bool :=
  let n := N_of_ascii a in (128 <=? n)%N && (n <? 192)%N.

(** [len(s)]: the number of code points of a [str]. *)
Fixpoint py_len (s : string) : nat :=
  match s with
  | EmptyString => O
  | String a s' => if utf8_cont a then py_len s' else S (py_len s')
  end.

(** The characters of a [str], each as a [str] of length one. *)
Fixpoint utf8_chars_aux (cur : string) (s : string) : list string :=
  match s with
  | EmptyString => match cur with EmptyString => [] | _ => [cur] end
  | String a s' =>
      if utf8_cont a then utf8_chars_aux (cur ++ String a EmptyString) s'
      else match cur with
           | EmptyString => utf8_chars_aux (String a EmptyString) s'
           | _ => cur :: utf8_chars_aux (String a EmptyString) s'
           end
  end.
Definition utf8_chars (s : string) : list string := utf8_chars_aux EmptyString s.

(** The text [s] with each single quote turned into a double quote: JSON
    documents are written with single quotes below. *)
Fixpoint dq (s : string) : string :=
  match s with
  | EmptyString => EmptyString
  | String a s' =>
      String (if Ascii.eqb a "'" then ascii_of_N 34 else a) (dq s')
  end.

(** The line feed that ends a line of the event stream. *)
Definition LF : string := String (ascii_of_N 10) EmptyString.

(** [sub in s] for strings *)
Fixpoint substring_of (sub s : string) : bool :=
  String.prefix sub s ||
  match s with
  | EmptyString => false
  | String _ s' => substring_of sub s'
  end.

(** ** Operations on Python values *)

(** [type(v).__name__], as it appears in error messages. *)
Definition py_type_name (v : pyval) : string :=
  match v with
  | PNone => "NoneType"
  | PBool _ => "bool"
  | PInt _ => "int"
  | PFloat _ => "float"
  | PStr _ => "str"
  | PList _ => "list"
  | PDict _ => "dict"
  end.

(** Truth value of [if v:]; a NaN is true, a zero of either sign is false. *)
Definition py_truthy (v : pyval) : bool :=
  match v with
  | PNone => false
  | PBool b => b
  | PInt z => negb (z =? 0)
  | PFloat (S754_zero _) => false
  | PFloat _ => true
  | PStr s => negb (String.eqb s EmptyString)
  | PList l => match l with [] => false | _ => true end
  | PDict d => match d with [] => false | _ => true end
  end.

(** [v == "lit"] for a string literal *)
Definition py_eq_str (v : pyval) (lit : string) : bool :=
  match v with
  | PStr s => String.eqb s lit
  | _ => false
  end.

(** [v is None] *)
Definition is_none (v : pyval) : bool :=
  match v with PNone => true | _ => false end.

(** *** Dictionaries *)

Fixpoint dget (d : pydict) (k : string) : option pyval :=
  match d with
  | [] => None
  | (k', v) :: d' => if String.eqb k' k then Some v else dget d' k
  end.

(** [d[k] = v]: an existing key keeps its place, a new one goes last. *)
Fixpoint dset (d : pydict) (k : string) (v : pyval) : pydict :=
  match d with
  | [] => [(k, v)]
  | (k', v') :: d' =>
      if String.eqb k' k then (k, v) :: d' else (k', v') :: dset d' k v
  end.

(** [k in d] *)
Definition dmem (d : pydict) (k : string) : bool :=
  match dget d k with Some _ => true | None => false end.

(** [d.get(k, default)] *)
Definition dget_default (d : pydict) (k : string) (default : pyval) : pyval :=
  match dget d k with Some v => v | None => default end.

(** [repr(k)] of a key of the source: all are plain ASCII words. *)
Definition repr_key (k : string) : string := "'" ++ k ++ "'".

(** [d[k]] on a dictionary *)
Definition dgetitem (d : pydict) (k : string) : result pyval :=
  match dget d k with
  | Some v => Ok v
  | None => raise KeyError (repr_key k)
  end.

(** [obj[k]] for a string key [k] *)
Definition getitem_str (obj : pyval) (k : string) : result pyval :=
  match obj with
  | PDict d => dgetitem d k
  | PStr _ => raise TypeError "string indices must be integers, not 'str'"
  | PList _ => raise TypeError "list indices must be integers or slices, not str"
  | _ => raise TypeError ("'" ++ py_type_name obj ++ "' object is not subscriptable")
  end.

(** [obj[0]] *)
Definition getitem_0 (obj : pyval) : result pyval :=
  match obj with
  | PList (x :: _) => Ok x
  | PList [] => raise IndexError "list index out of range"
  | PStr s =>
      match utf8_chars s with
      | c :: _ => Ok (PStr c)
      | [] => raise IndexError "string index out of range"
      end
  | PDict _ => raise KeyError "0"
  | _ => raise TypeError ("'" ++ py_type_name obj ++ "' object is not subscriptable")
  end.

Definition no_attribute {A} (obj : pyval) (attr : string) : result A :=
  raise AttributeError
    ("'" ++ py_type_name obj ++ "' object has no attribute '" ++ attr ++ "'").

(** [obj.get(k)] and [obj.get(k, default)]: only a [dict] has [get]. *)
Definition py_get_default (obj : pyval) (k : string) (default : pyval)
  : result pyval :=
  match obj with
  | PDict d => Ok (dget_default d k default)
  | _ => no_attribute obj "get"
  end.
Definition py_get (obj : pyval) (k : string) : result pyval :=
  py_get_default obj k PNone.

(** The receiver of a [str] method such as [split] or [startswith]. *)
Definition as_str (obj : pyval) (method : string) : result string :=
  match obj with
  | PStr s => Ok s
  | _ => no_attribute obj method
  end.

(** [for x in obj]: the items of a list, the keys of a dict, the characters
    of a string. *)
Definition py_iter (obj : pyval) : result (list pyval) :=
  match obj with
  | PList l => Ok l
  | PDict d => Ok (map (fun kv => PStr (fst kv)) d)
  | PStr s => Ok (map PStr (utf8_chars s))
  | _ => raise TypeError ("'" ++ py_type_name obj ++ "' object is not iterable")
  end.

(** ["lit" in obj] *)
Definition py_contains_str (obj : pyval) (lit : string) : result bool :=
  match obj with
  | PDict d => Ok (dmem d lit)
  | PList l => Ok (existsb (fun v => py_eq_str v lit) l)
  | PStr s => Ok (substring_of lit s)
  | _ => raise TypeError
           ("argument of type '" ++ py_type_name obj ++ "' is not iterable")
  end.

(** [any(f(x) for x in l)]: stops at the first true element, so that later
    elements are not evaluated. *)
Fixpoint py_any {A} (f : A -> result bool) (l : list A) : result bool :=
  match l with
  | [] => Ok false
  | x :: t =>
      match f x with
      | Ok true => Ok true
      | Ok false => py_any f t
      | Raise e => Raise e
      end
  end.

(** [z < f], an [int] against a [float], compared exactly. *)
Definition int_lt_float (z : Z) (f : spec_float) : bool :=
  match f with
  | S754_nan => false
  | S754_infinity s => negb s
  | S754_zero _ => z <? 0
  | S754_finite s m e =>
      let sm := if s then Z.neg m else Z.pos m in
      if 0 <=? e then z <? sm * 2 ^ e else z * 2 ^ (- e) <? sm
  end.

(** [min(a, limit)] for an [int] limit: Python keeps [a] unless
    [limit < a]. *)
Definition py_min_limit (a : pyval) (limit : Z) : result pyval :=
  match a with
  | PInt z => Ok (if limit <? z then PInt limit else a)
  | PBool b => Ok (if limit <? (if b then 1 else 0) then PInt limit else a)
  | PFloat f => Ok (if int_lt_float limit f then PInt limit else a)
  | _ => raise TypeError
           ("'<' not supported between instances of 'int' and '"
              ++ py_type_name a ++ "'")
  end.

(** *** Numbers: binary64 *)

Definition prec64 : Z := 53.
Definition emax64 : Z := 1024.

(** [float(z)] for an [int]: rounded to nearest even; a result out of range
    is an [OverflowError]. *)
Definition float_of_Z (z : Z) : result spec_float :=
  match binary_normalize prec64 emax64 z 0 false with
  | S754_infinity _ => raise OverflowError "int too large to convert to float"
  | f => Ok f
  end.

(** [int(f)] for a [float]: truncation towards zero. *)
Definition Z_of_float (f : spec_float) : result Z :=
  match f with
  | S754_zero _ => Ok 0
  | S754_nan => raise ValueError "cannot convert float NaN to integer"
  | S754_infinity _ => raise OverflowError "cannot convert float infinity to integer"
  | S754_finite s m e =>
      let a := if 0 <=? e then Z.pos m * 2 ^ e else Z.pos m / 2 ^ (- e) in
      Ok (if s then - a else a)
  end.

(** ** The Python runtime and the host

    What the adapter calls but does not define. *)

Class PyRuntime : Type := {
  (** [json.loads] applied to [bytes] *)
  json_loads : string -> result pyval;
  (** [int(s)] and [float(s)] for a [str] *)
  int_of_str : string -> result Z;
  float_of_str : string -> result spec_float;
  (** [str(v)] *)
  py_str : pyval -> string;
  (** [open_webui.utils.misc.pop_system_message]: the system message (or
      [None]) and the remaining messages *)
  pop_system_message : pyval -> result (pyval * pyval)
}.

Section Coercions.
Context {RT : PyRuntime}.

(** [int(v)] *)
Definition py_int (v : pyval) : result Z :=
  match v with
  | PInt z => Ok z
  | PBool b => Ok (if b then 1 else 0)
  | PFloat f => Z_of_float f
  | PStr s => int_of_str s
  | _ => raise TypeError
           ("int() argument must be a string, a bytes-like object or a real number, not '"
              ++ py_type_name v ++ "'")
  end.

(** [float(v)] *)
Definition py_float (v : pyval) : result spec_float :=
  match v with
  | PFloat f => Ok f
  | PInt z => float_of_Z z
  | PBool b => float_of_Z (if b then 1 else 0)
  | PStr s => float_of_str s
  | _ => raise TypeError
           ("float() argument must be a string or a real number, not '"
              ++ py_type_name v ++ "'")
  end.
End Coercions.

(** ** HTTP *)

Definition ascii_lower (a : ascii) : ascii :=
  let n := N_of_ascii a in
  if (65 <=? n)%N && (n <=? 90)%N then ascii_of_N (n + 32) else a.

Fixpoint lower (s : string) : string :=
  match s with
  | EmptyString => EmptyString
  | String a s' => String (ascii_lower a) (lower s')
  end.

Definition headers := list (string * string).

(** [headers.get(name)]: header names compare without case, in [requests]
    as in [aiohttp]. *)
Fixpoint header_get (h : headers) (name : string) : option string :=
  match h with
  | [] => None
  | (k, v) :: h' =>
      if String.eqb (lower k) (lower name) then Some v else header_get h' name
  end.

(** A [requests.Response], as the adapter observes it.  [status_code] is
    [None] for a response object that was not filled in by a request. *)
Record Response : Type := {
  status_code : option Z;
  resp_headers : headers;
  text : string;
  json : result pyval            (* the outcome of [response.json()] *)
}.

(** [requests.Response()] *)
Definition empty_Response : Response :=
  {| status_code := None;
     resp_headers := [];
     text := "";
     json := raise RequestException "Expecting value: line 1 column 1 (char 0)" |}.

(** What iterating [response.content] delivers: a line of bytes, with its
    line terminator, or a failure of the connection. *)
Inductive chunk : Type :=
| Line (b : string)
| ReadError (e : pyexc).

(** An [aiohttp.ClientResponse], as the adapter observes it. *)
Record ClientResponse : Type := {
  status : Z;
  cr_headers : headers;
  cr_text : string;              (* [await response.text()] *)
  content : list chunk
}.

Inductive transport := via_requests | via_aiohttp.

Record Request : Type := {
  req_via : transport;
  req_url : string;
  req_headers : headers;
  req_json : pydict
}.

Inductive log_level := WARNING | ERROR.

(** A status event given to [__event_emitter__]: description and done flag. *)
Record Event : Type := { description : string; done : bool }.

(** ** The world around one [Pipe] instance *)

Record World : Type := {
  http_script : list (result Response);      (* what each [requests.post] will give *)
  aio_script : list (result ClientResponse); (* what each [session.post] will give *)
  sent : list Request;                       (* requests issued so far, oldest first *)
  slept : list Z;                            (* arguments of [time.sleep], oldest first *)
  log : list (log_level * string);
  events : list Event
}.

(** The attributes of the instance that the adapter reads or writes:
    [self.valves.ANTHROPIC_API_KEY] and [self.request_id] ([self.type] and
    [self.id] are constants for the host). *)
Record PipeSelf : Type := {
  ANTHROPIC_API_KEY : string;
  request_id : option string
}.

(** [Pipe.__init__] *)
Definition __init__ (api_key : string) : PipeSelf :=
  {| ANTHROPIC_API_KEY := api_key; request_id := None |}.

Record State : Type := { self : PipeSelf; world : World }.

(** Computations that read and change the state and may raise. *)
Definition M (A : Type) : Type := State -> result A * State.

Definition ret {A} (a : A) : M A := fun st => (Ok a, st).
Definition throw {A} (e : pyexc) : M A := fun st => (Raise e, st).
Definition bind {A B} (m : M A) (k : A -> M B) : M B :=
  fun st =>
    match m st with
    | (Ok a, st') => k a st'
    | (Raise e, st') => (Raise e, st')
    end.
Definition lift {A} (r : result A) : M A := fun st => (r, st).

(** [try: m except C as e: h e], for the classes [C] accepted by [catches]. *)
Definition try_except {A} (m : M A) (catches : exc_class -> bool)
  (h : pyexc -> M A) : M A :=
  fun st =>
    match m st with
    | (Raise e, st') => if catches (exc_cls e) then h e st' else (Raise e, st')
    | r => r
    end.

Declare Scope M_scope.
Delimit Scope M_scope with M.
Notation "x <- m ;; k" := (bind m (fun x => k))
  (at level 61, m at next level, right associativity) : M_scope.
Notation "m ;;; k" := (bind m (fun _ => k))
  (at level 61, right associativity) : M_scope.

(** ** The adapter: class [Pipe] *)

Definition API_VERSION : string := "2023-06-01".
Definition MODEL_URL : string := "https://api.anthropic.com/v1/messages".
Definition SUPPORTED_IMAGE_TYPES : list string :=
  ["image/jpeg"; "image/png"; "image/gif"; "image/webp"].
Definition SUPPORTED_PDF_MODELS : list string :=
  ["claude-3-5-sonnet-20241022"; "claude-3-5-sonnet-20240620"].
Definition MAX_IMAGE_SIZE : Z := 5 * 1024 * 1024.
Definition PDF_BETA_HEADER : string := "pdfs-2024-09-25".
Definition MODEL_MAX_TOKENS : list (string * Z) :=
  [ ("claude-3-opus-20240229", 4096);
    ("claude-3-sonnet-20240229", 4096);
    ("claude-3-haiku-20240307", 4096);
    ("claude-3-5-sonnet-20240620", 8192);
    ("claude-3-5-sonnet-20241022", 8192);
    ("claude-3-5-haiku-20241022", 8192);
    ("claude-3-opus-latest", 4096);
    ("claude-3-5-sonnet-latest", 8192);
    ("claude-3-5-haiku-latest", 8192) ].
Definition BETA_HEADER : string := "prompt-caching-2024-07-31".

(** [MODEL_MAX_TOKENS.get(name, default)] *)
Fixpoint table_get (t : list (string * Z)) (name : string) (default : Z) : Z :=
  match t with
  | [] => default
  | (k, v) :: t' => if String.eqb k name then v else table_get t' name default
  end.

(** *** The catalogue *)

(** [get_anthropic_models]: one entry for each model name of the list. *)
Definition get_anthropic_models : list pyval :=
  map (fun name =>
         PDict [ ("id", PStr ("anthropic/" ++ name));
                 ("name", PStr name);
                 ("context_length", PInt 200000);
                 ("supports_vision",
                  PBool (negb (String.eqb name "claude-3-5-haiku-20241022"))) ])
    [ "claude-3-opus-20240229";
      "claude-3-sonnet-20240229";
      "claude-3-haiku-20240307";
      "claude-3-5-sonnet-20240620";
      "claude-3-5-sonnet-20241022";
      "claude-3-5-haiku-20241022";
      "claude-3-opus-latest";
      "claude-3-5-sonnet-latest";
      "claude-3-5-haiku-latest" ].

(** [pipes] *)
Definition pipes : list pyval := get_anthropic_models.

(** *** Content normaliser *)

(** [a, b = s.split(",", 1)] *)
Definition unpack2 (l : list string) : result (string * string) :=
  match l with
  | [a; b] => Ok (a, b)
  | _ => raise ValueError
           ("not enough values to unpack (expected 2, got "
              ++ string_of_Z (Z.of_nat (List.length l)) ++ ")")
  end.

(** [l[i]] on a list of strings *)
Definition nth_str (l : list string) (i : nat) : result string :=
  match nth_error l i with
  | Some s => Ok s
  | None => raise IndexError "list index out of range"
  end.

Definition process_image (image_data : pyval) : result pyval :=
  (iu <- getitem_str image_data "image_url" ;;
   u <- getitem_str iu "url" ;;
   url <- as_str u "startswith" ;;
   if startswith url "data:image" then
     ' (mime_type, base64_data) <- unpack2 (split1 "," url) ;;
     m1 <- nth_str (split ":" mime_type) 1 ;;
     media_type <- nth_str (split ";" m1) 0 ;;
     if negb (str_in media_type SUPPORTED_IMAGE_TYPES) then
       raise ValueError ("Unsupported media type: " ++ media_type)
     else
       Ok (PDict [ ("type", PStr "image");
                   ("source", PDict [ ("type", PStr "base64");
                                      ("media_type", PStr media_type);
                                      ("data", PStr base64_data) ]) ])
   else
     Ok (PDict [ ("type", PStr "image");
                 ("source", PDict [ ("type", PStr "url"); ("url", PStr url) ]) ])
  )%result.

(** [if pdf_data.get("cache_control"): document["cache_control"] = ...] *)
Definition copy_cache_control (pdf_data : pyval) (document : pydict)
  : result pyval :=
  (cc <- py_get pdf_data "cache_control" ;;
   if py_truthy cc then
     cc' <- getitem_str pdf_data "cache_control" ;;
     Ok (PDict (dset document "cache_control" cc'))
   else Ok (PDict document))%result.

Definition process_pdf (pdf_data : pyval) : result pyval :=
  (pu <- getitem_str pdf_data "pdf_url" ;;
   u <- getitem_str pu "url" ;;
   url <- as_str u "startswith" ;;
   if startswith url "data:application/pdf" then
     ' (mime_type, base64_data) <- unpack2 (split1 "," url) ;;
     copy_cache_control pdf_data
       [ ("type", PStr "document");
         ("source", PDict [ ("type", PStr "base64");
                            ("media_type", PStr "application/pdf");
                            ("data", PStr base64_data) ]) ]
   else
     copy_cache_control pdf_data
       [ ("type", PStr "document");
         ("source", PDict [ ("type", PStr "url"); ("url", PStr url) ]) ]
  )%result.

Definition PDF_ERROR : string :=
  "PDF support is only available for models: " ++ join ", " SUPPORTED_PDF_MODELS.

(** One turn of the loop of [process_content]: what the item appends to
    [processed_content], if anything. *)
Definition process_content_item (item : pyval) : result (option pyval) :=
  (t <- getitem_str item "type" ;;
   if py_eq_str t "text" then
     tx <- getitem_str item "text" ;;
     Ok (Some (PDict [ ("type", PStr "text"); ("text", tx) ]))
   else if py_eq_str t "image_url" then
     im <- process_image item ;;
     Ok (Some im)
   else if py_eq_str t "pdf_url" then
     m <- py_get_default item "model" (PStr "") ;;
     ms <- as_str m "split" ;;
     let model_name := last_str (split "/" ms) in
     if negb (str_in model_name SUPPORTED_PDF_MODELS) then
       raise ValueError PDF_ERROR
     else
       doc <- process_pdf item ;;
       Ok (Some doc)
   else Ok None)%result.

Fixpoint process_content_loop (items : list pyval) : result (list pyval) :=
  match items with
  | [] => Ok []
  | item :: rest =>
      (o <- process_content_item item ;;
       out <- process_content_loop rest ;;
       Ok (match o with Some c => c :: out | None => out end))%result
  end.

Definition process_content (content : pyval) : result (list pyval) :=
  match content with
  | PStr s => Ok [PDict [ ("type", PStr "text"); ("text", content) ]]
  | _ => (items <- py_iter content ;; process_content_loop items)%result
  end.

(** *** Size estimate of an inline image

    [image_size = len(data) * 3 / 4] is a binary64 number in the source.
    It is kept here as the exact quotient: the division by 4 and, in the
    error message, by [1024 * 1024] are exact in binary64 as long as
    [3 * len(data) < 2^53], and the comparison with [MAX_IMAGE_SIZE] does not
    depend on the rounding beyond that. *)

Definition image_size (n : nat) : Q := (Z.of_nat n * 3) # 4.

(** [len(v)] *)
Definition py_len_val (v : pyval) : result nat :=
  match v with
  | PStr s => Ok (py_len s)
  | PList l => Ok (List.length l)
  | PDict d => Ok (List.length d)
  | _ => raise TypeError
           ("object of type '" ++ py_type_name v ++ "' has no len()")
  end.

(** The integer nearest to [q], ties to even. *)
Definition round_half_even (q : Q) : Z :=
  let (k, r) := Z.div_eucl (Qnum q) (Z.pos (Qden q)) in
  match 2 * r ?= Z.pos (Qden q) with
  | Lt => k
  | Gt => k + 1
  | Eq => if Z.even k then k else k + 1
  end.

Definition two_digits (z : Z) : string :=
  if z <? 10 then "0" ++ string_of_Z z else string_of_Z z.

(** [f"{q:.2f}"] for [q >= 0] *)
Definition format_2f (q : Q) : string :=
  let n := round_half_even (q * 100) in
  string_of_Z (n / 100) ++ "." ++ two_digits (n mod 100).

Definition IMAGE_SIZE_ERROR (n : nat) : string :=
  "Image size exceeds 5MB limit: "
    ++ format_2f (image_size n / inject_Z (1024 * 1024)) ++ "MB".

(** *** Message processing *)

Definition EPHEMERAL : pyval := PDict [ ("type", PStr "ephemeral") ].

(** [obj[k] = v] *)
Definition py_setitem (obj : pyval) (k : string) (v : pyval) : result pyval :=
  match obj with
  | PDict d => Ok (PDict (dset d k v))
  | _ => raise TypeError
           ("'" ++ py_type_name obj ++ "' object does not support item assignment")
  end.

(** [a and b], where [b] is evaluated only when [a] holds. *)
Definition and_then (a : bool) (b : result bool) : result bool :=
  if a then b else Ok false.

Section Messages.
Context {RT : PyRuntime}.

(** [f"{v}"] *)
Definition py_format (v : pyval) : string :=
  match v with
  | PStr s => s
  | _ => py_str v
  end.

(** [v not in SUPPORTED_IMAGE_TYPES] *)
Definition not_in_strs (v : pyval) (l : list string) : bool :=
  match v with
  | PStr s => negb (str_in s l)
  | _ => true
  end.

(** The checks of the [elif content.get("type") == "image"] branch. *)
Definition check_image (content : pyval) : result unit :=
  (src <- getitem_str content "source" ;;
   st <- getitem_str src "type" ;;
   if py_eq_str st "base64" then
     data <- getitem_str src "data" ;;
     n <- py_len_val data ;;
     if negb (Qle_bool (image_size n) (inject_Z MAX_IMAGE_SIZE)) then
       raise ValueError (IMAGE_SIZE_ERROR n)
     else
       mt <- getitem_str src "media_type" ;;
       if not_in_strs mt SUPPORTED_IMAGE_TYPES then
         raise ValueError ("Unsupported media type: " ++ py_format mt)
       else Ok tt
   else Ok tt)%result.

(** One turn of the inner loop of [_process_messages]: the item that is
    appended to [processed_content]. *)
Definition _process_messages_content (message content : pyval)
  : result pyval :=
  (role <- py_get message "role" ;;
   is_call <- and_then (py_eq_str role "assistant")
                (t <- py_get content "type" ;; Ok (py_eq_str t "tool_calls")) ;;
   if is_call then py_setitem content "cache_control" EPHEMERAL
   else
     role' <- py_get message "role" ;;
     is_result <- and_then (py_eq_str role' "user")
                    (t <- py_get content "type" ;; Ok (py_eq_str t "tool_results")) ;;
     if is_result then py_setitem content "cache_control" EPHEMERAL
     else
       t <- py_get content "type" ;;
       if py_eq_str t "image" then
         _ <- check_image content ;; Ok content
       else Ok content)%result.

Fixpoint _process_messages_contents (message : pyval) (contents : list pyval)
  : result (list pyval) :=
  match contents with
  | [] => Ok []
  | c :: rest =>
      (c' <- _process_messages_content message c ;;
       out <- _process_messages_contents message rest ;;
       Ok (c' :: out))%result
  end.

(** One turn of the outer loop: the processed message. *)
Definition _process_messages_message (message : pyval) : result pyval :=
  (mc <- getitem_str message "content" ;;
   contents <- process_content mc ;;
   processed_content <- _process_messages_contents message contents ;;
   role <- getitem_str message "role" ;;
   Ok (PDict [ ("role", role); ("content", PList processed_content) ]))%result.

Fixpoint _process_messages_loop (messages : list pyval) : result (list pyval) :=
  match messages with
  | [] => Ok []
  | m :: rest =>
      (m' <- _process_messages_message m ;;
       out <- _process_messages_loop rest ;;
       Ok (m' :: out))%result
  end.

Definition _process_messages (messages : pyval) : result (list pyval) :=
  (ms <- py_iter messages ;; _process_messages_loop ms)%result.
End Messages.

(** *** Effects *)

Definition map_world (f : World -> World) : M unit :=
  fun st => (Ok tt, {| self := self st; world := f (world st) |}).

Definition logging (lvl : log_level) (msg : string) : M unit :=
  map_world (fun w =>
    {| http_script := http_script w; aio_script := aio_script w;
       sent := sent w; slept := slept w;
       log := log w ++ [(lvl, msg)]; events := events w |}).

(** [if __event_emitter__: await __event_emitter__({"type": "status",
    "data": {"description": d, "done": b}})] *)
Definition emit (__event_emitter__ : bool) (d : string) (b : bool) : M unit :=
  if __event_emitter__ then
    map_world (fun w =>
      {| http_script := http_script w; aio_script := aio_script w;
         sent := sent w; slept := slept w; log := log w;
         events := events w ++ [ {| description := d; done := b |} ] |})
  else ret tt.

(** [time.sleep(n)] *)
Definition time_sleep (n : Z) : M unit :=
  if n <? 0 then throw (mk_exc ValueError "sleep length must be non-negative")
  else
    map_world (fun w =>
      {| http_script := http_script w; aio_script := aio_script w;
         sent := sent w; slept := slept w ++ [n];
         log := log w; events := events w |}).

(** [requests.post(url, headers=headers, json=payload, timeout=...)]: the
    request is recorded and answered by the next entry of the script; a
    script that has run out answers as an unreachable server. *)
Definition requests_post (url : string) (hs : headers) (payload : pydict)
  : M Response :=
  fun st =>
    let w := world st in
    let rq := {| req_via := via_requests; req_url := url;
                 req_headers := hs; req_json := payload |} in
    let answer :=
      match http_script w with
      | r :: _ => r
      | [] => raise RequestException "Connection refused"
      end in
    (answer,
     {| self := self st;
        world := {| http_script := tl (http_script w); aio_script := aio_script w;
                    sent := sent w ++ [rq]; slept := slept w;
                    log := log w; events := events w |} |}).

(** [session.post(url, headers=headers, json=payload)] of [aiohttp] *)
Definition session_post (url : string) (hs : headers) (payload : pydict)
  : M ClientResponse :=
  fun st =>
    let w := world st in
    let rq := {| req_via := via_aiohttp; req_url := url;
                 req_headers := hs; req_json := payload |} in
    let answer :=
      match aio_script w with
      | r :: _ => r
      | [] => raise ClientError "Cannot connect to host"
      end in
    (answer,
     {| self := self st;
        world := {| http_script := http_script w; aio_script := tl (aio_script w);
                    sent := sent w ++ [rq]; slept := slept w;
                    log := log w; events := events w |} |}).

(** [self.request_id = v] *)
Definition set_request_id (v : option string) : M unit :=
  fun st =>
    (Ok tt,
     {| self := {| ANTHROPIC_API_KEY := ANTHROPIC_API_KEY (self st);
                   request_id := v |};
        world := world st |}).

Definition get_request_id : M (option string) :=
  fun st => (Ok (request_id (self st)), st).

(** [if self.request_id: error_msg += f" (Request ID: {self.request_id})"] *)
Definition with_request_id (error_msg : string) (rid : option string) : string :=
  match rid with
  | Some s =>
      if String.eqb s EmptyString then error_msg
      else error_msg ++ " (Request ID: " ++ s ++ ")"
  | None => error_msg
  end.

Definition is_RequestException (c : exc_class) : bool :=
  exc_class_eqb c RequestException.
Definition is_JSONDecodeError (c : exc_class) : bool :=
  exc_class_eqb c JSONDecodeError.
(** [except Exception] and a bare [except] *)
Definition is_Exception (c : exc_class) : bool := true.

(** [f"{response.status_code}"] *)
Definition format_status (s : option Z) : string :=
  match s with
  | Some z => string_of_Z z
  | None => "None"
  end.

Definition status_is (s : option Z) (code : Z) : bool :=
  match s with
  | Some z => z =? code
  | None => false
  end.

(** *** Transport with retry *)

Definition base_delay : Z := 1.
Definition max_retries : Z := 3.

(** How one turn of the [while] loop ends. *)
Inductive loop_exit : Type :=
| Continue
| Return (response : Response).

Section Transport.
Context {RT : PyRuntime}.

(** [int(response.headers.get("retry-after", base_delay * (2**retry_count)))] *)
Definition retry_after_of (retry_count : Z) (response : Response) : result Z :=
  py_int
    match header_get (resp_headers response) "retry-after" with
    | Some v => PStr v
    | None => PInt (base_delay * 2 ^ retry_count)
    end.

(** The body of the loop of [_send_request], at the given [retry_count]. *)
Definition _send_request_body (retry_count : Z) (url : string) (hs : headers)
  (payload : pydict) : M loop_exit :=
  (try_except
     (response <- requests_post url hs payload ;;
      if status_is (status_code response) 429 then
        retry_after <- lift (retry_after_of retry_count response) ;;
        logging WARNING
          ("Rate limit hit. Retrying in " ++ string_of_Z retry_after
             ++ " seconds. Retry count: " ++ string_of_Z (retry_count + 1)) ;;;
        time_sleep retry_after ;;;
        ret Continue
      else ret (Return response))
     is_RequestException
     (fun e => logging ERROR ("Request failed: " ++ exc_str e) ;;; throw e))%M.

(** [while retry_count < max_retries], with [remaining] standing for
    [max_retries - retry_count]: the loop is left by the [else] exit when
    nothing remains. *)
Fixpoint _send_request_loop (remaining : nat) (retry_count : Z) (url : string)
  (hs : headers) (payload : pydict) : M Response :=
  match remaining with
  | O =>
      (logging ERROR "Max retries exceeded for rate limit." ;;;
       ret empty_Response)%M
  | S remaining' =>
      (x <- _send_request_body retry_count url hs payload ;;
       match x with
       | Continue => _send_request_loop remaining' (retry_count + 1) url hs payload
       | Return response => ret response
       end)%M
  end.

Definition _send_request (url : string) (hs : headers) (payload : pydict)
  : M Response :=
  _send_request_loop (Z.to_nat (max_retries - 0)) 0 url hs payload.
End Transport.

(** *** Response and stream decoders *)

(** [{"content": msg, "format": "text"}] *)
Definition error_text (msg : string) : pyval :=
  PDict [ ("content", PStr msg); ("format", PStr "text") ].

(** What one line of the stream leads to. *)
Inductive line_exit : Type :=
| Yield (fragment : pyval)     (* [yield data["delta"]["text"]] *)
| Next                         (* nothing to yield, on to the next line *)
| Break.                       (* [message_stop] *)

Section Decoders.
Context {RT : PyRuntime}.

Definition _handle_response (response : Response) : M (pyval * pyval) :=
  (if negb (status_is (status_code response) 200) then
     let error_msg := "Error: HTTP " ++ format_status (status_code response) in
     let detail :=
       (j <- json response ;;
        error_data <- py_get_default j "error" (PDict []) ;;
        m <- py_get_default error_data "message" (PStr (text response)) ;;
        Ok (py_format m))%result in
     let error_msg :=
       match detail with
       | Ok d => error_msg ++ ": " ++ d
       | Raise _ => error_msg ++ ": " ++ text response
       end in
     let rid := header_get (resp_headers response) "x-request-id" in
     set_request_id rid ;;;
     ret (error_text (with_request_id error_msg rid), PNone)
   else
     result <- lift (json response) ;;
     usage <- lift (py_get_default result "usage" (PDict [])) ;;
     a <- lift (py_get_default usage "cache_creation_input_tokens" (PInt 0)) ;;
     b <- lift (py_get_default usage "cache_read_input_tokens" (PInt 0)) ;;
     c <- lift (py_get_default usage "input_tokens" (PInt 0)) ;;
     d <- lift (py_get_default usage "output_tokens" (PInt 0)) ;;
     ret (result,
          PDict [ ("cache_creation_input_tokens", a);
                  ("cache_read_input_tokens", b);
                  ("input_tokens", c);
                  ("output_tokens", d) ]))%M.

(** The body of [async for line in response.content]. *)
Definition _stream_with_ui_line (line : string) (__event_emitter__ : bool)
  : M line_exit :=
  if negb (String.eqb line EmptyString) && startswith line "data: " then
    (try_except
       (data <- lift (json_loads (drop 6 line)) ;;
        t <- lift (getitem_str data "type") ;;
        is_delta <- lift (and_then (py_eq_str t "content_block_delta")
                            (dl <- getitem_str data "delta" ;;
                             py_contains_str dl "text")%result) ;;
        if is_delta then
          dl <- lift (getitem_str data "delta") ;;
          fragment <- lift (getitem_str dl "text") ;;
          ret (Yield fragment)
        else
          t' <- lift (getitem_str data "type") ;;
          if py_eq_str t' "message_stop" then
            emit __event_emitter__ "Request completed" true ;;;
            ret Break
          else ret Next)
       is_JSONDecodeError
       (fun e =>
          logging ERROR ("Failed to parse streaming response: " ++ exc_str e) ;;;
          ret Next))%M
  else ret Next.

(** The loop over the lines: the fragments yielded, in order, and the
    exception that ended the loop, if one did. *)
Fixpoint _stream_with_ui_lines (chunks : list chunk) (__event_emitter__ : bool)
  (st : State) : list pyval * result unit * State :=
  match chunks with
  | [] => ([], Ok tt, st)
  | ReadError e :: _ => ([], Raise e, st)
  | Line line :: rest =>
      match _stream_with_ui_line line __event_emitter__ st with
      | (Raise e, st') => ([], Raise e, st')
      | (Ok Break, st') => ([], Ok tt, st')
      | (Ok Next, st') => _stream_with_ui_lines rest __event_emitter__ st'
      | (Ok (Yield fragment), st') =>
          let '(ys, r, st'') := _stream_with_ui_lines rest __event_emitter__ st' in
          (fragment :: ys, r, st'')
      end
  end.

(** The [except Exception as e] clause of [_stream_with_ui]: one more
    fragment, the error text. *)
Definition _stream_with_ui_except (e : pyexc) (__event_emitter__ : bool)
  (st : State) : list pyval * State :=
  let error_msg :=
    with_request_id ("Stream error: " ++ exc_str e) (request_id (self st)) in
  ([PStr error_msg], snd (emit __event_emitter__ error_msg true st)).

(** The generator [_stream_with_ui], run to its end: every fragment it
    yields, in order, and the state it leaves. *)
Definition _stream_with_ui (url : string) (hs : headers) (payload : pydict)
  (body : pydict) (__event_emitter__ : bool) (st : State)
  : list pyval * State :=
  match session_post url hs payload st with
  | (Raise e, st1) => _stream_with_ui_except e __event_emitter__ st1
  | (Ok response, st1) =>
      let rid := header_get (cr_headers response) "x-request-id" in
      let st2 := snd (set_request_id rid st1) in
      if negb (status response =? 200) then
        let error_msg :=
          with_request_id
            ("Error: HTTP " ++ string_of_Z (status response) ++ ": "
               ++ cr_text response) rid in
        ([PStr error_msg], snd (emit __event_emitter__ error_msg true st2))
      else
        match _stream_with_ui_lines (content response) __event_emitter__ st2 with
        | (ys, Ok _, st3) => (ys, st3)
        | (ys, Raise e, st3) =>
            let '(zs, st4) := _stream_with_ui_except e __event_emitter__ st3 in
            ((ys ++ zs)%list, st4)
        end
  end.
End Decoders.

(** *** The entry point *)

(** The arguments of a call of [_stream_with_ui]: the generator object that
    [pipe] hands back without running it. *)
Record StreamCall : Type := {
  sc_url : string;
  sc_headers : headers;
  sc_payload : pydict;
  sc_body : pydict;
  sc_emitter : bool
}.

(** What [pipe] returns: a value (the reply text or an error dictionary) or
    a generator. *)
Inductive PipeResult : Type :=
| Value (v : pyval)
| Generator (g : StreamCall).

Section Entry.
Context {RT : PyRuntime}.

(** [float(body.get(k)) if body.get(k) is not None else None] *)
Definition optional_float (body : pydict) (k : string) : result pyval :=
  let v := dget_default body k PNone in
  if negb (is_none v) then (f <- py_float v ;; Ok (PFloat f))%result
  else Ok PNone.

(** [int(body.get(k)) if body.get(k) is not None else None] *)
Definition optional_int (body : pydict) (k : string) : result pyval :=
  let v := dget_default body k PNone in
  if negb (is_none v) then (z <- py_int v ;; Ok (PInt z))%result
  else Ok PNone.

(** [{k: v for k, v in payload.items() if v is not None}] *)
Definition drop_none (payload : pydict) : pydict :=
  filter (fun kv => negb (is_none (snd kv))) payload.

(** The construction of [payload] in [pipe], from [model_name = ...] to
    the [response_format] entry. *)
Definition pipe_payload (body : pydict) (system_message messages : pyval)
  : result pydict :=
  (model <- dgetitem body "model" ;;
   model_s <- as_str model "split" ;;
   let model_name := last_str (split "/" model_s) in
   let max_tokens_limit := table_get MODEL_MAX_TOKENS model_name 4096 in
   processed <- _process_messages messages ;;
   max_tokens <- py_min_limit
                   (dget_default body "max_tokens" (PInt max_tokens_limit))
                   max_tokens_limit ;;
   temperature <- optional_float body "temperature" ;;
   top_k <- optional_int body "top_k" ;;
   top_p <- optional_float body "top_p" ;;
   let payload :=
     [ ("model", PStr model_name);
       ("messages", PList processed);
       ("max_tokens", max_tokens);
       ("temperature", temperature);
       ("top_k", top_k);
       ("top_p", top_p);
       ("stream", dget_default body "stream" PNone);
       ("metadata", dget_default body "metadata" (PDict [])) ] in
   let payload := drop_none payload in
   let payload :=
     if py_truthy system_message
     then dset payload "system" (PStr (py_str system_message))
     else payload in
   payload <-
     (if dmem body "tools" then
        tools_v <- dgetitem body "tools" ;;
        tools <- py_iter tools_v ;;
        let wrapped :=
          map (fun tool => PDict [ ("type", PStr "function"); ("function", tool) ])
            tools in
        Ok (dset (dset payload "tools" (PList wrapped))
              "tool_choice" (dget_default body "tool_choice" PNone))
      else Ok payload) ;;
   if dmem body "response_format" then
     rf <- dgetitem body "response_format" ;;
     t <- py_get rf "type" ;;
     Ok (dset payload "response_format" (PDict [ ("type", t) ]))
   else Ok payload)%result.

(** [any(isinstance(msg["content"], list) and any(p(item) for item in
    msg["content"]) for msg in body.get("messages", []))] *)
Definition any_item (p : pyval -> result bool) (body : pydict) : result bool :=
  (msgs <- py_iter (dget_default body "messages" (PList [])) ;;
   py_any (fun msg =>
             c <- getitem_str msg "content" ;;
             match c with
             | PList items => py_any p items
             | _ => Ok false
             end) msgs)%result.

Definition item_is_pdf (item : pyval) : result bool :=
  (t <- py_get item "type" ;; Ok (py_eq_str t "pdf_url"))%result.

Definition item_has_cache_control (item : pyval) : result bool :=
  (c <- py_get item "cache_control" ;; Ok (py_truthy c))%result.

Definition item_is_pdf_or_cached (item : pyval) : result bool :=
  (a <- item_is_pdf item ;;
   if a then Ok true else item_has_cache_control item)%result.

(** The list [beta_headers] of [pipe]. *)
Definition pipe_beta_headers (body : pydict) : result (list string) :=
  (some <- any_item item_is_pdf_or_cached body ;;
   if some then
     pdf <- any_item item_is_pdf body ;;
     cached <- any_item item_has_cache_control body ;;
     Ok ((if pdf then [PDF_BETA_HEADER] else [])
           ++ (if cached then [BETA_HEADER] else []))%list
   else Ok [])%result.

Definition pipe_headers (api_key : string) (beta_headers : list string)
  : headers :=
  ([ ("x-api-key", api_key);
     ("anthropic-version", API_VERSION);
     ("content-type", "application/json") ]
   ++ match beta_headers with
      | [] => []
      | _ => [ ("anthropic-beta", join "," beta_headers) ]
      end)%list.

(** The two [except] clauses of [pipe], which differ by the prefix of
    the message: [error_msg = f"{prefix}{str(e)}"], the request identifier
    appended if [self.request_id] holds one, the event, and the error
    dictionary as the result. *)
Definition pipe_except (prefix : string) (__event_emitter__ : bool)
  (e : pyexc) : M PipeResult :=
  (rid <- get_request_id ;;
   let error_msg := with_request_id (prefix ++ exc_str e) rid in
   emit __event_emitter__ error_msg true ;;;
   ret (Value (error_text error_msg)))%M.

(** The inner [try] of [pipe] with its [except RequestException]. *)
Definition pipe_call (hs : headers) (payload body : pydict)
  (__event_emitter__ : bool) : M PipeResult :=
  (try_except
     (stream <- lift (dgetitem payload "stream") ;;
      if py_truthy stream then
        ret (Generator {| sc_url := MODEL_URL; sc_headers := hs;
                          sc_payload := payload; sc_body := body;
                          sc_emitter := __event_emitter__ |})
      else
        response <- _send_request MODEL_URL hs payload ;;
        if negb (status_is (status_code response) 200) then
          ret (Value (error_text
                        ("Error: HTTP " ++ format_status (status_code response)
                           ++ ": " ++ text response)))
        else
          hr <- _handle_response response ;;
          c <- lift (getitem_str (fst hr) "content") ;;
          c0 <- lift (getitem_0 c) ;;
          response_text <- lift (getitem_str c0 "text") ;;
          emit __event_emitter__ "Request completed successfully" true ;;;
          ret (Value response_text))
     is_RequestException
     (pipe_except "Request failed: " __event_emitter__))%M.

(** The outer [try] of [pipe] with its [except Exception]. *)
Definition pipe_try (body : pydict) (__event_emitter__ : bool) : M PipeResult :=
  (try_except
     (bm <- lift (dgetitem body "messages") ;;
      sm <- lift (pop_system_message bm) ;;
      emit __event_emitter__ "Processing request..." false ;;;
      payload <- lift (pipe_payload body (fst sm) (snd sm)) ;;
      beta_headers <- lift (pipe_beta_headers body) ;;
      api_key <- (fun st => (Ok (ANTHROPIC_API_KEY (self st)), st)) ;;
      pipe_call (pipe_headers api_key beta_headers) payload body __event_emitter__)
     is_Exception
     (pipe_except "Error: " __event_emitter__))%M.

Definition pipe (body : pydict) (__event_emitter__ : bool) : M PipeResult :=
  fun st =>
    if String.eqb (ANTHROPIC_API_KEY (self st)) EmptyString then
      (emit __event_emitter__ "Error: ANTHROPIC_API_KEY is required" true ;;;
       ret (Value (error_text "Error: ANTHROPIC_API_KEY is required")))%M st
    else pipe_try body __event_emitter__ st.

(** The host consuming what [pipe] returned: a generator is run to its
    end, a value is the single output. *)
Definition consume (r : PipeResult) (st : State) : list pyval * State :=
  match r with
  | Value v => ([v], st)
  | Generator g =>
      _stream_with_ui (sc_url g) (sc_headers g) (sc_payload g) (sc_body g)
        (sc_emitter g) st
  end.
End Entry.

(** ** A reference runtime

    An executable instance of [PyRuntime], after CPython 3.11, for running
    the adapter on concrete inputs.  Its range: white space and digits are
    the ASCII ones; in [repr] every character above U+00A0 other than the
    soft hyphen and the surrogates counts as printable; nesting is limited
    by the length of the document and not by the interpreter's recursion
    limit. *)

Module Ref.

Definition byte (a : ascii) : Z := Z.of_N (N_of_ascii a).
Definition chr (z : Z) : ascii := ascii_of_N (Z.to_N z).
Definition str1 (a : ascii) : string := String a EmptyString.

Definition hex_digit (z : Z) : string :=
  str1 (chr (if z <? 10 then 48 + z else 87 + z)).

(** ["%02x" % z] for a byte *)
Definition hex2 (z : Z) : string := hex_digit (z / 16) ++ hex_digit (z mod 16).

Definition is_cont (z : Z) : bool := (128 <=? z) && (z <? 192).

(** The UTF-8 encoding of a code point, surrogates included. *)
Definition utf8_encode (c : Z) : string :=
  if c <? 128 then str1 (chr c)
  else if c <? 2048 then
    String (chr (192 + c / 64)) (str1 (chr (128 + c mod 64)))
  else if c <? 65536 then
    String (chr (224 + c / 4096))
      (String (chr (128 + (c / 64) mod 64)) (str1 (chr (128 + c mod 64))))
  else
    String (chr (240 + c / 262144))
      (String (chr (128 + (c / 4096) mod 64))
         (String (chr (128 + (c / 64) mod 64)) (str1 (chr (128 + c mod 64))))).

(** *** Decoding UTF-8 with the [surrogatepass] handler *)

Inductive utf8_step : Type :=
| Good (n : nat)                      (* a sequence of [n] bytes *)
| Bad (len : nat) (reason : string).  (* the error covers [len] bytes *)

Definition INVALID_START : string := "invalid start byte".
Definition INVALID_CONT : string := "invalid continuation byte".
Definition UNEXPECTED_END : string := "unexpected end of data".

(** The sequence at the head of [s], which is not empty. *)
Definition utf8_head (s : string) : utf8_step :=
  let n := String.length s in
  let b := fun i => match String.get i s with Some a => byte a | None => 0 end in
  let ch := b 0%nat in
  let ch2 := b 1%nat in
  if ch <? 128 then Good 1
  else if ch <? 194 then Bad 1 INVALID_START
  else if ch <? 224 then
    if (n <? 2)%nat then Bad n UNEXPECTED_END
    else if negb (is_cont ch2) then Bad 1 INVALID_CONT
    else Good 2
  else if ch <? 240 then
    if (n <? 2)%nat then Bad n UNEXPECTED_END
    else if negb (is_cont ch2) then Bad 1 INVALID_CONT
    else if (ch =? 224) && (ch2 <? 160) then Bad 1 INVALID_CONT
    else if (ch =? 237) && (160 <=? ch2) then
      (* a surrogate: passed when its three bytes are there *)
      if (3 <=? n)%nat && is_cont (b 2%nat) then Good 3 else Bad 1 INVALID_CONT
    else if (n <? 3)%nat then Bad n UNEXPECTED_END
    else if negb (is_cont (b 2%nat)) then Bad 2 INVALID_CONT
    else Good 3
  else if ch <? 245 then
    if (n <? 2)%nat then Bad n UNEXPECTED_END
    else if negb (is_cont ch2) then Bad 1 INVALID_CONT
    else if (ch =? 240) && (ch2 <? 144) then Bad 1 INVALID_CONT
    else if (ch =? 244) && (144 <=? ch2) then Bad 1 INVALID_CONT
    else if (n <? 3)%nat then Bad n UNEXPECTED_END
    else if negb (is_cont (b 2%nat)) then Bad 2 INVALID_CONT
    else if (n <? 4)%nat then Bad n UNEXPECTED_END
    else if negb (is_cont (b 3%nat)) then Bad 3 INVALID_CONT
    else Good 4
  else Bad 1 INVALID_START.

(** The [UnicodeDecodeError] of the codec [name] for [len] bytes at the head
    of [s], which is byte [pos] of the input. *)
Definition codec_error (name s : string) (pos len : nat) (reason : string)
  : pyexc :=
  let p := string_of_Z (Z.of_nat pos) in
  mk_exc UnicodeDecodeError
    (if (len =? 1)%nat then
       "'" ++ name ++ "' codec can't decode byte 0x"
         ++ hex2 (match String.get 0 s with Some a => byte a | None => 0 end)
         ++ " in position " ++ p ++ ": " ++ reason
     else
       "'" ++ name ++ "' codec can't decode bytes in position " ++ p ++ "-"
         ++ string_of_Z (Z.of_nat (pos + len - 1)) ++ ": " ++ reason).

Definition decode_error : string -> nat -> nat -> string -> pyexc :=
  codec_error "utf-8".

(** The first decoding error of [s], read from byte [pos] of the input;
    [fuel] is at least the length of [s]. *)
Fixpoint utf8_scan (fuel pos : nat) (s : string) : option pyexc :=
  match fuel, s with
  | _, EmptyString => None
  | O, _ => None
  | S fuel', _ =>
      match utf8_head s with
      | Good n => utf8_scan fuel' (pos + n) (drop n s)
      | Bad len reason => Some (decode_error s pos len reason)
      end
  end.

(** Is byte [i] of [s] the byte [z]? *)
Definition byte_is (s : string) (i : nat) (z : Z) : bool :=
  match String.get i s with
  | Some a => byte a =? z
  | None => false
  end.

Definition BOM_UTF8 : string :=
  String (chr 239) (String (chr 187) (str1 (chr 191))).

(** *** UTF-16 and UTF-32, with the [surrogatepass] handler *)

(** The bytes [i] and following of [s] as one number, least significant
    byte first or last. *)
Definition unit_at (little : bool) (width : nat) (s : string) : Z :=
  let bytes := map byte (list_ascii_of_string (String.substring 0 width s)) in
  fold_left (fun acc z => acc * 256 + z) (if little then rev bytes else bytes) 0.

Definition is_high (u : Z) : bool := (55296 <=? u) && (u <=? 56319).
Definition is_low (u : Z) : bool := (56320 <=? u) && (u <=? 57343).

(** UTF-16: a surrogate that stands alone is passed, an odd byte at the
    end is an error. *)
Fixpoint utf16_scan (fuel : nat) (little : bool) (pos : nat) (s acc : string)
  : result string :=
  match fuel, s with
  | _, EmptyString => Ok acc
  | O, _ => Ok acc
  | S fuel', _ =>
      if (String.length s <? 2)%nat then
        Raise (codec_error (if little then "utf-16-le" else "utf-16-be") s pos 1
                 "truncated data")
      else
        let u := unit_at little 2 s in
        let u2 := unit_at little 2 (drop 2 s) in
        if is_high u && (4 <=? String.length s)%nat && is_low u2 then
          utf16_scan fuel' little (pos + 4) (drop 4 s)
            (acc ++ utf8_encode (65536 + ((u - 55296) * 1024 + (u2 - 56320))))
        else
          utf16_scan fuel' little (pos + 2) (drop 2 s) (acc ++ utf8_encode u)
  end.

(** UTF-32: a surrogate is passed, a number above U+10FFFF and a group cut
    short are errors. *)
Fixpoint utf32_scan (fuel : nat) (little : bool) (pos : nat) (s acc : string)
  : result string :=
  match fuel, s with
  | _, EmptyString => Ok acc
  | O, _ => Ok acc
  | S fuel', _ =>
      let name := if little then "utf-32-le" else "utf-32-be" in
      if (String.length s <? 4)%nat then
        Raise (codec_error name s pos (String.length s) "truncated data")
      else
        let u := unit_at little 4 s in
        if 1114112 <=? u then
          Raise (codec_error name s pos 4 "code point not in range(0x110000)")
        else utf32_scan fuel' little (pos + 4) (drop 4 s) (acc ++ utf8_encode u)
  end.

Inductive encoding : Type :=
| UTF_8 | UTF_8_SIG
| UTF_16 | UTF_16_LE | UTF_16_BE
| UTF_32 | UTF_32_LE | UTF_32_BE.

(** [json.detect_encoding] *)
Definition detect_encoding (b : string) : encoding :=
  let n := String.length b in
  let at_ := fun i => match String.get i b with Some a => byte a | None => 0 end in
  let b0 := at_ 0%nat in
  let b1 := at_ 1%nat in
  let b2 := at_ 2%nat in
  let b3 := at_ 3%nat in
  if (4 <=? n)%nat
     && (((b0 =? 0) && (b1 =? 0) && (b2 =? 254) && (b3 =? 255))
         || ((b0 =? 255) && (b1 =? 254) && (b2 =? 0) && (b3 =? 0)))
  then UTF_32
  else if (2 <=? n)%nat
          && (((b0 =? 254) && (b1 =? 255)) || ((b0 =? 255) && (b1 =? 254)))
  then UTF_16
  else if startswith b BOM_UTF8 then UTF_8_SIG
  else if (4 <=? n)%nat then
    if b0 =? 0 then (if b1 =? 0 then UTF_32_BE else UTF_16_BE)
    else if b1 =? 0 then
      (if (b2 =? 0) && (b3 =? 0) then UTF_32_LE else UTF_16_LE)
    else UTF_8
  else if (n =? 2)%nat then
    if b0 =? 0 then UTF_16_BE
    else if b1 =? 0 then UTF_16_LE
    else UTF_8
  else UTF_8.

Definition decode_utf8 (body : string) : result string :=
  match utf8_scan (String.length body) 0 body with
  | Some e => Raise e
  | None => Ok body
  end.

(** [b.decode(detect_encoding(b), "surrogatepass")]: the text, in UTF-8. *)
Definition decode (b : string) : result string :=
  let n := String.length b in
  match detect_encoding b with
  | UTF_8 => decode_utf8 b
  | UTF_8_SIG => decode_utf8 (drop 3 b)
  | UTF_16 => utf16_scan n (byte_is b 0 255) 2 (drop 2 b) ""
  | UTF_16_LE => utf16_scan n true 0 b ""
  | UTF_16_BE => utf16_scan n false 0 b ""
  | UTF_32 => utf32_scan n (byte_is b 0 255) 4 (drop 4 b) ""
  | UTF_32_LE => utf32_scan n true 0 b ""
  | UTF_32_BE => utf32_scan n false 0 b ""
  end.

(** *** Numbers *)

Definition is_digit (a : ascii) : bool :=
  let z := byte a in (48 <=? z) && (z <=? 57).

Definition is_space (a : ascii) : bool :=
  let z := byte a in ((9 <=? z) && (z <=? 13)) || ((28 <=? z) && (z <=? 32)).

Fixpoint lstrip (s : string) : string :=
  match s with
  | String a s' => if is_space a then lstrip s' else s
  | EmptyString => s
  end.

Fixpoint rstrip (s : string) : string :=
  match s with
  | EmptyString => EmptyString
  | String a s' =>
      match rstrip s' with
      | EmptyString => if is_space a then EmptyString else str1 a
      | r => String a r
      end
  end.

(** [s.strip()] *)
Definition strip (s : string) : string := rstrip (lstrip s).

(** A run of digits, where one underscore may stand between two digits:
    the value and count of the digits read, and the rest.  [None] when no
    digit is there. *)
Fixpoint digits_from (acc : Z) (n : nat) (s : string) : Z * nat * string :=
  match s with
  | String a s' =>
      if is_digit a then digits_from (10 * acc + (byte a - 48)) (S n) s'
      else if Ascii.eqb a "_" then
        match s' with
        | String a' _ =>
            if is_digit a' then digits_from acc n s' else (acc, n, s)
        | EmptyString => (acc, n, s)
        end
      else (acc, n, s)
  | EmptyString => (acc, n, s)
  end.

Definition digits (s : string) : option (Z * nat * string) :=
  match s with
  | String a _ => if is_digit a then Some (digits_from 0 0 s) else None
  | EmptyString => None
  end.

(** [(negative?, rest)] after an optional sign *)
Definition sign (s : string) : bool * string :=
  match s with
  | String "-" s' => (true, s')
  | String "+" s' => (false, s')
  | _ => (false, s)
  end.

Definition repr_char (c : string) : string :=
  let z := match String.get 0 c with Some a => byte a | None => 0 end in
  if String.eqb c "\" then "\\"
  else if z =? 10 then "\n"
  else if z =? 13 then "\r"
  else if z =? 9 then "\t"
  else if (z <? 32) || (z =? 127) then "\x" ++ hex2 z
  else if z =? 194 then
    (* U+0080 .. U+00BF *)
    let z2 := match String.get 1 c with Some a => byte a | None => 0 end in
    if (z2 <=? 160) || (z2 =? 173) then "\x" ++ hex2 z2 else c
  else if z =? 237 then
    (* U+D000 .. U+DFFF: a surrogate is escaped *)
    let z2 := match String.get 1 c with Some a => byte a | None => 0 end in
    let z3 := match String.get 2 c with Some a => byte a | None => 0 end in
    let cp := 53248 + (z2 - 128) * 64 + (z3 - 128) in
    if 160 <=? z2 then "\u" ++ hex2 (cp / 256) ++ hex2 (cp mod 256) else c
  else c.

(** [repr(s)] for a [str] *)
Definition repr_str (s : string) : string :=
  let has q := substring_of (str1 q) s in
  let quote : ascii := if has "'"%char && negb (has (chr 34)) then chr 34 else "'"%char in
  let esc c :=
    if String.eqb c (str1 quote) then "\" ++ c else repr_char c in
  str1 quote ++ String.concat "" (map esc (utf8_chars s)) ++ str1 quote.

Definition MAX_STR_DIGITS : nat := 4300.

(** [int(s)] *)
Definition int_of_str (s : string) : result Z :=
  let bad := raise ValueError
               ("invalid literal for int() with base 10: " ++ repr_str s) in
  let '(neg, r) := sign (strip s) in
  match digits r with
  | Some (v, n, EmptyString) =>
      if (MAX_STR_DIGITS <? n)%nat then
        raise ValueError
          ("Exceeds the limit (4300 digits) for integer string conversion: value has "
             ++ string_of_Z (Z.of_nat n)
             ++ " digits; use sys.set_int_max_str_digits() to increase the limit")
      else Ok (if neg then - v else v)
  | _ => bad
  end.

(** The binary64 number nearest to [m * 10^e], ties to even. *)
Definition float_of_decimal (neg : bool) (m e : Z) : spec_float :=
  if m =? 0 then S754_zero neg
  else if 0 <=? e then
    binary_normalize prec64 emax64 (if neg then - (m * 10 ^ e) else m * 10 ^ e) 0 false
  else
    let '(q, e', l) := SFdiv_core_binary prec64 emax64 m 0 (10 ^ (- e)) 0 in
    binary_round_aux prec64 emax64 neg q e' l.

Definition lower_eq (s lit : string) : bool := String.eqb (lower s) lit.

(** [float(s)] *)
Definition float_of_str (s : string) : result spec_float :=
  let bad := raise ValueError
               ("could not convert string to float: " ++ repr_str s) in
  let '(neg, r) := sign (strip s) in
  if lower_eq r "inf" || lower_eq r "infinity" then Ok (S754_infinity neg)
  else if lower_eq r "nan" then Ok S754_nan
  else
    let '(ip, ni, r1) := match digits r with
                         | Some x => x
                         | None => (0, O, r)
                         end in
    let '(fp, nf, r2) :=
      match r1 with
      | String "." r' =>
          match digits r' with
          | Some (v, n, r'') => (v, n, r'')
          | None => (0, O, r')
          end
      | _ => (0, O, r1)
      end in
    if (ni + nf =? 0)%nat then bad
    else
      let m := ip * 10 ^ Z.of_nat nf + fp in
      match r2 with
      | EmptyString => Ok (float_of_decimal neg m (- Z.of_nat nf))
      | String c r3 =>
          if Ascii.eqb c "e" || Ascii.eqb c "E" then
            let '(eneg, r4) := sign r3 in
            match digits r4 with
            | Some (ev, _, EmptyString) =>
                Ok (float_of_decimal neg m
                      ((if eneg then - ev else ev) - Z.of_nat nf))
            | _ => bad
            end
          else bad
      end.

(** *** [json.loads] *)

(** [JSONDecodeError(msg, doc, pos)], where [rest] is what follows
    position [pos] in [doc]. *)
Definition json_error {A} (msg doc rest : string) : result A :=
  let nbytes := (String.length doc - String.length rest)%nat in
  let before := String.substring 0 nbytes doc in
  let pos := py_len before in
  let lines := split (chr 10) before in
  let lineno := List.length lines in
  let colno := S (py_len (last_str lines)) in
  raise JSONDecodeError
    (msg ++ ": line " ++ string_of_Z (Z.of_nat lineno)
         ++ " column " ++ string_of_Z (Z.of_nat colno)
         ++ " (char " ++ string_of_Z (Z.of_nat pos) ++ ")").

Definition is_json_ws (a : ascii) : bool :=
  let z := byte a in (z =? 32) || (z =? 9) || (z =? 10) || (z =? 13).

Fixpoint skip_ws (s : string) : string :=
  match s with
  | String a s' => if is_json_ws a then skip_ws s' else s
  | EmptyString => s
  end.

Definition hex_value (a : ascii) : option Z :=
  let z := byte a in
  if (48 <=? z) && (z <=? 57) then Some (z - 48)
  else if (97 <=? z) && (z <=? 102) then Some (z - 87)
  else if (65 <=? z) && (z <=? 70) then Some (z - 55)
  else None.

(** Four hexadecimal digits at the head of [s]. *)
Definition hex4 (s : string) : option (Z * string) :=
  match s with
  | String a (String b (String c (String d r))) =>
      match hex_value a, hex_value b, hex_value c, hex_value d with
      | Some x, Some y, Some z, Some w =>
          Some (((x * 16 + y) * 16 + z) * 16 + w, r)
      | _, _, _, _ => None
      end
  | _ => None
  end.

Definition simple_escape (a : ascii) : option ascii :=
  let z := byte a in
  if (z =? 34) || (z =? 92) || (z =? 47) then Some a
  else if z =? 98 then Some (chr 8)
  else if z =? 102 then Some (chr 12)
  else if z =? 110 then Some (chr 10)
  else if z =? 114 then Some (chr 13)
  else if z =? 116 then Some (chr 9)
  else None.

(** A [\uXXXX] escape, [s] being what follows the [u]: the code point
    and the rest.  [at_u] is the input from the [u] on. *)
Definition unicode_escape (doc at_u s : string) : result (Z * string) :=
  if (py_len s <=? 4)%nat then json_error "Invalid \uXXXX escape" doc at_u
  else
    match hex4 s with
    | None => json_error "Invalid \uXXXX escape" doc at_u
    | Some (c, r) =>
        if (55296 <=? c) && (c <=? 56319) && (6 <? py_len r)%nat then
          match r with
          | String "\" (String "u" r2) =>
              match hex4 r2 with
              | None => json_error "Invalid \uXXXX escape" doc (drop 1 r)
              | Some (c2, r3) =>
                  if (56320 <=? c2) && (c2 <=? 57343)
                  then Ok (65536 + ((c - 55296) * 1024 + (c2 - 56320)), r3)
                  else Ok (c, r)
              end
          | _ => Ok (c, r)
          end
        else Ok (c, r)
    end.

(** The string whose opening quote ends [begin]'s first character: [s] is
    the input after what was read so far, [acc] the characters read. *)
Fixpoint scanstring (fuel : nat) (doc begin s acc : string)
  : result (string * string) :=
  match fuel with
  | O => json_error "Unterminated string starting at" doc begin
  | S fuel' =>
      match s with
      | EmptyString => json_error "Unterminated string starting at" doc begin
      | String a r =>
          let z := byte a in
          if z =? 34 then Ok (acc, r)
          else if z =? 92 then
            match r with
            | EmptyString => json_error "Unterminated string starting at" doc begin
            | String e r' =>
                if Ascii.eqb e "u" then
                  (' (c, r'') <- unicode_escape doc r r' ;;
                   scanstring fuel' doc begin r'' (acc ++ utf8_encode c))%result
                else
                  match simple_escape e with
                  | Some c => scanstring fuel' doc begin r' (acc ++ str1 c)
                  | None => json_error "Invalid \escape" doc s
                  end
            end
          else if z <=? 31 then json_error "Invalid control character at" doc s
          else scanstring fuel' doc begin r (acc ++ str1 a)
      end
  end.

Fixpoint span_digits (s : string) : string * string :=
  match s with
  | String a r =>
      if is_digit a then let '(d, r') := span_digits r in (String a d, r')
      else (EmptyString, s)
  | EmptyString => (EmptyString, s)
  end.

(** The number at the head of [s]: its text, whether it is a float, and
    the rest; [None] when no number starts there. *)
Definition match_number (s : string) : option (string * bool * string) :=
  let '(minus, s1) := match s with
                      | String "-" r => ("-", r)
                      | _ => ("", s)
                      end in
  match s1 with
  | EmptyString => None
  | String a r =>
      let int_part :=
        if Ascii.eqb a "0" then Some ("0", r)
        else if is_digit a then
          let '(d, r') := span_digits r in Some (String a d, r')
        else None in
      match int_part with
      | None => None
      | Some (ip, s2) =>
          let '(frac, s3) :=
            match s2 with
            | String "." (String d r') =>
                if is_digit d then
                  let '(ds, r'') := span_digits (String d r') in ("." ++ ds, r'')
                else ("", s2)
            | _ => ("", s2)
            end in
          let '(ex, s4) :=
            match s3 with
            | String e (String c r') =>
                if Ascii.eqb e "e" || Ascii.eqb e "E" then
                  let '(sg, r1) :=
                    match c, r' with
                    | "-"%char, String _ _ => ("-", r')
                    | "+"%char, String _ _ => ("+", r')
                    | _, _ => ("", String c r')
                    end in
                  match span_digits r1 with
                  | (EmptyString, _) => ("", s3)
                  | (ds, r2) => (str1 e ++ sg ++ ds, r2)
                  end
                else ("", s3)
            | _ => ("", s3)
            end in
          let is_float := negb (String.eqb frac "" && String.eqb ex "") in
          Some (minus ++ ip ++ frac ++ ex, is_float, s4)
      end
  end.

Definition number (doc s : string) : result (pyval * string) :=
  match match_number s with
  | None => json_error "Expecting value" doc s
  | Some (lexeme, true, r) => (f <- float_of_str lexeme ;; Ok (PFloat f, r))%result
  | Some (lexeme, false, r) => (z <- int_of_str lexeme ;; Ok (PInt z, r))%result
  end.

Definition RECURSION : pyexc :=
  mk_exc OtherException "maximum recursion depth exceeded".

(** The scanner: a value at the head of [s], then the members of an
    object after its opening brace or a comma, and the items of an
    array. *)
Fixpoint scan_once (fuel : nat) (doc s : string) : result (pyval * string) :=
  match fuel with
  | O => Raise RECURSION
  | S fuel' =>
      match s with
      | EmptyString => json_error "Expecting value" doc s
      | String a r =>
          let z := byte a in
          if z =? 34 then
            (' (str, r') <- scanstring (String.length r) doc s r "" ;;
             Ok (PStr str, r'))%result
          else if z =? 123 then
            match skip_ws r with
            | String "}" r' => Ok (PDict [], r')
            | r' => object_members fuel' doc r' []
            end
          else if z =? 91 then
            match skip_ws r with
            | String "]" r' => Ok (PList [], r')
            | r' => array_items fuel' doc r' []
            end
          else if startswith s "null" then Ok (PNone, drop 4 s)
          else if startswith s "true" then Ok (PBool true, drop 4 s)
          else if startswith s "false" then Ok (PBool false, drop 5 s)
          else if startswith s "NaN" then Ok (PFloat S754_nan, drop 3 s)
          else if startswith s "Infinity" then
            Ok (PFloat (S754_infinity false), drop 8 s)
          else if startswith s "-Infinity" then
            Ok (PFloat (S754_infinity true), drop 9 s)
          else number doc s
      end
  end
with object_members (fuel : nat) (doc s : string) (acc : pydict)
  : result (pyval * string) :=
  match fuel with
  | O => Raise RECURSION
  | S fuel' =>
      match s with
      | String a r =>
          if byte a =? 34 then
            (' (key, r1) <- scanstring (String.length r) doc s r "" ;;
             match skip_ws r1 with
             | String ":" r2 =>
                 ' (val, r3) <- scan_once fuel' doc (skip_ws r2) ;;
                 let acc' := dset acc key val in
                 match skip_ws r3 with
                 | String "}" r4 => Ok (PDict acc', r4)
                 | String "," r4 => object_members fuel' doc (skip_ws r4) acc'
                 | r4 => json_error "Expecting ',' delimiter" doc r4
                 end
             | r2 => json_error "Expecting ':' delimiter" doc r2
             end)%result
          else json_error "Expecting property name enclosed in double quotes" doc s
      | EmptyString =>
          json_error "Expecting property name enclosed in double quotes" doc s
      end
  end
with array_items (fuel : nat) (doc s : string) (acc : list pyval)
  : result (pyval * string) :=
  match fuel with
  | O => Raise RECURSION
  | S fuel' =>
      (' (val, r) <- scan_once fuel' doc s ;;
       let acc' := (acc ++ [val])%list in
       match skip_ws r with
       | String "]" r' => Ok (PList acc', r')
       | String "," r' => array_items fuel' doc (skip_ws r') acc'
       | r' => json_error "Expecting ',' delimiter" doc r'
       end)%result
  end.

(** [json.loads(b)] for [bytes] *)
Definition json_loads (b : string) : result pyval :=
  (doc <- decode b ;;
   ' (v, r) <- scan_once (2 * String.length doc + 2) doc (skip_ws doc) ;;
   match skip_ws r with
   | EmptyString => Ok v
   | r' => json_error "Extra data" doc r'
   end)%result.

(** *** [str] and [repr] *)

Fixpoint zeros (n : nat) : string :=
  match n with O => "" | S n' => "0" ++ zeros n' end.

(** The number of decimal digits of [z > 0]. *)
Definition ndigits (z : Z) : nat := String.length (string_of_Z z).

(** The least [j] with [m * 10^j >= d], searched upwards. *)
Fixpoint scale_up (fuel : nat) (m d : Z) (j : nat) : nat :=
  match fuel with
  | O => j
  | S fuel' => if d <=? m then j else scale_up fuel' (m * 10) d (S j)
  end.

(** [decpt]: the position of the decimal point of [m * 2^e], so that the
    value lies in [10^(decpt-1), 10^decpt). *)
Definition decimal_point (m e : Z) : Z :=
  if 0 <=? e then Z.of_nat (ndigits (m * 2 ^ e))
  else
    let d := 2 ^ (- e) in
    if d <=? m then Z.of_nat (ndigits (m / d))
    else 1 - Z.of_nat (scale_up 400 m d 0).

(** [floor(m * 2^e * 10^k)] and whether the fraction left is below, at or
    above one half. *)
Definition scaled (m e k : Z) : Z * comparison :=
  let num := m * (if 0 <=? e then 2 ^ e else 1) * (if 0 <=? k then 10 ^ k else 1) in
  let den := (if 0 <=? e then 1 else 2 ^ (- e)) * (if 0 <=? k then 1 else 10 ^ (- k)) in
  (num / den, (2 * (num mod den) ?= den)).

(** The shortest digit string that reads back as [m * 2^e]: the digits
    as a number, and how many were asked for; [n] digits are tried first,
    and of two candidates the nearer one. *)
Fixpoint shortest (fuel n : nat) (m e decpt : Z) : Z * nat :=
  let k := Z.of_nat n - decpt in
  let '(lo, half) := scaled m e k in
  let back c := float_of_decimal false c (- k) in
  let f := S754_finite false (Z.to_pos m) e in
  let ok c := match SFcompare (back c) f with Some Eq => true | _ => false end in
  let near := match half with
              | Lt => lo
              | Gt => lo + 1
              | Eq => if Z.even lo then lo else lo + 1
              end in
  let far := if near =? lo then lo + 1 else lo in
  match fuel with
  | O => (near, n)
  | S fuel' =>
      if ok near then (near, n)
      else if ok far then (far, n)
      else shortest fuel' (S n) m e decpt
  end.

Fixpoint strip_zeros (fuel : nat) (d : Z) : Z :=
  match fuel with
  | O => d
  | S fuel' => if (d mod 10 =? 0) && negb (d =? 0) then strip_zeros fuel' (d / 10) else d
  end.

(** [repr(f)] for a [float] *)
Definition repr_float (f : spec_float) : string :=
  match f with
  | S754_nan => "nan"
  | S754_infinity s => if s then "-inf" else "inf"
  | S754_zero s => if s then "-0.0" else "0.0"
  | S754_finite s m e =>
      let decpt0 := decimal_point (Z.pos m) e in
      let '(d, asked) := shortest 16 1 (Z.pos m) e decpt0 in
      (* a candidate rounded up to a power of ten has one digit more *)
      let decpt := if (asked <? ndigits d)%nat then decpt0 + 1 else decpt0 in
      let ds := string_of_Z (strip_zeros 20 d) in
      let n := Z.of_nat (String.length ds) in
      let body :=
        if (-4 <? decpt) && (decpt <=? 16) then
          if decpt <=? 0 then "0." ++ zeros (Z.to_nat (- decpt)) ++ ds
          else if decpt <? n then
            String.substring 0 (Z.to_nat decpt) ds ++ "."
              ++ drop (Z.to_nat decpt) ds
          else ds ++ zeros (Z.to_nat (decpt - n)) ++ ".0"
        else
          let x := decpt - 1 in
          String.substring 0 1 ds
            ++ (if 1 <? n then "." ++ drop 1 ds else "")
            ++ "e" ++ (if x <? 0 then "-" else "+")
            ++ two_digits (Z.abs x) in
      (if s then "-" else "") ++ body
  end.

(** [repr(v)] *)
Fixpoint py_repr (v : pyval) : string :=
  match v with
  | PNone => "None"
  | PBool b => if b then "True" else "False"
  | PInt z => string_of_Z z
  | PFloat f => repr_float f
  | PStr s => repr_str s
  | PList l => "[" ++ join ", " (map py_repr l) ++ "]"
  | PDict d =>
      "{" ++ join ", "
               (map (fun kv => match kv with
                               | (k, x) => repr_str k ++ ": " ++ py_repr x
                               end) d)
          ++ "}"
  end.

(** [str(v)] *)
Definition py_str (v : pyval) : string :=
  match v with
  | PStr s => s
  | _ => py_repr v
  end.

(** *** The host's helper *)

(** [message["role"] == "system"] *)
Definition is_system (message : pyval) : result bool :=
  (r <- getitem_str message "role" ;; Ok (py_eq_str r "system"))%result.

Fixpoint get_system_message (messages : list pyval) : result pyval :=
  match messages with
  | [] => Ok PNone
  | m :: rest =>
      (b <- is_system m ;; if b then Ok m else get_system_message rest)%result
  end.

Fixpoint remove_system_message (messages : list pyval) : result (list pyval) :=
  match messages with
  | [] => Ok []
  | m :: rest =>
      (b <- is_system m ;;
       out <- remove_system_message rest ;;
       Ok (if b then out else m :: out))%result
  end.

(** Modelled from the spec: [pop_system_message] of the host
    ([open_webui.utils.misc]) is not among the sources.  The spec has the
    system message "extracted separately and not part of the message
    sequence sent as messages", the other messages "in the same order as
    input": the first message whose role is [system], or [None], and the
    messages whose role is not [system]. *)
Definition pop_system_message (messages : pyval) : result (pyval * pyval) :=
  (ms <- py_iter messages ;;
   sys <- get_system_message ms ;;
   others <- remove_system_message ms ;;
   Ok (sys, PList others))%result.

Definition runtime : PyRuntime :=
  Build_PyRuntime json_loads int_of_str float_of_str py_str pop_system_message.
End Ref.

(** * Vocabulary of the statements *)

(** The dictionary literal of [pipe], before the [None] values are taken
    out. *)
Definition payload_literal (model_name : string) (processed : list pyval)
  (max_tokens temperature top_k top_p : pyval) (body : pydict) : pydict :=
  [ ("model", PStr model_name);
    ("messages", PList processed);
    ("max_tokens", max_tokens);
    ("temperature", temperature);
    ("top_k", top_k);
    ("top_p", top_p);
    ("stream", dget_default body "stream" PNone);
    ("metadata", dget_default body "metadata" (PDict [])) ].

(** The keys that [pipe] sets after the [None] values were taken out. *)
Definition late_key (k : string) : bool :=
  str_in k ["system"; "tools"; "tool_choice"; "response_format"].


(** The states [st] and [st'] agree on the instance and on everything that
    concerns the network: the requests sent, the answers still to come and
    the time slept.  Only the log and the events may differ. *)
Definition net_equal (st st' : State) : Prop :=
  self st = self st' /\
  sent (world st) = sent (world st') /\
  http_script (world st) = http_script (world st') /\
  aio_script (world st) = aio_script (world st') /\
  slept (world st) = slept (world st').

(** [f"data:{media_type};base64,{data}"]: the URL of an inline payload. *)
Definition data_url (media_type data : string) : string :=
  "data:" ++ media_type ++ ";base64," ++ data.

(** The content item [{"type": "image_url", "image_url": {"url": url}}]. *)
Definition image_url_item (url : string) : pyval :=
  PDict [ ("type", PStr "image_url"); ("image_url", PDict [ ("url", PStr url) ]) ].

(** The item that an inline image is normalised to. *)
Definition inline_image (media_type data : string) : pyval :=
  PDict [ ("type", PStr "image");
          ("source", PDict [ ("type", PStr "base64");
                             ("media_type", PStr media_type);
                             ("data", PStr data) ]) ].

(** The model that a [pdf_url] item is checked against:
    [item.get("model", "").split("/")[-1]], when the entry is a string. *)
Definition pdf_model_name (item : pydict) : option string :=
  match dget_default item "model" (PStr "") with
  | PStr m => Some (last_str (split "/" m))
  | _ => None
  end.

(** What [process_content] produces: a dictionary whose [type] is one of
    the three kinds of the provider. *)
Definition produced_kind (c : pyval) : Prop :=
  exists d k,
    c = PDict d /\ dget d "type" = Some (PStr k)
    /\ In k ["text"; "image"; "document"].

(** The events of the stream that matter to the decoder. *)
Definition delta_event (fragment : string) : pyval :=
  PDict [ ("type", PStr "content_block_delta");
          ("delta", PDict [ ("text", PStr fragment) ]) ].
Definition stop_event : pyval := PDict [ ("type", PStr "message_stop") ].

(** Three lines of a stream, each with its line feed. *)
Definition line_A : string :=
  dq "data: {'type':'content_block_delta','delta':{'text':'A'}}" ++ LF.
Definition line_B : string :=
  dq "data: {'type':'content_block_delta','delta':{'text':'B'}}" ++ LF.
Definition line_stop : string :=
  dq "data: {'type':'message_stop'}" ++ LF.

(** [logging.error(f"Failed to parse streaming response: {e}")] applied to
    a state. *)
Definition logged_parse_failure (e : pyexc) (st : State) : State :=
  snd (logging ERROR ("Failed to parse streaming response: " ++ exc_str e) st).

(** The state [st] with one more streamed reply at the head of what
    [session.post] will give, and a reply with another body. *)
Definition with_stream (st : State) (r : ClientResponse) : State :=
  {| self := self st;
     world := {| http_script := http_script (world st);
                 aio_script := Ok r :: aio_script (world st);
                 sent := sent (world st); slept := slept (world st);
                 log := log (world st); events := events (world st) |} |}.

Definition with_content (r : ClientResponse) (c : list chunk) : ClientResponse :=
  {| status := status r; cr_headers := cr_headers r; cr_text := cr_text r;
     content := c |}.

(** The request that [_send_request] issues, again at each attempt. *)
Definition posted (url : string) (hs : headers) (payload : pydict) : Request :=
  {| req_via := via_requests; req_url := url; req_headers := hs;
     req_json := payload |}.

(** The responses [rs], met from the given [retry_count] on, are all rate
    limited, and the waits that the adapter computes for them, one after
    each, are [ws]: each is a number that [time.sleep] accepts. *)
Fixpoint rate_limited {RT : PyRuntime} (retry_count : Z) (rs : list Response)
  (ws : list Z) : Prop :=
  match rs, ws with
  | [], [] => True
  | r :: rs', w :: ws' =>
      status_code r = Some 429 /\
      retry_after_of retry_count r = Ok w /\ 0 <= w /\
      rate_limited (retry_count + 1) rs' ws'
  | _, _ => False
  end.

(** A computation that never assigns an attribute of the instance. *)
Definition keeps_self {A : Type} (m : M A) : Prop :=
  forall st, self (snd (m st)) = self st.

(** The state [st] of an instance that holds the request identifier [rid],
    left there by an earlier call. *)
Definition holding (rid : option string) (st : State) : State :=
  snd (set_request_id rid st).

(** A base64 text of [n] characters. *)
Fixpoint filler (n : nat) : string :=
  match n with
  | O => ""
  | S n' => String "A" (filler n')
  end.

(** The entry [k] of a dictionary value. *)
Definition field (v : pyval) (k : string) : option pyval :=
  match v with
  | PDict d => dget d k
  | _ => None
  end.

(** The character [c] occurs in [s]. *)
Fixpoint has_char (c : ascii) (s : string) : bool :=
  match s with
  | EmptyString => false
  | String a s' => Ascii.eqb a c || has_char c s'
  end.

(** [{"type": "function", "function": tool}] *)
Definition wrapped_tool (tool : pyval) : pyval :=
  PDict [ ("type", PStr "function"); ("function", tool) ].

(** The keys that a payload of [pipe] can hold. *)
Definition PAYLOAD_KEYS : list string :=
  [ "model"; "messages"; "max_tokens"; "temperature"; "top_k"; "top_p";
    "stream"; "metadata"; "system"; "tools"; "tool_choice"; "response_format" ].

(** A chat message whose content is a text, and the item that the text is
    normalised to. *)
Definition chat_message (role text : string) : pyval :=
  PDict [ ("role", PStr role); ("content", PStr text) ].
Definition text_item (text : pyval) : pyval :=
  PDict [ ("type", PStr "text"); ("text", text) ].

(** The item that an image given by reference is normalised to. *)
Definition remote_image (url : string) : pyval :=
  PDict [ ("type", PStr "image");
          ("source", PDict [ ("type", PStr "url"); ("url", PStr url) ]) ].

(** The [cache_control] entry that a document takes over from its item:
    present when the item's entry is true as a condition. *)
Definition kept_hint (item : pydict) : pydict :=
  match dget item "cache_control" with
  | Some cc => if py_truthy cc then [ ("cache_control", cc) ] else []
  | None => []
  end.

(** The documents that a [pdf_url] item is normalised to, inline and by
    reference. *)
Definition inline_document (data : string) (hint : pydict) : pyval :=
  PDict ([ ("type", PStr "document");
           ("source", PDict [ ("type", PStr "base64");
                              ("media_type", PStr "application/pdf");
                              ("data", PStr data) ]) ] ++ hint).
Definition remote_document (url : string) (hint : pydict) : pyval :=
  PDict ([ ("type", PStr "document");
           ("source", PDict [ ("type", PStr "url"); ("url", PStr url) ]) ] ++ hint).

(** A processed message. *)
Definition processed_message (role : pyval) (contents : list pyval) : pyval :=
  PDict [ ("role", role); ("content", PList contents) ].

(** The items that [process_content] produces, by shape. *)
Inductive produced : pyval -> Prop :=
| produced_text (tx : pyval) : produced (text_item tx)
| produced_inline (media_type data : string) :
    In media_type SUPPORTED_IMAGE_TYPES ->
    produced (inline_image media_type data)
| produced_remote (url : string) : produced (remote_image url)
| produced_document (d : pydict) :
    dget d "type" = Some (PStr "document") -> produced (PDict d).

(** The items of a message whose content is a list. *)
Definition items_of (msg : pyval) : list pyval :=
  match field msg "content" with
  | Some (PList items) => items
  | _ => []
  end.

(** An item of type [pdf_url], and an item with a [cache_control] that is
    true as a condition. *)
Definition is_pdf_item (item : pyval) : bool :=
  match field item "type" with
  | Some t => py_eq_str t "pdf_url"
  | None => false
  end.
Definition has_hint (item : pyval) : bool :=
  match field item "cache_control" with
  | Some c => py_truthy c
  | None => false
  end.

(** Some item of some message passes the test [p]. *)
Definition mentions (p : pyval -> bool) (msgs : list pyval) : bool :=
  existsb (fun msg => existsb p (items_of msg)) msgs.

(** Messages as the host sends them: dictionaries with a [content], the
    items of a content list being dictionaries. *)
Definition well_formed (msgs : list pyval) : Prop :=
  Forall (fun msg =>
            exists d c,
              msg = PDict d /\ dget d "content" = Some c /\
              forall items, c = PList items ->
                            Forall (fun item => exists x, item = PDict x) items)
    msgs.

(** The request that [pipe] builds for a body, when it gets that far: the
    instance has a key, the messages are there, the payload and the headers
    could be built. *)
Definition prepared {RT : PyRuntime} (body : pydict) (st : State)
  (hs : headers) (payload : pydict) : Prop :=
  ANTHROPIC_API_KEY (self st) <> "" /\
  exists bm sm beta,
    dget body "messages" = Some bm /\
    pop_system_message bm = Ok sm /\
    pipe_payload body (fst sm) (snd sm) = Ok payload /\
    pipe_beta_headers body = Ok beta /\
    hs = pipe_headers (ANTHROPIC_API_KEY (self st)) beta.

(** The events that the host has received when it listens, none when it
    does not. *)
Definition heard (emitter : bool) (es : list Event) : list Event :=
  if emitter then es else [].

(** The [usage] of a reply is a dictionary or absent. *)
Definition usage_ok (reply : pydict) : Prop :=
  match dget reply "usage" with
  | None | Some (PDict _) => True
  | Some _ => False
  end.

(** The request that a stream issues. *)
Definition streamed (url : string) (hs : headers) (payload : pydict) : Request :=
  {| req_via := via_aiohttp; req_url := url; req_headers := hs;
     req_json := payload |}.

(** The prefix of the error text of [pipe], according to the [except]
    clause that catches the exception. *)
Definition error_prefix (e : pyexc) : string :=
  if is_RequestException (exc_cls e) then "Request failed: " else "Error: ".

(** A line of the stream that the decoder has no use for: it does not
    start with [data: ], or it carries an event that is neither the closing
    one nor a delta with a [text]. *)
Definition silent {RT : PyRuntime} (line : string) : Prop :=
  startswith line "data: " = false \/
  exists d t,
    json_loads (drop 6 line) = Ok (PDict d) /\
    dget d "type" = Some (PStr t) /\
    t <> "message_stop" /\
    (t = "content_block_delta" ->
     exists dl, dget d "delta" = Some (PDict dl) /\ dget dl "text" = None).

(** A line that carries the closing event. *)
Definition closing {RT : PyRuntime} (line : string) : Prop :=
  startswith line "data: " = true /\
  exists d,
    json_loads (drop 6 line) = Ok (PDict d) /\
    dget d "type" = Some (PStr "message_stop").

(** * Scenarios

    Concrete requests, responses and worlds on which the adapter is run
    with the reference runtime. *)

Module Scenario.

Definition world_of (http : list (result Response))
  (aio : list (result ClientResponse)) : World :=
  {| http_script := http; aio_script := aio;
     sent := []; slept := []; log := []; events := [] |}.

(** A new instance with a key, facing the given scripts. *)
Definition fresh (http : list (result Response))
  (aio : list (result ClientResponse)) : State :=
  {| self := __init__ "sk-ant-test"; world := world_of http aio |}.

(** The request body that the host reads from the JSON text [s]. *)
Definition body_of (s : string) : pydict :=
  match Ref.json_loads (dq s) with
  | Ok (PDict d) => d
  | _ => []
  end.

(** The messages of a body, as [pop_system_message] gives them. *)
Definition system_of (body : pydict) : pyval :=
  match Ref.pop_system_message (dget_default body "messages" PNone) with
  | Ok (s, _) => s
  | Raise _ => PNone
  end.
Definition messages_of (body : pydict) : pyval :=
  match Ref.pop_system_message (dget_default body "messages" PNone) with
  | Ok (_, m) => m
  | Raise _ => PNone
  end.

(** The payload that [pipe] builds for a body. *)
Definition payload_of (body : pydict) : pydict :=
  match pipe_payload (RT := Ref.runtime) body (system_of body) (messages_of body) with
  | Ok p => p
  | Raise _ => []
  end.


(** A body without a [stream] key. *)
Definition body_no_stream : pydict :=
  body_of "{'model': 'anthropic/claude-3-opus-20240229',
            'messages': [{'role': 'user', 'content': 'hi'}]}".


(** A successful reply. *)
Definition reply_200 : Response :=
  {| status_code := Some 200;
     resp_headers := [("x-request-id", "req_200")];
     text := dq "{'content': [{'type': 'text', 'text': 'Hello'}]}";
     json := Ref.json_loads (dq "{'content': [{'type': 'text', 'text': 'Hello'}]}") |}.

(** A document attached for a model that does not read PDF. *)
Definition pdf_item_opus : pydict :=
  body_of "{'type': 'pdf_url', 'pdf_url': {'url': 'https://example.org/a.pdf'},
            'model': 'anthropic/claude-3-opus-20240229'}".

Definition body_pdf_opus : pydict :=
  body_of "{'model': 'anthropic/claude-3-opus-20240229', 'stream': false,
            'messages': [{'role': 'user', 'content': [
               {'type': 'text', 'text': 'Summarise this.'},
               {'type': 'pdf_url', 'pdf_url': {'url': 'https://example.org/a.pdf'},
                'model': 'anthropic/claude-3-opus-20240229'}]}]}".

(** A document without a [model] entry, in a request for a model that
    reads PDF. *)
Definition body_pdf_no_entry : pydict :=
  body_of "{'model': 'anthropic/claude-3-5-sonnet-20241022', 'stream': false,
            'messages': [{'role': 'user', 'content': [
               {'type': 'pdf_url', 'pdf_url': {'url': 'https://example.org/a.pdf'}}]}]}".

(** Tool items, and an image that carries a cache hint. *)
Definition tool_call_message : pyval :=
  PDict (body_of "{'role': 'assistant', 'content': [
                     {'type': 'text', 'text': 'Let me look.'},
                     {'type': 'tool_calls', 'id': 'call_1', 'name': 'get_weather'}]}").

Definition tool_result_message : pyval :=
  PDict (body_of "{'role': 'user', 'content': [
                     {'type': 'tool_results', 'tool_use_id': 'call_1', 'content': 'sunny'}]}").

Definition cached_image_message : pyval :=
  PDict (body_of "{'role': 'user', 'content': [
                     {'type': 'image_url', 'image_url': {'url': 'https://example.org/a.png'},
                      'cache_control': {'type': 'ephemeral'}}]}").

Definition cached_pdf_message : pyval :=
  PDict (body_of "{'role': 'user', 'content': [
                     {'type': 'pdf_url', 'pdf_url': {'url': 'https://example.org/a.pdf'},
                      'model': 'claude-3-5-sonnet-20241022',
                      'cache_control': {'type': 'ephemeral'}}]}").

(** A streamed reply: the three lines, then whatever else arrives. *)
Definition stream_AB (more : list chunk) : ClientResponse :=
  {| status := 200;
     cr_headers := [("x-request-id", "req_011C")];
     cr_text := "";
     content := Line line_A :: Line line_B :: Line line_stop :: more |}.

(** A line whose payload is the single byte [0xff]: not UTF-8, hence not
    JSON. *)
Definition line_ff : string :=
  "data: " ++ String (ascii_of_N 255) EmptyString ++ LF.

(** A line whose payload is cut short. *)
Definition line_cut : string := dq "data: {'type':'content_blo" ++ LF.

Definition stream_of (lines : list string) : ClientResponse :=
  {| status := 200; cr_headers := []; cr_text := "";
     content := map Line lines |}.

(** A rate-limited reply, without and with the server's advice. *)
Definition reply_429 : Response :=
  {| status_code := Some 429; resp_headers := [];
     text := dq "{'error': {'message': 'rate limited'}}";
     json := Ref.json_loads (dq "{'error': {'message': 'rate limited'}}") |}.

Definition reply_429_after (seconds : string) : Response :=
  {| status_code := Some 429; resp_headers := [("Retry-After", seconds)];
     text := ""; json := Ref.json_loads "" |}.

(** Two requests in a row: a streamed one, and one that is malformed. *)
Definition body_stream : pydict :=
  body_of "{'model': 'anthropic/claude-3-opus-20240229', 'stream': true,
            'messages': [{'role': 'user', 'content': 'hi'}]}".

Definition body_no_messages : pydict :=
  body_of "{'model': 'anthropic/claude-3-opus-20240229', 'stream': false}".

(** The state of the instance after a first invocation with the body
    [first], whose result the host consumes to its end. *)
Definition after_call (first : pydict) (st : State) : State :=
  match pipe (RT := Ref.runtime) first false st with
  | (Ok r, st1) => snd (consume (RT := Ref.runtime) r st1)
  | (Raise _, st1) => st1
  end.

(** A request that uses every field that [pipe] reads, and one that it
    does not read. *)
Definition body_full : pydict :=
  body_of "{'model': 'anthropic/claude-3-5-sonnet-20241022', 'max_tokens': 1000,
            'temperature': 1, 'top_k': 40.0, 'top_p': '0.9', 'stream': false,
            'metadata': {'user_id': 'u1'}, 'stop': ['END'],
            'messages': [{'role': 'system', 'content': 'Be brief.'},
                         {'role': 'user', 'content': 'weather?', 'name': 'ann'}],
            'tools': [{'name': 'get_weather'}, {'name': 'get_time'}],
            'tool_choice': {'type': 'auto'},
            'response_format': {'type': 'json_object', 'schema': {}}}".

(** A request that names a tool choice and a model without a provider
    prefix, and gives no tools. *)
Definition body_choice_only : pydict :=
  body_of "{'model': 'claude-3-haiku-20240307', 'stream': false,
            'messages': [{'role': 'user', 'content': 'hi'}],
            'tool_choice': {'type': 'auto'}}".

(** A document for a model that reads PDF, inline and with a cache hint. *)
Definition pdf_item_inline : pydict :=
  body_of "{'type': 'pdf_url',
            'pdf_url': {'url': 'data:application/pdf;base64,JVBERi0xLjQK'},
            'model': 'anthropic/claude-3-5-sonnet-20241022',
            'cache_control': {'type': 'ephemeral'}}".

(** A request with a document and a cache hint on another item. *)
Definition body_pdf_cached : pydict :=
  body_of "{'model': 'anthropic/claude-3-5-sonnet-20241022', 'stream': false,
            'messages': [
              {'role': 'user', 'content': 'Two files follow.'},
              {'role': 'user', 'content': [
                 {'type': 'text', 'text': 'Compare.', 'cache_control': {'type': 'ephemeral'}},
                 {'type': 'pdf_url', 'pdf_url': {'url': 'https://example.org/a.pdf'},
                  'model': 'claude-3-5-sonnet-20241022'}]}]}".

(** An ordinary request, not streamed, and what [pipe] builds for it. *)
Definition body_plain : pydict :=
  body_of "{'model': 'anthropic/claude-3-opus-20240229', 'stream': false,
            'messages': [{'role': 'user', 'content': 'hi'}]}".

Definition headers_plain : headers :=
  [ ("x-api-key", "sk-ant-test"); ("anthropic-version", "2023-06-01");
    ("content-type", "application/json") ].

(** A reply that reports an overloaded server. *)
Definition reply_529 : Response :=
  {| status_code := Some 529;
     resp_headers := [("x-request-id", "req_529")];
     text := dq "{'error': {'message': 'Overloaded'}}";
     json := Ref.json_loads (dq "{'error': {'message': 'Overloaded'}}") |}.

(** A rate-limited reply that names a date. *)
Definition reply_429_date : Response :=
  reply_429_after "Wed, 21 Oct 2015 07:28:00 GMT".

(** Lines of a stream that carry no text: the name of an event, a
    keep-alive, the start of a message, a delta of tool input. *)
Definition line_event_name : string := "event: content_block_delta" ++ LF.
Definition line_ping : string := dq "data: {'type': 'ping'}" ++ LF.
Definition line_tool_delta : string :=
  dq "data: {'type':'content_block_delta','delta':{'type':'input_json_delta','partial_json':'{}'}}"
  ++ LF.

(** A line whose event has no [type]. *)
Definition line_untyped : string := dq "data: {'delta': {'text': 'A'}}" ++ LF.

(** A stream that is refused, and a stream whose status is 200. *)
Definition stream_refused : ClientResponse :=
  {| status := 429;
     cr_headers := [("X-Request-Id", "req_429"); ("Retry-After", "1")];
     cr_text := dq "{'error':{'message':'invalid_api_key'}}";
     content := [Line line_A] |}.

Definition stream_with (lines : list string) : ClientResponse :=
  {| status := 200; cr_headers := [("x-request-id", "req_011C")]; cr_text := "";
     content := map Line lines |}.

(** An error reply with a JSON body, and one whose body is not JSON. *)
Definition reply_401 : Response :=
  {| status_code := Some 401;
     resp_headers := [("X-Request-Id", "req_401")];
     text := dq "{'error': {'type': 'authentication_error', 'message': 'invalid x-api-key'}}";
     json := Ref.json_loads
               (dq "{'error': {'type': 'authentication_error', 'message': 'invalid x-api-key'}}") |}.

Definition reply_502 : Response :=
  {| status_code := Some 502; resp_headers := [];
     text := "<html>Bad Gateway</html>";
     json := Ref.json_loads "<html>Bad Gateway</html>" |}.

(** A request to the model [name] for [n] tokens. *)
Definition body_tokens (name : string) (n : Z) : pydict :=
  [ ("model", PStr ("anthropic/" ++ name));
    ("max_tokens", PInt n);
    ("messages", PList [chat_message "user" "hi"]);
    ("stream", PBool false) ].

(** A request with an image of a type that the provider does not take. *)
Definition body_bmp : pydict :=
  body_of "{'model': 'anthropic/claude-3-opus-20240229', 'stream': false,
            'messages': [{'role': 'user', 'content': [
               {'type': 'image_url',
                'image_url': {'url': 'data:image/bmp;base64,Qk0='}}]}]}".
End Scenario.
(** * Properties *)

(** ** Dictionaries *)

Lemma dget_dset_same (d : pydict) (k : string) (v : pyval) :
  dget (dset d k v) k = Some v.
Proof.
  induction d as [|[k' v'] d IH]; simpl.
  - now rewrite String.eqb_refl.
  - destruct (String.eqb k' k) eqn:E; simpl.
    + now rewrite String.eqb_refl.
    + now rewrite E.
Qed.

Lemma dget_dset_other (d : pydict) (k k' : string) (v : pyval) :
  k <> k' -> dget (dset d k v) k' = dget d k'.
Proof.
  intros Hne.
  induction d as [|[k0 v0] d IH]; simpl.
  - destruct (String.eqb k k') eqn:E; [apply String.eqb_eq in E; contradiction | reflexivity].
  - destruct (String.eqb k0 k) eqn:E; simpl.
    + apply String.eqb_eq in E; subst k0.
      destruct (String.eqb k k') eqn:E'; [apply String.eqb_eq in E'; contradiction | reflexivity].
    + destruct (String.eqb k0 k'); [reflexivity | exact IH].
Qed.

Lemma dget_not_in (d : pydict) (k : string) :
  ~ In k (map fst d) -> dget d k = None.
Proof.
  induction d as [|[k' v'] d IH]; simpl; intros H; [reflexivity|].
  destruct (String.eqb k' k) eqn:E.
  - apply String.eqb_eq in E. tauto.
  - apply IH. tauto.
Qed.

Lemma drop_none_keys (d : pydict) (k : string) :
  In k (map fst (filter (fun kv => negb (is_none (snd kv))) d)) -> In k (map fst d).
Proof.
  induction d as [|[k' v'] d IH]; simpl; [tauto|].
  destruct (is_none v'); simpl; tauto.
Qed.

(** Filtering the [None] values out of a dictionary with distinct keys. *)
Lemma dget_filter_none (d : pydict) (k : string) :
  NoDup (map fst d) ->
  dget (filter (fun kv => negb (is_none (snd kv))) d) k =
  match dget d k with
  | Some v => if is_none v then None else Some v
  | None => None
  end.
Proof.
  induction d as [|[k' v'] d IH]; simpl; intros Hnd; [reflexivity|].
  inversion Hnd as [|? ? Hnotin Hnd']; subst.
  destruct (String.eqb k' k) eqn:E.
  - apply String.eqb_eq in E; subst k'.
    destruct (is_none v') eqn:Hn; simpl.
    + apply dget_not_in. intros Hin. apply Hnotin. now apply drop_none_keys.
    + now rewrite String.eqb_refl.
  - destruct (is_none v') eqn:Hn; simpl; [|rewrite E]; now apply IH.
Qed.

Lemma is_none_true (v : pyval) : is_none v = true -> v = PNone.
Proof. destruct v; simpl; congruence. Qed.

Lemma is_none_false (v : pyval) : is_none v = false -> v <> PNone.
Proof. destruct v; simpl; congruence. Qed.

(** ** Fallible computations *)

Lemma rbind_Ok {A B} (r : result A) (k : A -> result B) (b : B) :
  rbind r k = Ok b -> exists a, r = Ok a /\ k a = Ok b.
Proof. destruct r; simpl; [eauto | discriminate]. Qed.

(** Splits a hypothesis [rbind r k = Ok b] into its two steps. *)
Ltac inv_bind H :=
  let a := fresh "a" in
  let Ha := fresh "Ha" in
  apply rbind_Ok in H; destruct H as (a & Ha & H).

Tactic Notation "bind_inv" hyp(H) "as" ident(a) ident(Ha) :=
  apply rbind_Ok in H; destruct H as (a & Ha & H).

Lemma py_min_limit_not_none (a : pyval) (limit : Z) (m : pyval) :
  py_min_limit a limit = Ok m -> is_none m = false.
Proof.
  destruct a; simpl; try discriminate; intros H; inversion H; subst;
    repeat match goal with |- context [if ?c then _ else _] => destruct c end;
    reflexivity.
Qed.




(** ** The payload *)

Section PayloadFacts.
Context {RT : PyRuntime}.

Lemma payload_literal_NoDup m p a b c d body :
  NoDup (map fst (payload_literal m p a b c d body)).
Proof.
  simpl. repeat constructor; simpl; intuition discriminate.
Qed.

(** What a successful [pipe_payload] went through. *)
Lemma pipe_payload_inv (body : pydict) (sys msgs : pyval) (payload : pydict) :
  pipe_payload body sys msgs = Ok payload ->
  exists model_s processed max_tokens temperature top_k top_p,
    let model_name := last_str (split "/" model_s) in
    let ceiling := table_get MODEL_MAX_TOKENS model_name 4096 in
    dget body "model" = Some (PStr model_s) /\
    _process_messages msgs = Ok processed /\
    py_min_limit (dget_default body "max_tokens" (PInt ceiling)) ceiling
      = Ok max_tokens /\
    optional_float body "temperature" = Ok temperature /\
    optional_int body "top_k" = Ok top_k /\
    optional_float body "top_p" = Ok top_p /\
    (forall k, late_key k = false ->
       dget payload k =
       dget (drop_none (payload_literal model_name processed max_tokens
                          temperature top_k top_p body)) k) /\
    (forall k v, dget payload k = Some v -> k <> "tool_choice" -> v <> PNone).
Proof.
  unfold pipe_payload. intros H.
  inv_bind H. rename a into model, Ha into Hmodel.
  inv_bind H. rename a into model_s, Ha into Hstr.
  inv_bind H. rename a into processed, Ha into Hproc.
  inv_bind H. rename a into max_tokens, Ha into Hmin.
  inv_bind H. rename a into temperature, Ha into Htemp.
  inv_bind H. rename a into top_k, Ha into Htopk.
  inv_bind H. rename a into top_p, Ha into Htopp.
  inv_bind H. rename a into p2, Ha into Htools.
  exists model_s, processed, max_tokens, temperature, top_k, top_p.
  cbv zeta.
  assert (Hm : dget body "model" = Some (PStr model_s)).
  { unfold dgetitem in Hmodel. destruct (dget body "model") as [v|]; [|discriminate].
    inversion Hmodel; subst. destruct model; simpl in Hstr; try discriminate.
    now inversion Hstr. }
  repeat (split; [assumption|]).
  set (base := drop_none (payload_literal (last_str (split "/" model_s)) processed
                            max_tokens temperature top_k top_p body)) in *.
  set (p1 := if py_truthy sys then dset base "system" (PStr (py_str sys)) else base) in *.
  assert (Hbase_nn : forall k v, dget base k = Some v -> v <> PNone).
  { intros k v Hk. apply is_none_false.
    unfold base, drop_none in Hk.
    rewrite dget_filter_none in Hk by apply payload_literal_NoDup.
    destruct (dget _ k) as [v0|]; [|discriminate].
    destruct (is_none v0) eqn:E; [discriminate|]. now inversion Hk; subst. }
  assert (Hp1 : (forall k, late_key k = false -> dget p1 k = dget base k)
                /\ (forall k v, dget p1 k = Some v -> v <> PNone)).
  { unfold p1. destruct (py_truthy sys); [|now split].
    split.
    - intros k Hk. apply dget_dset_other. intros E0; subst k; discriminate.
    - intros k v Hk. destruct (String.eqb "system" k) eqn:E.
      + apply String.eqb_eq in E; subst k. rewrite dget_dset_same in Hk.
        inversion Hk; discriminate.
      + rewrite dget_dset_other in Hk; [eauto|].
        intros E0; subst k. now rewrite String.eqb_refl in E. }
  destruct Hp1 as [Hp1a Hp1b].
  assert (Hp2 : (forall k, late_key k = false -> dget p2 k = dget base k)
                /\ (forall k v, dget p2 k = Some v -> k <> "tool_choice" -> v <> PNone)).
  { destruct (dmem body "tools").
    - inv_bind Htools. inv_bind Htools. inversion Htools; subst p2. split.
      + intros k Hk. rewrite !dget_dset_other; [now apply Hp1a | |];
          intros E0; subst k; discriminate.
      + intros k v Hk Hne.
        rewrite dget_dset_other in Hk by congruence.
        destruct (String.eqb "tools" k) eqn:E.
        * apply String.eqb_eq in E; subst k. rewrite dget_dset_same in Hk.
          inversion Hk; discriminate.
        * rewrite dget_dset_other in Hk; [eauto|].
          intros E0; subst k. now rewrite String.eqb_refl in E.
    - inversion Htools; subst p2. split; eauto. }
  destruct Hp2 as [Hp2a Hp2b].
  destruct (dmem body "response_format").
  - inv_bind H. inv_bind H. inversion H; subst payload. split.
    + intros k Hk. rewrite dget_dset_other; [now apply Hp2a|].
      intros E0; subst k; discriminate.
    + intros k v Hk Hne.
      destruct (String.eqb "response_format" k) eqn:E.
      * apply String.eqb_eq in E; subst k. rewrite dget_dset_same in Hk.
        inversion Hk; discriminate.
      * rewrite dget_dset_other in Hk; [eauto|].
        intros E0; subst k. now rewrite String.eqb_refl in E.
  - inversion H; subst payload. split; eauto.
Qed.
End PayloadFacts.

(** ** Payload builder: the ceiling on [max_tokens] *)



(** Listed models, run: a request of 8000 tokens to a model whose ceiling
    is 8192 goes out as 8000, a request of 100000 as 8192, and for a model
    whose ceiling is 4096 a request of 8000 goes out as 4096. *)
Example listed_models_get_their_ceilings :
  dget (Scenario.payload_of (Scenario.body_tokens "claude-3-5-sonnet-20241022" 8000))
    "max_tokens" = Some (PInt 8000) /\
  dget (Scenario.payload_of (Scenario.body_tokens "claude-3-5-sonnet-20241022" 100000))
    "max_tokens" = Some (PInt 8192) /\
  dget (Scenario.payload_of (Scenario.body_tokens "claude-3-opus-20240229" 8000))
    "max_tokens" = Some (PInt 4096).
Proof. repeat split; vm_compute; reflexivity. Qed.

(** ** States that differ by log entries and events only *)

Lemma emit_effect (e : bool) (d : string) (b : bool) (st : State) :
  exists st', emit e d b st = (Ok tt, st') /\ net_equal st st'.
Proof.
  unfold emit. destruct e; eexists; (split; [reflexivity|]); repeat split.
Qed.

Lemma net_equal_refl (st : State) : net_equal st st.
Proof. repeat split. Qed.

Lemma net_equal_trans (a b c : State) :
  net_equal a b -> net_equal b c -> net_equal a c.
Proof.
  unfold net_equal. intros (H1 & H2 & H3 & H4 & H5) (G1 & G2 & G3 & G4 & G5).
  repeat split; congruence.
Qed.

Section EntryFacts.
Context {RT : PyRuntime}.

(** The two [except] clauses of [pipe] give an error text and touch
    neither the network nor the instance. *)
Lemma pipe_except_effect (prefix : string) (e : pyexc) (emitter : bool)
  (st : State) :
  exists st',
    pipe_except prefix emitter e st
    = (Ok (Value (error_text
                    (with_request_id (prefix ++ exc_str e) (request_id (self st))))),
       st')
    /\ net_equal st st'.
Proof.
  unfold pipe_except, bind, get_request_id, ret.
  destruct (emit_effect emitter
              (with_request_id (prefix ++ exc_str e) (request_id (self st))) true st)
    as (st' & -> & Hq).
  now exists st'.
Qed.

(** A payload built from a body without a usable [stream] has no
    [stream] key. *)
Lemma payload_without_stream (body : pydict) (sys msgs : pyval) (payload : pydict) :
  pipe_payload body sys msgs = Ok payload ->
  dget_default body "stream" PNone = PNone ->
  dget payload "stream" = None.
Proof.
  intros H Hs.
  destruct (pipe_payload_inv body sys msgs payload H)
    as (model_s & processed & max_tokens & temperature & top_k & top_p
        & _ & _ & _ & _ & _ & _ & Hbase & _).
  rewrite Hbase by reflexivity.
  unfold drop_none. rewrite dget_filter_none by apply payload_literal_NoDup.
  unfold payload_literal, dget. cbn [String.eqb Ascii.eqb Bool.eqb].
  now rewrite Hs.
Qed.

(** What [pipe] does once the payload and the headers exist but the
    payload has no [stream] key. *)
Lemma pipe_call_without_stream (hs : headers) (payload body : pydict)
  (emitter : bool) (st : State) :
  dget payload "stream" = None ->
  pipe_call hs payload body emitter st
  = (Raise (mk_exc KeyError (repr_key "stream")), st).
Proof.
  intros H. unfold pipe_call, try_except, bind, lift, dgetitem.
  rewrite H. reflexivity.
Qed.
End EntryFacts.

(** ** Entry point: a body without [stream] *)

(** C10. With an API key configured and the [stream] key of the body absent
    or [None], [pipe] sends nothing, neither through [requests] nor through
    [aiohttp], and returns an error dictionary
    [{"content": ..., "format": "text"}]; when the payload and the headers
    could be built the text is [Error: 'stream'], the [KeyError] of
    [payload["stream"]], followed by the request identifier if the instance
    holds one. *)
Theorem missing_stream_is_an_error {RT : PyRuntime} (body : pydict)
  (emitter : bool) (st : State) :
  ANTHROPIC_API_KEY (self st) <> "" ->
  dget_default body "stream" PNone = PNone ->
  exists msg st',
    pipe body emitter st = (Ok (Value (error_text msg)), st') /\
    net_equal st st' /\
    (forall bm sm payload beta,
        dget body "messages" = Some bm ->
        pop_system_message bm = Ok sm ->
        pipe_payload body (fst sm) (snd sm) = Ok payload ->
        pipe_beta_headers body = Ok beta ->
        msg = with_request_id "Error: 'stream'" (request_id (self st))).
Proof.
  intros Hkey Hstream.
  unfold pipe.
  destruct (String.eqb (ANTHROPIC_API_KEY (self st)) "") eqn:E;
    [apply String.eqb_eq in E; contradiction|].
  unfold pipe_try, try_except.
  (* the steps of the outer [try], one after the other *)
  unfold bind at 1, lift at 1, dgetitem.
  destruct (dget body "messages") as [bm|] eqn:Hbm.
  2:{ destruct (pipe_except_effect "Error: " (mk_exc KeyError (repr_key "messages"))
                  emitter st) as (st' & Heq & Hq).
      cbv beta iota delta [raise is_Exception]. rewrite Heq.
      eexists _, st'. repeat split; try apply Hq. intros; discriminate. }
  unfold bind at 1, lift at 1.
  destruct (pop_system_message bm) as [sm|e] eqn:Hsm.
  2:{ destruct (pipe_except_effect "Error: " e emitter st) as (st' & Heq & Hq).
      cbv beta iota delta [raise is_Exception]. rewrite Heq.
      eexists _, st'. repeat split; try apply Hq.
      intros bm' sm' payload beta Hb Hp. inversion Hb; subst. congruence. }
  unfold bind at 1.
  destruct (emit_effect emitter "Processing request..." false st) as (st1 & -> & Hq1).
  assert (Hrid : request_id (self st1) = request_id (self st))
    by (destruct Hq1 as (<- & _); reflexivity).
  unfold bind at 1, lift at 1.
  destruct (pipe_payload body (fst sm) (snd sm)) as [payload|e] eqn:Hpl.
  2:{ destruct (pipe_except_effect "Error: " e emitter st1) as (st' & Heq & Hq).
      cbv beta iota delta [raise is_Exception]. rewrite Heq.
      eexists _, st'. split; [reflexivity|]. split; [eapply net_equal_trans; eauto|].
      intros bm' sm' payload beta Hb Hp Hpay. inversion Hb; subst.
      rewrite Hsm in Hp. inversion Hp; subst. congruence. }
  unfold bind at 1, lift at 1.
  destruct (pipe_beta_headers body) as [beta|e] eqn:Hbeta.
  2:{ destruct (pipe_except_effect "Error: " e emitter st1) as (st' & Heq & Hq).
      cbv beta iota delta [raise is_Exception]. rewrite Heq.
      eexists _, st'. split; [reflexivity|]. split; [eapply net_equal_trans; eauto|].
      intros; discriminate. }
  unfold bind at 1.
  rewrite pipe_call_without_stream
    by (eapply payload_without_stream; eauto).
  destruct (pipe_except_effect "Error: " (mk_exc KeyError (repr_key "stream"))
              emitter st1) as (st' & Heq & Hq).
  cbv beta iota delta [raise is_Exception]. rewrite Heq.
  eexists _, st'. split; [reflexivity|]. split; [eapply net_equal_trans; eauto|].
  intros. now rewrite Hrid.
Qed.

Lemma missing_stream_is_an_error_witness :
  let st := Scenario.fresh [Ok Scenario.reply_200] [] in
  ANTHROPIC_API_KEY (self st) <> "" /\
  dget_default Scenario.body_no_stream "stream" PNone = PNone /\
  exists msg st',
    pipe (RT := Ref.runtime) Scenario.body_no_stream false st
    = (Ok (Value (error_text msg)), st') /\
    net_equal st st' /\
    (forall bm sm payload beta,
        dget Scenario.body_no_stream "messages" = Some bm ->
        pop_system_message (PyRuntime := Ref.runtime) bm = Ok sm ->
        pipe_payload (RT := Ref.runtime) Scenario.body_no_stream (fst sm) (snd sm)
          = Ok payload ->
        pipe_beta_headers Scenario.body_no_stream = Ok beta ->
        msg = with_request_id "Error: 'stream'" (request_id (self st))).
Proof.
  cbv zeta.
  split; [discriminate|].
  split; [reflexivity|].
  apply (missing_stream_is_an_error (RT := Ref.runtime) Scenario.body_no_stream
           false (Scenario.fresh [Ok Scenario.reply_200] [])).
  - discriminate.
  - reflexivity.
Defined.

(** The same on the scenario, evaluated: the reply that was ready is never
    asked for. *)
Example missing_stream_run :
  let '(r, st') := pipe (RT := Ref.runtime) Scenario.body_no_stream false
                     (Scenario.fresh [Ok Scenario.reply_200] []) in
  r = Ok (Value (error_text "Error: 'stream'")) /\ sent (world st') = [].
Proof. vm_compute. split; reflexivity. Qed.

(** ** Payload builder: absent fields *)




(** ** Content normaliser: inline images *)

Section ImageFacts.
Context {RT : PyRuntime}.

(** An inline image of a supported type is normalised to a [base64]
    source that carries the encoded text as it came. *)
Lemma process_image_inline (media_type data : string) :
  In media_type SUPPORTED_IMAGE_TYPES ->
  process_image (image_url_item (data_url media_type data))
  = Ok (inline_image media_type data).
Proof.
  intros Hin. simpl in Hin.
  decompose [or] Hin; try contradiction; subst media_type; reflexivity.
Qed.

Lemma check_image_inline (media_type data : string) :
  In media_type SUPPORTED_IMAGE_TYPES ->
  check_image (inline_image media_type data)
  = if Qle_bool (image_size (py_len data)) (inject_Z MAX_IMAGE_SIZE)
    then Ok tt
    else raise ValueError (IMAGE_SIZE_ERROR (py_len data)).
Proof.
  intros Hin. unfold check_image, inline_image.
  cbn [getitem_str dgetitem dget rbind String.eqb Ascii.eqb Bool.eqb
       py_eq_str py_len_val negb].
  destruct (Qle_bool _ _); cbn [negb]; [|reflexivity].
  simpl in Hin.
  decompose [or] Hin; try contradiction; subst media_type; reflexivity.
Qed.
(** An inline image of a supported type, alone in a message: the size
    estimate decides. *)
Lemma _process_messages_inline_image (media_type data : string) (role : pyval) :
  In media_type SUPPORTED_IMAGE_TYPES ->
  _process_messages
    (PList [PDict [ ("role", role);
                    ("content", PList [image_url_item (data_url media_type data)]) ]])
  = if Qle_bool (image_size (py_len data)) (inject_Z MAX_IMAGE_SIZE)
    then Ok [PDict [ ("role", role);
                     ("content", PList [inline_image media_type data]) ]]
    else raise ValueError (IMAGE_SIZE_ERROR (py_len data)).
Proof.
  intros Hin.
  unfold _process_messages.
  cbn [py_iter rbind _process_messages_loop _process_messages_message
       getitem_str dgetitem dget String.eqb Ascii.eqb Bool.eqb
       process_content process_content_loop].
  unfold process_content_item.
  cbn [getitem_str dgetitem dget rbind String.eqb Ascii.eqb Bool.eqb
       py_eq_str image_url_item].
  fold (image_url_item (data_url media_type data)).
  rewrite (process_image_inline _ _ Hin).
  cbn [rbind _process_messages_contents].
  unfold _process_messages_content.
  cbn [py_get py_get_default dget_default dget rbind String.eqb Ascii.eqb
       Bool.eqb inline_image].
  fold (inline_image media_type data).
  assert (Hno : forall lit,
            and_then (py_eq_str role lit)
              (Ok (py_eq_str (PStr "image") "tool_calls")) = Ok false
            /\ and_then (py_eq_str role lit)
              (Ok (py_eq_str (PStr "image") "tool_results")) = Ok false).
  { intros lit. unfold and_then. destruct (py_eq_str role lit); split; reflexivity. }
  destruct (Hno "assistant") as [-> _].
  destruct (Hno "user") as [_ ->].
  cbn [rbind py_eq_str String.eqb Ascii.eqb Bool.eqb].
  rewrite (check_image_inline _ _ Hin).
  destruct (Qle_bool _ _); reflexivity.
Qed.
End ImageFacts.



Lemma py_len_filler (n : nat) : py_len (filler n) = n.
Proof. induction n as [|n IH]; [reflexivity|]. cbn. now rewrite IH. Qed.

(** One byte over the limit: an inline image of 6990508 characters is
    estimated at 5242881 bytes, and the message reads 5.00MB. *)
Example oversized_image_is_refused (RT : PyRuntime) :
  _process_messages
    (PList [PDict [ ("role", PStr "user");
                    ("content",
                     PList [image_url_item
                              (data_url "image/jpeg" (filler (Z.to_nat 6990508)))]) ]])
  = raise ValueError "Image size exceeds 5MB limit: 5.00MB".
Proof.
  rewrite (_process_messages_inline_image (RT := RT) "image/jpeg"
             (filler (Z.to_nat 6990508)) (PStr "user"))
    by (simpl; tauto).
  rewrite py_len_filler.
  unfold IMAGE_SIZE_ERROR, image_size. rewrite Z2Nat.id by lia.
  vm_compute. reflexivity.
Qed.

(** ** Content normaliser: documents *)

Lemma process_content_loop_raises (pre post : list pyval) (out : list pyval)
  (item : pyval) (e : pyexc) :
  process_content_loop pre = Ok out ->
  process_content_item item = Raise e ->
  process_content_loop (pre ++ item :: post) = Raise e.
Proof.
  revert out. induction pre as [|x pre IH]; simpl; intros out Hpre Hitem.
  - now rewrite Hitem.
  - destruct (process_content_item x) as [o|]; simpl in *; [|discriminate].
    destruct (process_content_loop pre) as [out'|] eqn:E; simpl in *; [|discriminate].
    now rewrite (IH out' eq_refl Hitem).
Qed.

Section DocumentFacts.
Context {RT : PyRuntime}.

Lemma _process_messages_loop_raises (before after : list pyval)
  (out : list pyval) (message : pyval) (e : pyexc) :
  _process_messages_loop before = Ok out ->
  _process_messages_message message = Raise e ->
  _process_messages_loop (before ++ message :: after) = Raise e.
Proof.
  revert out. induction before as [|x before IH]; simpl; intros out Hb Hm.
  - now rewrite Hm.
  - destruct (_process_messages_message x) as [o|]; simpl in *; [|discriminate].
    destruct (_process_messages_loop before) as [out'|] eqn:E; simpl in *;
      [|discriminate].
    now rewrite (IH out' eq_refl Hm).
Qed.

(** A failure of the payload construction is reported as an error text,
    and nothing has been sent. *)
Lemma pipe_payload_raises (body : pydict) (emitter : bool) (st : State)
  (bm : pyval) (sm : pyval * pyval) (e : pyexc) :
  ANTHROPIC_API_KEY (self st) <> "" ->
  dget body "messages" = Some bm ->
  pop_system_message bm = Ok sm ->
  pipe_payload body (fst sm) (snd sm) = Raise e ->
  exists st',
    pipe body emitter st
    = (Ok (Value (error_text
                    (with_request_id ("Error: " ++ exc_str e)
                       (request_id (self st))))), st')
    /\ net_equal st st'.
Proof.
  intros Hkey Hbm Hsm Hpl.
  unfold pipe.
  destruct (String.eqb (ANTHROPIC_API_KEY (self st)) "") eqn:E;
    [apply String.eqb_eq in E; contradiction|].
  unfold pipe_try, try_except.
  unfold bind at 1, lift at 1, dgetitem. rewrite Hbm.
  unfold bind at 1, lift at 1. rewrite Hsm.
  unfold bind at 1.
  destruct (emit_effect emitter "Processing request..." false st) as (st1 & -> & Hq1).
  unfold bind at 1, lift at 1. rewrite Hpl.
  cbv beta iota delta [is_Exception].
  destruct (pipe_except_effect "Error: " e emitter st1) as (st' & -> & Hq).
  exists st'. split.
  - destruct Hq1 as (<- & _). reflexivity.
  - eapply net_equal_trans; eauto.
Qed.
End DocumentFacts.

(** C5. A [pdf_url] item is accepted only when the model named by its
    [model] entry (the last segment after a slash, the empty name when the
    entry is absent) is one of [SUPPORTED_PDF_MODELS]; for any other model
    [process_content] raises a [ValueError] that names the two supported
    models, and [pipe], which meets this error while it builds the payload,
    returns it as an error text without having sent anything. *)
Theorem pdf_needs_supported_model {RT : PyRuntime} (d : pydict) :
  dget d "type" = Some (PStr "pdf_url") ->
  (forall out, process_content_item (PDict d) = Ok out ->
     exists m, pdf_model_name d = Some m /\ In m SUPPORTED_PDF_MODELS) /\
  (forall m, pdf_model_name d = Some m -> ~ In m SUPPORTED_PDF_MODELS ->
     let e := mk_exc ValueError
                "PDF support is only available for models: claude-3-5-sonnet-20241022, claude-3-5-sonnet-20240620" in
     process_content_item (PDict d) = Raise e /\
     (forall pre post out,
        process_content_loop pre = Ok out ->
        process_content (PList (pre ++ PDict d :: post)) = Raise e) /\
     (forall body emitter st bm sys before after done_before message pre post out
             model_s,
        ANTHROPIC_API_KEY (self st) <> "" ->
        dget body "messages" = Some bm ->
        pop_system_message bm = Ok (sys, PList (before ++ PDict message :: after)) ->
        dget body "model" = Some (PStr model_s) ->
        _process_messages_loop before = Ok done_before ->
        dget message "content" = Some (PList (pre ++ PDict d :: post)) ->
        process_content_loop pre = Ok out ->
        exists st',
          pipe body emitter st
          = (Ok (Value (error_text
                          (with_request_id ("Error: " ++ exc_str e)
                             (request_id (self st))))), st')
          /\ net_equal st st')).
Proof.
  intros Htype.
  assert (Hitem : process_content_item (PDict d)
                  = (m <- py_get_default (PDict d) "model" (PStr "") ;;
                     ms <- as_str m "split" ;;
                     if negb (str_in (last_str (split "/" ms)) SUPPORTED_PDF_MODELS)
                     then raise ValueError PDF_ERROR
                     else (doc <- process_pdf (PDict d) ;; Ok (Some doc)))%result).
  { unfold process_content_item, getitem_str, dgetitem. rewrite Htype. reflexivity. }
  assert (Hin : forall m, str_in m SUPPORTED_PDF_MODELS = true <-> In m SUPPORTED_PDF_MODELS).
  { intros m. unfold str_in. rewrite existsb_exists. split.
    - intros (x & Hx & Heq). apply String.eqb_eq in Heq. now subst.
    - intros H. exists m. split; [assumption | apply String.eqb_refl]. }
  split.
  - intros out Hout. rewrite Hitem in Hout.
    unfold pdf_model_name. cbn [py_get_default rbind] in Hout.
    destruct (dget_default d "model" (PStr "")) as [| | | |ms| |];
      cbn [as_str rbind no_attribute raise] in Hout; try discriminate.
    destruct (str_in (last_str (split "/" ms)) SUPPORTED_PDF_MODELS) eqn:E;
      cbn [negb raise] in Hout; [|discriminate].
    eexists. split; [reflexivity|]. now apply Hin.
  - intros m Hm Hnot e.
    assert (Hraise : process_content_item (PDict d) = Raise e).
    { rewrite Hitem. unfold pdf_model_name in Hm. cbn [py_get_default rbind].
      destruct (dget_default d "model" (PStr "")) as [| | | |ms| |]; try discriminate.
      inversion Hm; subst m. cbn [as_str rbind].
      destruct (str_in (last_str (split "/" ms)) SUPPORTED_PDF_MODELS) eqn:E.
      + apply Hin in E. contradiction.
      + reflexivity. }
    split; [exact Hraise|].
    assert (Hcontent : forall pre post out,
              process_content_loop pre = Ok out ->
              process_content (PList (pre ++ PDict d :: post)) = Raise e).
    { intros pre post out Hpre. unfold process_content. cbn [py_iter rbind].
      eapply process_content_loop_raises; eauto. }
    split; [exact Hcontent|].
    intros body emitter st bm sys before after done_before message pre post out
      model_s Hkey Hbm Hpop Hmodel Hbefore Hmsg Hpre.
    eapply (pipe_payload_raises body emitter st bm _ e Hkey Hbm Hpop).
    unfold pipe_payload, dgetitem. rewrite Hmodel. cbn [rbind as_str fst snd].
    unfold _process_messages. cbn [py_iter rbind].
    erewrite _process_messages_loop_raises; [reflexivity | exact Hbefore |].
    unfold _process_messages_message, getitem_str, dgetitem. rewrite Hmsg.
    cbn [rbind]. now rewrite (Hcontent pre post out Hpre).
Qed.

Lemma pdf_needs_supported_model_witness :
  dget Scenario.pdf_item_opus "type" = Some (PStr "pdf_url") /\
  pdf_model_name Scenario.pdf_item_opus = Some "claude-3-opus-20240229" /\
  process_content_item (PDict Scenario.pdf_item_opus)
  = raise ValueError
      "PDF support is only available for models: claude-3-5-sonnet-20241022, claude-3-5-sonnet-20240620".
Proof.
  split; [reflexivity|]. split; [reflexivity|].
  refine (proj1 (proj2 (pdf_needs_supported_model (RT := Ref.runtime)
                          Scenario.pdf_item_opus _) "claude-3-opus-20240229" _ _)).
  - reflexivity.
  - reflexivity.
  - simpl. intros [H|[H|[]]]; discriminate.
Defined.

(** The request of the scenario, run: the error text comes back and the
    world has seen no request. *)
Example pdf_rejected_before_sending :
  let '(r, st') := pipe (RT := Ref.runtime) Scenario.body_pdf_opus false
                     (Scenario.fresh [Ok Scenario.reply_200] []) in
  r = Ok (Value (error_text
       "Error: PDF support is only available for models: claude-3-5-sonnet-20241022, claude-3-5-sonnet-20240620"))
  /\ sent (world st') = [].
Proof. vm_compute. split; reflexivity. Qed.

(** The model that counts is the one named in the item: a document without
    a [model] entry is refused although the request is for a model of the
    list. *)
Example pdf_without_model_entry :
  fst (pipe (RT := Ref.runtime) Scenario.body_pdf_no_entry false
         (Scenario.fresh [Ok Scenario.reply_200] []))
  = Ok (Value (error_text
       "Error: PDF support is only available for models: claude-3-5-sonnet-20241022, claude-3-5-sonnet-20240620")).
Proof. vm_compute. reflexivity. Qed.

(** ** Message processing: the cache annotation *)

Lemma copy_cache_control_kind (pdf_data : pyval) (document : pydict) (c : pyval) :
  dget document "type" = Some (PStr "document") ->
  copy_cache_control pdf_data document = Ok c ->
  produced_kind c.
Proof.
  intros Ht H. unfold copy_cache_control in H.
  bind_inv H as cc Hcc. destruct (py_truthy cc).
  - bind_inv H as cc' Hcc'. inversion H; subst c.
    exists (dset document "cache_control" cc'), "document". split; [reflexivity|].
    split; [|simpl; tauto].
    rewrite dget_dset_other by discriminate. exact Ht.
  - inversion H; subst c. exists document, "document". simpl; tauto.
Qed.

(** Whatever [process_content] lets through is a text, an image or a
    document. *)
Lemma process_content_item_kind (item c : pyval) :
  process_content_item item = Ok (Some c) -> produced_kind c.
Proof.
  unfold process_content_item. intros H.
  bind_inv H as t Ht.
  destruct (py_eq_str t "text").
  { bind_inv H as tx Htx. inversion H; subst c.
    eexists _, "text". split; [reflexivity|]. simpl; tauto. }
  destruct (py_eq_str t "image_url").
  { bind_inv H as im Him. inversion H; subst c.
    unfold process_image in Him.
    bind_inv Him as iu Hiu. bind_inv Him as u Hu. bind_inv Him as url Hurl.
    destruct (startswith url "data:image").
    - bind_inv Him as parts Hparts. destruct parts as [mime b64].
      bind_inv Him as m1 Hm1. bind_inv Him as media_type Hmt.
      destruct (negb (str_in media_type SUPPORTED_IMAGE_TYPES)); [discriminate|].
      inversion Him. eexists _, "image". split; [reflexivity|]. simpl; tauto.
    - inversion Him. eexists _, "image". split; [reflexivity|]. simpl; tauto. }
  destruct (py_eq_str t "pdf_url"); [|discriminate].
  bind_inv H as m Hm. bind_inv H as ms Hms.
  destruct (negb (str_in _ SUPPORTED_PDF_MODELS)); [discriminate|].
  bind_inv H as doc Hpdf. inversion H; subst c.
  unfold process_pdf in Hpdf.
  bind_inv Hpdf as pu Hpu. bind_inv Hpdf as u Hu. bind_inv Hpdf as url Hurl.
  destruct (startswith url "data:application/pdf").
  - bind_inv Hpdf as parts Hparts. destruct parts as [mime b64].
    eapply copy_cache_control_kind; [|exact Hpdf]. reflexivity.
  - eapply copy_cache_control_kind; [|exact Hpdf]. reflexivity.
Qed.

Lemma process_content_loop_kinds (items out : list pyval) :
  process_content_loop items = Ok out -> Forall produced_kind out.
Proof.
  revert out. induction items as [|x items IH]; simpl; intros out H.
  - inversion H. constructor.
  - bind_inv H as o Ho. bind_inv H as out' Hout'. inversion H; subst out.
    destruct o as [c|]; [constructor|]; eauto using process_content_item_kind.
Qed.

Lemma process_content_kinds (content : pyval) (out : list pyval) :
  process_content content = Ok out -> Forall produced_kind out.
Proof.
  unfold process_content. intros H.
  destruct content;
    try (bind_inv H as items Hitems; eauto using process_content_loop_kinds; fail).
  inversion H. repeat constructor.
  eexists _, "text". split; [reflexivity|]. simpl; tauto.
Qed.

Section AnnotationFacts.
Context {RT : PyRuntime}.

(** On such an item the inner loop of [_process_messages] changes
    nothing: the two branches that set [cache_control] are not taken. *)
Lemma _process_messages_content_unchanged (message c c' : pyval) :
  produced_kind c ->
  _process_messages_content message c = Ok c' -> c' = c.
Proof.
  intros (d & k & -> & Ht & Hk) H.
  unfold _process_messages_content in H.
  bind_inv H as role Hrole.
  assert (Hty : py_get (PDict d) "type" = Ok (PStr k)).
  { unfold py_get, py_get_default, dget_default. now rewrite Ht. }
  rewrite Hty in H. cbn [rbind] in H.
  assert (Hcall : py_eq_str (PStr k) "tool_calls" = false
                  /\ py_eq_str (PStr k) "tool_results" = false).
  { simpl in Hk. decompose [or] Hk; try contradiction; subst k; split; reflexivity. }
  destruct Hcall as [Hc Hr]. rewrite Hc, Hr in H.
  assert (Hand : forall b, and_then b (Ok false) = Ok false) by (now intros []).
  rewrite Hand in H. cbn [rbind] in H.
  bind_inv H as role' Hrole'. rewrite Hand in H. cbn [rbind] in H.
  destruct (py_eq_str (PStr k) "image").
  - bind_inv H as u Hu. now inversion H.
  - now inversion H.
Qed.

Lemma _process_messages_contents_unchanged (message : pyval)
  (contents out : list pyval) :
  Forall produced_kind contents ->
  _process_messages_contents message contents = Ok out -> out = contents.
Proof.
  intros Hall. revert out.
  induction Hall as [|c contents Hc Hall IH]; simpl; intros out H.
  - now inversion H.
  - bind_inv H as c' Hc'. bind_inv H as out' Hout'. inversion H; subst out.
    f_equal; eauto using _process_messages_content_unchanged.
Qed.

(** A processed message holds exactly what [process_content] made of its
    content: [_process_messages] adds no annotation of its own. *)
Lemma _process_messages_message_plain (message m' : pyval) :
  _process_messages_message message = Ok m' ->
  exists mc contents role,
    getitem_str message "content" = Ok mc /\
    process_content mc = Ok contents /\
    getitem_str message "role" = Ok role /\
    m' = PDict [ ("role", role); ("content", PList contents) ].
Proof.
  unfold _process_messages_message. intros H.
  bind_inv H as mc Hmc. bind_inv H as contents Hcontents.
  bind_inv H as processed Hprocessed. bind_inv H as role Hrole.
  inversion H; subst m'.
  exists mc, contents, role. repeat split; try assumption.
  rewrite (_process_messages_contents_unchanged message contents processed); eauto.
  eapply process_content_kinds; eauto.
Qed.
End AnnotationFacts.

(** ** Stream decoder *)

Section StreamFacts.
Context {RT : PyRuntime}.

(** A line that carries a text delta yields its fragment and leaves the
    state as it is. *)
Lemma _stream_with_ui_line_delta (line fragment : string) (emitter : bool)
  (st : State) :
  startswith line "data: " = true ->
  json_loads (drop 6 line) = Ok (delta_event fragment) ->
  _stream_with_ui_line line emitter st = (Ok (Yield (PStr fragment)), st).
Proof.
  intros Hp Hj. unfold _stream_with_ui_line.
  destruct line as [|a line]; [discriminate|].
  rewrite Hp. cbn [String.eqb negb andb].
  unfold try_except, bind, lift. rewrite Hj. reflexivity.
Qed.

(** The closing event ends the loop; the host is told when it listens. *)
Lemma _stream_with_ui_line_stop (line : string) (emitter : bool) (st : State) :
  startswith line "data: " = true ->
  json_loads (drop 6 line) = Ok stop_event ->
  _stream_with_ui_line line emitter st
  = (Ok Break, snd (emit emitter "Request completed" true st)).
Proof.
  intros Hp Hj. unfold _stream_with_ui_line.
  destruct line as [|a line]; [discriminate|].
  rewrite Hp. cbn [String.eqb negb andb].
  unfold try_except, bind, lift. rewrite Hj.
  cbn [stop_event getitem_str dgetitem dget String.eqb Ascii.eqb Bool.eqb
       py_eq_str and_then].
  destruct emitter; reflexivity.
Qed.

(** A line that [json.loads] rejects with [JSONDecodeError] is logged and
    passed over. *)
Lemma _stream_with_ui_line_malformed (line : string) (e : pyexc)
  (emitter : bool) (st : State) :
  startswith line "data: " = true ->
  json_loads (drop 6 line) = Raise e ->
  exc_cls e = JSONDecodeError ->
  _stream_with_ui_line line emitter st = (Ok Next, logged_parse_failure e st).
Proof.
  intros Hp Hj Hc. unfold _stream_with_ui_line.
  destruct line as [|a line]; [discriminate|].
  rewrite Hp. cbn [String.eqb negb andb].
  unfold try_except, bind at 1, lift at 1. rewrite Hj, Hc. reflexivity.
Qed.

(** What a line leads to does not depend on the state: the decoder only
    writes to the log and to the events. *)
Lemma _stream_with_ui_line_exit (line : string) (emitter : bool)
  (st1 st2 : State) :
  fst (_stream_with_ui_line line emitter st1)
  = fst (_stream_with_ui_line line emitter st2).
Proof.
  unfold _stream_with_ui_line.
  destruct (negb (String.eqb line "") && startswith line "data: ");
    [|reflexivity].
  unfold try_except, bind, lift, logging, map_world, ret, emit.
  destruct (json_loads (drop 6 line)) as [data|e];
    [|destruct (is_JSONDecodeError (exc_cls e)); reflexivity].
  destruct (getitem_str data "type") as [t|e];
    [|destruct (is_JSONDecodeError (exc_cls e)); reflexivity].
  destruct (and_then _ _) as [[|]|e];
    [| |destruct (is_JSONDecodeError (exc_cls e)); reflexivity].
  - destruct (getitem_str data "delta") as [dl|e];
      [|destruct (is_JSONDecodeError (exc_cls e)); reflexivity].
    destruct (getitem_str dl "text") as [x|e];
      [reflexivity|destruct (is_JSONDecodeError (exc_cls e)); reflexivity].
  - destruct (py_eq_str t "message_stop"); [|reflexivity].
    destruct emitter; reflexivity.
Qed.

(** Nor do the fragments and the way the loop ends. *)
Lemma _stream_with_ui_lines_output (chunks : list chunk) (emitter : bool)
  (st1 st2 : State) :
  fst (_stream_with_ui_lines chunks emitter st1)
  = fst (_stream_with_ui_lines chunks emitter st2).
Proof.
  revert st1 st2. induction chunks as [|[line|e] chunks IH]; intros st1 st2;
    [reflexivity| |reflexivity].
  cbn [_stream_with_ui_lines].
  pose proof (_stream_with_ui_line_exit line emitter st1 st2) as H.
  destruct (_stream_with_ui_line line emitter st1) as [r1 s1].
  destruct (_stream_with_ui_line line emitter st2) as [r2 s2].
  cbn [fst] in H. subst r2.
  destruct r1 as [[fragment| |]|e]; try reflexivity.
  - specialize (IH s1 s2).
    destruct (_stream_with_ui_lines chunks emitter s1) as [[ys1 q1] t1].
    destruct (_stream_with_ui_lines chunks emitter s2) as [[ys2 q2] t2].
    cbn [fst] in *. now inversion IH.
  - apply IH.
Qed.

(** The loop leaves the instance alone. *)
Lemma _stream_with_ui_line_self (line : string) (emitter : bool) (st : State) :
  self (snd (_stream_with_ui_line line emitter st)) = self st.
Proof.
  unfold _stream_with_ui_line.
  destruct (negb (String.eqb line "") && startswith line "data: ");
    [|reflexivity].
  unfold try_except, bind, lift, logging, map_world, ret, emit.
  destruct (json_loads (drop 6 line)) as [data|e];
    [|destruct (is_JSONDecodeError (exc_cls e)); reflexivity].
  destruct (getitem_str data "type") as [t|e];
    [|destruct (is_JSONDecodeError (exc_cls e)); reflexivity].
  destruct (and_then _ _) as [[|]|e];
    [| |destruct (is_JSONDecodeError (exc_cls e)); reflexivity].
  - destruct (getitem_str data "delta") as [dl|e];
      [|destruct (is_JSONDecodeError (exc_cls e)); reflexivity].
    destruct (getitem_str dl "text") as [x|e];
      [reflexivity|destruct (is_JSONDecodeError (exc_cls e)); reflexivity].
  - destruct (py_eq_str t "message_stop"); [|reflexivity].
    destruct emitter; reflexivity.
Qed.

Lemma _stream_with_ui_lines_self (chunks : list chunk) (emitter : bool)
  (st : State) :
  self (snd (_stream_with_ui_lines chunks emitter st)) = self st.
Proof.
  revert st. induction chunks as [|[line|e] chunks IH]; intros st;
    [reflexivity| |reflexivity].
  cbn [_stream_with_ui_lines].
  pose proof (_stream_with_ui_line_self line emitter st) as H.
  destruct (_stream_with_ui_line line emitter st) as [r s]. cbn [snd] in H.
  destruct r as [[fragment| |]|e]; try exact H.
  - specialize (IH s).
    destruct (_stream_with_ui_lines chunks emitter s) as [[ys q] t].
    cbn [snd] in *. congruence.
  - rewrite IH. exact H.
Qed.

(** Taking a malformed line out of the stream changes neither the
    fragments nor the way the loop ends. *)
Lemma _stream_with_ui_lines_skip (line : string) (e : pyexc)
  (pre post : list chunk) (emitter : bool) (st : State) :
  startswith line "data: " = true ->
  json_loads (drop 6 line) = Raise e ->
  exc_cls e = JSONDecodeError ->
  fst (_stream_with_ui_lines (pre ++ Line line :: post) emitter st)
  = fst (_stream_with_ui_lines (pre ++ post) emitter st).
Proof.
  intros Hp Hj Hc. revert st.
  induction pre as [|[l|x] pre IH]; intros st; [| |reflexivity].
  - cbn [app _stream_with_ui_lines].
    rewrite (_stream_with_ui_line_malformed line e emitter st Hp Hj Hc).
    apply _stream_with_ui_lines_output.
  - cbn [app _stream_with_ui_lines].
    destruct (_stream_with_ui_line l emitter st) as [[[fragment| |]|x] s];
      try reflexivity; [|apply IH].
    specialize (IH s).
    destruct (_stream_with_ui_lines (pre ++ Line line :: post) emitter s)
      as [[ys1 q1] t1].
    destruct (_stream_with_ui_lines (pre ++ post) emitter s) as [[ys2 q2] t2].
    cbn [fst] in *. now inversion IH.
Qed.

(** The fragments of a whole stream, from those of its lines. *)
Lemma _stream_with_ui_fragments (url : string) (hs : headers)
  (payload body : pydict) (emitter : bool) (st : State)
  (response : ClientResponse) (rest : list (result ClientResponse)) :
  aio_script (world st) = Ok response :: rest ->
  status response = 200 ->
  exists st2,
    self st2 = {| ANTHROPIC_API_KEY := ANTHROPIC_API_KEY (self st);
                  request_id := header_get (cr_headers response) "x-request-id" |}
    /\ fst (_stream_with_ui url hs payload body emitter st)
       = match fst (_stream_with_ui_lines (content response) emitter st2) with
         | (ys, Ok _) => ys
         | (ys, Raise e) =>
             (ys ++ [PStr (with_request_id ("Stream error: " ++ exc_str e)
                             (header_get (cr_headers response) "x-request-id"))])%list
         end.
Proof.
  intros Hs H200.
  exists (snd (set_request_id (header_get (cr_headers response) "x-request-id")
                 (snd (session_post url hs payload st)))).
  split; [reflexivity|].
  unfold _stream_with_ui.
  assert (Hpost : session_post url hs payload st
                  = (Ok response, snd (session_post url hs payload st))).
  { unfold session_post. now rewrite Hs. }
  rewrite Hpost at 1. rewrite H200. cbn [negb Z.eqb Pos.eqb].
  set (st2 := snd (set_request_id _ _)).
  pose proof (_stream_with_ui_lines_self (content response) emitter st2) as Hself.
  destruct (_stream_with_ui_lines (content response) emitter st2)
    as [[ys [u|e]] st3]; [reflexivity|].
  unfold _stream_with_ui_except. cbn [fst snd] in *. rewrite Hself.
  reflexivity.
Qed.
End StreamFacts.

(** C2. A streamed reply with status 200 whose body starts with the three
    lines
    [data: {"type":"content_block_delta","delta":{"text":"A"}}],
    [data: {"type":"content_block_delta","delta":{"text":"B"}}] and
    [data: {"type":"message_stop"}], read by [json.loads] as the objects they
    denote: the generator yields the fragment [A], then [B], and nothing
    else, whatever follows the closing event. *)
Theorem stream_yields_A_then_B {RT : PyRuntime} (url : string) (hs : headers)
  (payload body : pydict) (emitter : bool) (st : State)
  (response : ClientResponse) (rest : list (result ClientResponse))
  (more : list chunk) :
  json_loads (drop 6 line_A) = Ok (delta_event "A") ->
  json_loads (drop 6 line_B) = Ok (delta_event "B") ->
  json_loads (drop 6 line_stop) = Ok stop_event ->
  aio_script (world st) = Ok response :: rest ->
  status response = 200 ->
  content response = Line line_A :: Line line_B :: Line line_stop :: more ->
  fst (_stream_with_ui url hs payload body emitter st) = [PStr "A"; PStr "B"].
Proof.
  intros HA HB Hstop Hs H200 Hc.
  destruct (_stream_with_ui_fragments url hs payload body emitter st response rest
              Hs H200) as (st2 & _ & ->).
  rewrite Hc. cbn [_stream_with_ui_lines].
  rewrite (_stream_with_ui_line_delta line_A "A" emitter st2 eq_refl HA).
  rewrite (_stream_with_ui_line_delta line_B "B" emitter st2 eq_refl HB).
  rewrite (_stream_with_ui_line_stop line_stop emitter st2 eq_refl Hstop).
  reflexivity.
Qed.

Lemma stream_yields_A_then_B_witness :
  let st := Scenario.fresh [] [Ok (Scenario.stream_AB [Line line_B])] in
  json_loads (PyRuntime := Ref.runtime) (drop 6 line_A) = Ok (delta_event "A") /\
  json_loads (PyRuntime := Ref.runtime) (drop 6 line_B) = Ok (delta_event "B") /\
  json_loads (PyRuntime := Ref.runtime) (drop 6 line_stop) = Ok stop_event /\
  fst (_stream_with_ui (RT := Ref.runtime) MODEL_URL [] [] [] true st)
  = [PStr "A"; PStr "B"].
Proof.
  cbv zeta.
  split; [vm_compute; reflexivity|].
  split; [vm_compute; reflexivity|].
  split; [vm_compute; reflexivity|].
  apply (stream_yields_A_then_B (RT := Ref.runtime) MODEL_URL [] [] [] true
           (Scenario.fresh [] [Ok (Scenario.stream_AB [Line line_B])])
           (Scenario.stream_AB [Line line_B]) [] [Line line_B]);
    try reflexivity; vm_compute; reflexivity.
Defined.

(** C7, as amended. A line that starts with [data: ] and whose remainder
    [json.loads] rejects with [JSONDecodeError] is logged and passed over:
    the loop goes on with the next line, and the fragments of the stream,
    like the way it ends, are those of the stream without that line. *)
Theorem malformed_json_line_is_skipped {RT : PyRuntime} (line : string)
  (e : pyexc) (emitter : bool) :
  startswith line "data: " = true ->
  json_loads (drop 6 line) = Raise e ->
  exc_cls e = JSONDecodeError ->
  (forall st,
     _stream_with_ui_line line emitter st = (Ok Next, logged_parse_failure e st)) /\
  (forall rest st,
     _stream_with_ui_lines (Line line :: rest) emitter st
     = _stream_with_ui_lines rest emitter (logged_parse_failure e st)) /\
  (forall pre post st,
     fst (_stream_with_ui_lines (pre ++ Line line :: post) emitter st)
     = fst (_stream_with_ui_lines (pre ++ post) emitter st)) /\
  (forall url hs payload body st response,
     status response = 200 ->
     forall pre post,
       fst (_stream_with_ui url hs payload body emitter
              (with_stream st (with_content response (pre ++ Line line :: post))))
       = fst (_stream_with_ui url hs payload body emitter
                (with_stream st (with_content response (pre ++ post))))).
Proof.
  intros Hp Hj Hc.
  split; [|split; [|split]].
  - intros st. now apply _stream_with_ui_line_malformed.
  - intros rest st. cbn [_stream_with_ui_lines].
    now rewrite (_stream_with_ui_line_malformed line e emitter st Hp Hj Hc).
  - intros pre post st. now apply (_stream_with_ui_lines_skip line e).
  - intros url hs payload body st response H200 pre post.
    destruct (_stream_with_ui_fragments url hs payload body emitter
                (with_stream st (with_content response (pre ++ Line line :: post)))
                (with_content response (pre ++ Line line :: post))
                (aio_script (world st)) eq_refl H200) as (s1 & Hs1 & ->).
    destruct (_stream_with_ui_fragments url hs payload body emitter
                (with_stream st (with_content response (pre ++ post)))
                (with_content response (pre ++ post))
                (aio_script (world st)) eq_refl H200) as (s2 & Hs2 & ->).
    cbn [content with_content cr_headers].
    rewrite (_stream_with_ui_lines_skip line e pre post emitter s1 Hp Hj Hc).
    now rewrite (_stream_with_ui_lines_output (pre ++ post) emitter s1 s2).
Qed.

Lemma malformed_json_line_is_skipped_witness :
  startswith Scenario.line_cut "data: " = true /\
  (exists e, json_loads (PyRuntime := Ref.runtime) (drop 6 Scenario.line_cut) = Raise e
             /\ exc_cls e = JSONDecodeError) /\
  fst (_stream_with_ui (RT := Ref.runtime) MODEL_URL [] [] [] false
         (with_stream (Scenario.fresh [] [])
            (with_content (Scenario.stream_of [])
               ([Line line_A] ++ Line Scenario.line_cut :: [Line line_B; Line line_stop]))))
  = fst (_stream_with_ui (RT := Ref.runtime) MODEL_URL [] [] [] false
           (with_stream (Scenario.fresh [] [])
              (with_content (Scenario.stream_of [])
                 ([Line line_A] ++ [Line line_B; Line line_stop])))).
Proof.
  split; [reflexivity|].
  split.
  { eexists. split; [vm_compute; reflexivity | reflexivity]. }
  refine (proj2 (proj2 (proj2
    (malformed_json_line_is_skipped (RT := Ref.runtime) Scenario.line_cut
       (mk_exc JSONDecodeError
          "Invalid control character at: line 1 column 21 (char 20)")
       false _ _ _))) MODEL_URL [] [] [] (Scenario.fresh [] [])
       (Scenario.stream_of []) _ [Line line_A] [Line line_B; Line line_stop]).
  - reflexivity.
  - vm_compute; reflexivity.
  - reflexivity.
  - reflexivity.
Defined.

(** C7, as stated, fails: a line with the byte [0xff] after [data: ] is not
    valid JSON, yet [json.loads] rejects it as undecodable text
    ([UnicodeDecodeError]), which the decoder does not pass over: the stream
    ends with an error fragment and the fragment [B] of the next line is
    lost. *)
Lemma undecodable_line_aborts_the_stream :
  startswith Scenario.line_ff "data: " = true /\
  json_loads (PyRuntime := Ref.runtime) (drop 6 Scenario.line_ff)
  = raise UnicodeDecodeError
      "'utf-8' codec can't decode byte 0xff in position 0: invalid start byte" /\
  fst (_stream_with_ui (RT := Ref.runtime) MODEL_URL [] [] [] false
         (Scenario.fresh []
            [Ok (Scenario.stream_of [Scenario.line_ff; line_B; line_stop])]))
  = [PStr "Stream error: 'utf-8' codec can't decode byte 0xff in position 0: invalid start byte"] /\
  fst (_stream_with_ui (RT := Ref.runtime) MODEL_URL [] [] [] false
         (Scenario.fresh [] [Ok (Scenario.stream_of [line_B; line_stop])]))
  = [PStr "B"].
Proof. repeat split; vm_compute; reflexivity. Qed.

(** ** Transport: retry on HTTP 429 *)

Section RetryFacts.
Context {RT : PyRuntime}.
Variables (url : string) (hs : headers) (payload : pydict).


(** One attempt that meets a rate limit: the request, the warning, the
    wait, and on to the next turn. *)
Lemma _send_request_body_429 (retry_count w : Z) (r : Response)
  (tail : list (result Response)) (st : State) :
  http_script (world st) = Ok r :: tail ->
  status_code r = Some 429 ->
  retry_after_of retry_count r = Ok w ->
  0 <= w ->
  exists st',
    _send_request_body retry_count url hs payload st = (Ok Continue, st') /\
    self st' = self st /\
    http_script (world st') = tail /\
    aio_script (world st') = aio_script (world st) /\
    sent (world st') = (sent (world st) ++ [posted url hs payload])%list /\
    slept (world st') = (slept (world st) ++ [w])%list.
Proof.
  intros Hs H429 Hw Hpos.
  unfold _send_request_body, try_except, bind, requests_post, lift, time_sleep.
  rewrite Hs, H429. cbn [status_is Z.eqb Pos.eqb]. rewrite Hw.
  cbn [logging map_world world self].
  destruct (Z.ltb_spec w 0); [lia|].
  eexists. split; [reflexivity|]. cbn. repeat split; reflexivity.
Qed.


(** A run of rate-limited responses takes as many turns of the loop. *)
Lemma _send_request_loop_429s (rs : list Response) :
  forall (ws : list Z) (remaining : nat) (retry_count : Z) (st : State)
         (tail : list (result Response)),
    rate_limited retry_count rs ws ->
    http_script (world st) = (map Ok rs ++ tail)%list ->
    (List.length rs <= remaining)%nat ->
    exists st',
      _send_request_loop remaining retry_count url hs payload st
      = _send_request_loop (remaining - List.length rs)
          (retry_count + Z.of_nat (List.length rs)) url hs payload st' /\
      self st' = self st /\
      http_script (world st') = tail /\
      aio_script (world st') = aio_script (world st) /\
      sent (world st')
      = (sent (world st) ++ repeat (posted url hs payload) (List.length rs))%list /\
      slept (world st') = (slept (world st) ++ ws)%list.
Proof.
  induction rs as [|r rs IH]; intros ws remaining retry_count st tail Hrl Hs Hlen.
  - destruct ws; [|contradiction]. exists st.
    cbn [List.length repeat]. rewrite Nat.sub_0_r, Z.add_0_r, !app_nil_r.
    repeat split; try reflexivity. exact Hs.
  - destruct ws as [|w ws]; [contradiction|].
    destruct Hrl as (H429 & Hw & Hpos & Hrl).
    destruct remaining as [|remaining]; [cbn in Hlen; lia|].
    destruct (_send_request_body_429 retry_count w r (map Ok rs ++ tail)%list st
                Hs H429 Hw Hpos)
      as (st1 & Hbody & Hself1 & Hs1 & Haio1 & Hsent1 & Hslept1).
    destruct (IH ws remaining (retry_count + 1) st1 tail Hrl Hs1
                ltac:(cbn in Hlen; lia))
      as (st' & Hloop & Hself & Hs' & Haio & Hsent & Hslept).
    exists st'. split.
    { cbn [_send_request_loop]. unfold bind at 1. rewrite Hbody.
      rewrite Hloop. cbn [List.length Nat.sub].
      replace (retry_count + 1 + Z.of_nat (List.length rs))
        with (retry_count + Z.of_nat (S (List.length rs))) by lia.
      reflexivity. }
    split; [congruence|]. split; [exact Hs'|]. split; [congruence|].
    split.
    + rewrite Hsent, Hsent1, <- app_assoc. reflexivity.
    + rewrite Hslept, Hslept1, <- app_assoc. reflexivity.
Qed.
End RetryFacts.




(** ** The instance across calls *)

Lemma keeps_ret {A} (a : A) : keeps_self (ret a).
Proof. intros st. reflexivity. Qed.

Lemma keeps_throw {A} (e : pyexc) : keeps_self (throw (A := A) e).
Proof. intros st. reflexivity. Qed.

Lemma keeps_lift {A} (r : result A) : keeps_self (lift r).
Proof. intros st. reflexivity. Qed.

Lemma keeps_bind {A B} (m : M A) (k : A -> M B) :
  keeps_self m -> (forall a, keeps_self (k a)) -> keeps_self (bind m k).
Proof.
  intros Hm Hk st. unfold bind. specialize (Hm st).
  destruct (m st) as [[a|e] st1]; cbn [snd] in *.
  - now rewrite Hk.
  - exact Hm.
Qed.

Lemma keeps_try_except {A} (m : M A) (catches : exc_class -> bool)
  (h : pyexc -> M A) :
  keeps_self m -> (forall e, keeps_self (h e)) -> keeps_self (try_except m catches h).
Proof.
  intros Hm Hh st. unfold try_except. specialize (Hm st).
  destruct (m st) as [[a|e] st1]; cbn [snd] in *; [exact Hm|].
  destruct (catches (exc_cls e)); cbn [snd]; [now rewrite Hh | exact Hm].
Qed.

Lemma keeps_map_world (f : World -> World) : keeps_self (map_world f).
Proof. intros st. reflexivity. Qed.

Lemma keeps_logging (lvl : log_level) (msg : string) : keeps_self (logging lvl msg).
Proof. apply keeps_map_world. Qed.

Lemma keeps_emit (e : bool) (d : string) (b : bool) : keeps_self (emit e d b).
Proof. unfold emit. destruct e; [apply keeps_map_world | apply keeps_ret]. Qed.

Lemma keeps_time_sleep (n : Z) : keeps_self (time_sleep n).
Proof.
  unfold time_sleep. destruct (n <? 0); [apply keeps_throw | apply keeps_map_world].
Qed.

Lemma keeps_requests_post (url : string) (hs : headers) (payload : pydict) :
  keeps_self (requests_post url hs payload).
Proof. intros st. reflexivity. Qed.

Lemma keeps_get_request_id : keeps_self get_request_id.
Proof. intros st. reflexivity. Qed.

Create HintDb keeps.

#[local] Hint Resolve keeps_ret keeps_throw keeps_lift keeps_logging keeps_emit
  keeps_time_sleep keeps_requests_post keeps_get_request_id : keeps.

(** Splits a goal [keeps_self m] along the structure of [m]. *)
Ltac keeps :=
  repeat first
    [ apply keeps_bind; [|intros ?]
    | apply keeps_try_except; [|intros ?]
    | solve [auto with keeps]
    | match goal with
      | |- keeps_self (if ?c then _ else _) => destruct c
      | |- keeps_self (match ?x with _ => _ end) => destruct x
      end ].

Section InstanceFacts.
Context {RT : PyRuntime}.

Lemma keeps__send_request_loop (remaining : nat) :
  forall retry_count url hs payload,
    keeps_self (_send_request_loop remaining retry_count url hs payload).
Proof.
  induction remaining as [|remaining IH]; intros retry_count url hs payload;
    cbn [_send_request_loop].
  - keeps.
  - apply keeps_bind; [unfold _send_request_body; keeps|].
    intros [|response]; [apply IH | apply keeps_ret].
Qed.

Lemma keeps__send_request (url : string) (hs : headers) (payload : pydict) :
  keeps_self (_send_request url hs payload).
Proof. apply keeps__send_request_loop. Qed.

(** On a response with status 200, the only kind that [pipe] hands to it,
    [_handle_response] assigns nothing. *)
Lemma keeps__handle_response (response : Response) :
  status_is (status_code response) 200 = true ->
  keeps_self (_handle_response response).
Proof.
  intros H. unfold _handle_response. rewrite H. cbn [negb]. keeps.
Qed.

Lemma keeps_pipe_except (prefix : string) (emitter : bool) (e : pyexc) :
  keeps_self (pipe_except prefix emitter e).
Proof. unfold pipe_except. keeps. Qed.

Lemma keeps_pipe_call (hs : headers) (payload body : pydict) (emitter : bool) :
  keeps_self (pipe_call hs payload body emitter).
Proof.
  unfold pipe_call.
  apply keeps_try_except; [|intros e; apply keeps_pipe_except].
  apply keeps_bind; [auto with keeps|]. intros stream.
  destruct (py_truthy stream); [apply keeps_ret|].
  apply keeps_bind; [apply keeps__send_request|]. intros response.
  destruct (status_is (status_code response) 200) eqn:E; cbn [negb];
    [|apply keeps_ret].
  apply keeps_bind; [now apply keeps__handle_response|]. intros hr. keeps.
Qed.

Lemma keeps_pipe (body : pydict) (emitter : bool) : keeps_self (pipe body emitter).
Proof.
  intros st. unfold pipe.
  destruct (String.eqb (ANTHROPIC_API_KEY (self st)) "").
  - assert (H : keeps_self
                  (emit emitter "Error: ANTHROPIC_API_KEY is required" true ;;;
                   ret (Value (error_text "Error: ANTHROPIC_API_KEY is required")))%M)
      by keeps.
    apply H.
  - assert (H : keeps_self (pipe_try body emitter)); [|apply H].
    unfold pipe_try.
    apply keeps_try_except; [|intros e; apply keeps_pipe_except].
    apply keeps_bind; [auto with keeps|]. intros bm.
    apply keeps_bind; [auto with keeps|]. intros sm.
    apply keeps_bind; [auto with keeps|]. intros _.
    apply keeps_bind; [auto with keeps|]. intros payload.
    apply keeps_bind; [auto with keeps|]. intros beta.
    apply keeps_bind; [intros s; reflexivity|]. intros key.
    apply keeps_pipe_call.
Qed.

(** A request without [messages]: the error text ends with whatever
    identifier the instance holds. *)
Lemma pipe_without_messages (body : pydict) (emitter : bool) (st : State) :
  ANTHROPIC_API_KEY (self st) <> "" ->
  dget body "messages" = None ->
  fst (pipe body emitter st)
  = Ok (Value (error_text
                 (with_request_id "Error: 'messages'" (request_id (self st))))).
Proof.
  intros Hkey Hbm. unfold pipe.
  destruct (String.eqb (ANTHROPIC_API_KEY (self st)) "") eqn:E;
    [apply String.eqb_eq in E; contradiction|].
  unfold pipe_try, try_except.
  unfold bind at 1, lift at 1, dgetitem. rewrite Hbm.
  cbv beta iota delta [raise is_Exception].
  destruct (pipe_except_effect "Error: " (mk_exc KeyError (repr_key "messages"))
              emitter st) as (st' & -> & _).
  reflexivity.
Qed.

(** Once the response of a streaming call has arrived, nothing depends on
    the identifier that the instance held before. *)
Lemma _stream_with_ui_forgets (url : string) (hs : headers)
  (payload body : pydict) (emitter : bool) (st : State)
  (response : ClientResponse) (rest : list (result ClientResponse))
  (earlier : option string) :
  aio_script (world st) = Ok response :: rest ->
  _stream_with_ui url hs payload body emitter (holding earlier st)
  = _stream_with_ui url hs payload body emitter st.
Proof.
  intros Hs. unfold _stream_with_ui, session_post, holding, set_request_id.
  cbn [snd world self ANTHROPIC_API_KEY]. rewrite Hs. reflexivity.
Qed.

Lemma _stream_with_ui_request_id (url : string) (hs : headers)
  (payload body : pydict) (emitter : bool) (st : State)
  (response : ClientResponse) (rest : list (result ClientResponse)) :
  aio_script (world st) = Ok response :: rest ->
  request_id (self (snd (_stream_with_ui url hs payload body emitter st)))
  = header_get (cr_headers response) "x-request-id".
Proof.
  intros Hs. unfold _stream_with_ui, session_post. rewrite Hs.
  set (st2 := snd (set_request_id _ _)).
  assert (H2 : request_id (self st2) = header_get (cr_headers response) "x-request-id")
    by reflexivity.
  assert (Hemit : forall d b s, self (snd (emit emitter d b s)) = self s)
    by (intros; apply keeps_emit).
  destruct (negb (status response =? 200)).
  - cbn [snd]. now rewrite Hemit.
  - pose proof (_stream_with_ui_lines_self (content response) emitter st2) as Hl.
    destruct (_stream_with_ui_lines (content response) emitter st2)
      as [[ys [u|e]] st3]; cbn [snd] in *.
    + now rewrite Hl.
    + unfold _stream_with_ui_except. cbn [snd]. now rewrite Hemit, Hl.
Qed.
End InstanceFacts.

(** ** Strings: cutting at a separator *)

Lemma split_nonempty (c : ascii) (s : string) : split c s <> [].
Proof.
  induction s as [|a s IH]; simpl; [discriminate|].
  destruct (Ascii.eqb a c); [discriminate|].
  destruct (split c s); [contradiction | discriminate].
Qed.

(** No piece of [s.split(c)] holds the separator. *)
Lemma split_pieces (c : ascii) (s : string) :
  Forall (fun x => has_char c x = false) (split c s).
Proof.
  induction s as [|a s IH]; simpl.
  - repeat constructor.
  - destruct (Ascii.eqb a c) eqn:E.
    + constructor; [reflexivity | exact IH].
    + destruct (split c s) as [|h t]; inversion IH; subst;
        constructor; simpl; try rewrite E; auto.
Qed.

Lemma split_without (c : ascii) (s : string) :
  has_char c s = false -> split c s = [s].
Proof.
  induction s as [|a s IH]; simpl; intros H; [reflexivity|].
  apply orb_false_iff in H. destruct H as [E H].
  rewrite E, (IH H). reflexivity.
Qed.

Lemma split_at_first (c : ascii) (a b : string) :
  has_char c a = false -> split c (a ++ String c b) = a :: split c b.
Proof.
  induction a as [|x a IH]; simpl; intros H.
  - now rewrite Ascii.eqb_refl.
  - apply orb_false_iff in H. destruct H as [E H].
    rewrite E, (IH H). reflexivity.
Qed.

Lemma split1_at_first (c : ascii) (a b : string) :
  has_char c a = false -> split1 c (a ++ String c b) = [a; b].
Proof.
  induction a as [|x a IH]; simpl; intros H.
  - now rewrite Ascii.eqb_refl.
  - apply orb_false_iff in H. destruct H as [E H].
    rewrite E, (IH H). reflexivity.
Qed.

Lemma has_char_app (c : ascii) (a b : string) :
  has_char c (a ++ b) = has_char c a || has_char c b.
Proof.
  induction a as [|x a IH]; simpl; [reflexivity|].
  now rewrite IH, orb_assoc.
Qed.

Lemma last_cons_nonempty {A} (x : A) (l : list A) (d : A) :
  l <> [] -> last (x :: l) d = last l d.
Proof. destruct l; [contradiction | reflexivity]. Qed.

(** [s.split(c)[-1]] of a text that ends with [c] and a word without [c]
    is that word, whatever comes before. *)
Lemma last_str_split_suffix (c : ascii) (p n : string) :
  has_char c n = false ->
  last_str (split c (p ++ String c n)) = n.
Proof.
  intros Hn. unfold last_str.
  assert (H2 : forall p, exists h h' t, split c (p ++ String c n) = h :: h' :: t).
  { clear p. induction p as [|a p IH]; simpl.
    - rewrite Ascii.eqb_refl, (split_without c n Hn). eauto.
    - destruct IH as (h & h' & t & ->).
      destruct (Ascii.eqb a c); eauto. }
  induction p as [|a p IH]; simpl.
  - rewrite Ascii.eqb_refl, (split_without c n Hn). reflexivity.
  - destruct (Ascii.eqb a c).
    + rewrite last_cons_nonempty by apply split_nonempty. exact IH.
    + destruct (H2 p) as (h & h' & t & E). rewrite E in IH |- *. exact IH.
Qed.

Lemma last_str_split_clean (c : ascii) (s : string) :
  has_char c (last_str (split c s)) = false.
Proof.
  unfold last_str.
  pose proof (split_pieces c s) as H. pose proof (split_nonempty c s) as Hne.
  induction H as [|x l Hx Hl IH]; [contradiction|].
  destruct l as [|y l]; [exact Hx|].
  change (has_char c (last (y :: l) "") = false). apply IH. discriminate.
Qed.

(** ** The payload, key by key *)

Lemma dget_dset_inv (d : pydict) (k k' : string) (v v' : pyval) :
  dget (dset d k v) k' = Some v' -> k' = k \/ dget d k' = Some v'.
Proof.
  destruct (String.eqb k k') eqn:E.
  - apply String.eqb_eq in E. auto.
  - rewrite dget_dset_other; [auto|].
    intros E0; subst k'. now rewrite String.eqb_refl in E.
Qed.

Lemma dget_In (d : pydict) (k : string) (v : pyval) :
  dget d k = Some v -> In k (map fst d).
Proof.
  induction d as [|[k' v'] d IH]; simpl; [discriminate|].
  destruct (String.eqb k' k) eqn:E.
  - apply String.eqb_eq in E. auto.
  - auto.
Qed.

Section PayloadShape.
Context {RT : PyRuntime}.

(** The steps of a successful [pipe_payload], from the literal to the
    last assignment. *)
Lemma pipe_payload_steps (body : pydict) (sys msgs : pyval) (payload : pydict) :
  pipe_payload body sys msgs = Ok payload ->
  exists model_s processed max_tokens temperature top_k top_p p1 p2,
    let model_name := last_str (split "/" model_s) in
    let ceiling := table_get MODEL_MAX_TOKENS model_name 4096 in
    let base := drop_none (payload_literal model_name processed max_tokens
                             temperature top_k top_p body) in
    dget body "model" = Some (PStr model_s) /\
    _process_messages msgs = Ok processed /\
    py_min_limit (dget_default body "max_tokens" (PInt ceiling)) ceiling
      = Ok max_tokens /\
    optional_float body "temperature" = Ok temperature /\
    optional_int body "top_k" = Ok top_k /\
    optional_float body "top_p" = Ok top_p /\
    p1 = (if py_truthy sys then dset base "system" (PStr (py_str sys)) else base) /\
    match dget body "tools" with
    | Some tv =>
        exists tools,
          py_iter tv = Ok tools /\
          p2 = dset (dset p1 "tools" (PList (map wrapped_tool tools)))
                 "tool_choice" (dget_default body "tool_choice" PNone)
    | None => p2 = p1
    end /\
    match dget body "response_format" with
    | Some rf =>
        exists t, py_get rf "type" = Ok t /\
                  payload = dset p2 "response_format" (PDict [ ("type", t) ])
    | None => payload = p2
    end.
Proof.
  unfold pipe_payload. intros H.
  bind_inv H as model Hmodel. bind_inv H as model_s Hstr.
  bind_inv H as processed Hproc. bind_inv H as max_tokens Hmin.
  bind_inv H as temperature Htemp. bind_inv H as top_k Htopk.
  bind_inv H as top_p Htopp. bind_inv H as p2 Htools.
  exists model_s, processed, max_tokens, temperature, top_k, top_p.
  eexists _, p2. cbv zeta.
  assert (Hm : dget body "model" = Some (PStr model_s)).
  { unfold dgetitem in Hmodel. destruct (dget body "model") as [v|]; [|discriminate].
    inversion Hmodel; subst. destruct model; simpl in Hstr; try discriminate.
    now inversion Hstr. }
  repeat (split; [assumption|]).
  split; [reflexivity|].
  split.
  - unfold dmem, dgetitem in Htools.
    destruct (dget body "tools") as [tv|].
    + cbn [rbind] in Htools. bind_inv Htools as tools Htv.
      exists tools. split; [assumption|]. now inversion Htools.
    + now inversion Htools.
  - unfold dmem, dgetitem in H.
    destruct (dget body "response_format") as [rf|].
    + cbn [rbind] in H. bind_inv H as t Ht.
      exists t. split; [assumption|]. now inversion H.
    + now inversion H.
Qed.

(** The entries of the literal that survive the [None] filter. *)
Lemma dget_base (m : string) (p : list pyval) (a b c d : pyval) (body : pydict)
  (k : string) :
  dget (drop_none (payload_literal m p a b c d body)) k
  = match dget (payload_literal m p a b c d body) k with
    | Some v => if is_none v then None else Some v
    | None => None
    end.
Proof. apply dget_filter_none, payload_literal_NoDup. Qed.

Lemma dget_base_late (m : string) (p : list pyval) (a b c d : pyval)
  (body : pydict) (k : string) :
  late_key k = true ->
  dget (drop_none (payload_literal m p a b c d body)) k = None.
Proof.
  intros Hk. rewrite dget_base.
  unfold late_key, str_in, existsb in Hk.
  repeat (apply orb_true_iff in Hk; destruct Hk as [Hk|Hk];
          [apply String.eqb_eq in Hk; subst k; reflexivity|]).
  discriminate.
Qed.

(** The first entries of a payload: the model name, the processed
    messages and the token limit. *)
Lemma pipe_payload_fields (body : pydict) (sys msgs : pyval) (payload : pydict) :
  pipe_payload body sys msgs = Ok payload ->
  exists model_s processed max_tokens,
    let model_name := last_str (split "/" model_s) in
    let ceiling := table_get MODEL_MAX_TOKENS model_name 4096 in
    dget body "model" = Some (PStr model_s) /\
    _process_messages msgs = Ok processed /\
    py_min_limit (dget_default body "max_tokens" (PInt ceiling)) ceiling
      = Ok max_tokens /\
    dget payload "model" = Some (PStr model_name) /\
    dget payload "messages" = Some (PList processed) /\
    dget payload "max_tokens" = Some max_tokens.
Proof.
  intros H.
  destruct (pipe_payload_inv body sys msgs payload H)
    as (model_s & processed & max_tokens & temperature & top_k & top_p
        & Hmodel & Hproc & Hmin & _ & _ & _ & Hbase & _).
  exists model_s, processed, max_tokens. cbv zeta.
  repeat (split; [assumption|]).
  rewrite !Hbase by reflexivity. rewrite !dget_base.
  unfold payload_literal, dget. cbn [String.eqb Ascii.eqb Bool.eqb is_none].
  now rewrite (py_min_limit_not_none _ _ _ Hmin).
Qed.
End PayloadShape.

(** ** The catalogue *)

(** X1. The catalogue of [pipes] and the table of token ceilings list the
    same nine model names in the same order; every entry has the
    identifier [anthropic/] followed by its name, a context length of
    200000 and vision support unless it is [claude-3-5-haiku-20241022]; the
    identifiers are pairwise distinct; and each model that reads PDF is in
    the catalogue. *)
Theorem catalogue_matches_ceilings :
  map (fun m => field m "name") pipes
  = map (fun kv => Some (PStr (fst kv))) MODEL_MAX_TOKENS /\
  (forall m, In m pipes ->
     exists n,
       field m "name" = Some (PStr n) /\
       field m "id" = Some (PStr ("anthropic/" ++ n)) /\
       field m "context_length" = Some (PInt 200000) /\
       field m "supports_vision"
       = Some (PBool (negb (String.eqb n "claude-3-5-haiku-20241022")))) /\
  NoDup (map (fun m => field m "id") pipes) /\
  (forall n, In n SUPPORTED_PDF_MODELS ->
     In (Some (PStr n)) (map (fun m => field m "name") pipes)).
Proof.
  split; [reflexivity|]. split; [|split].
  - intros m Hm. unfold pipes, get_anthropic_models in Hm.
    apply in_map_iff in Hm. destruct Hm as (n & <- & _).
    exists n. repeat split.
  - cbn. repeat constructor; cbn; intuition discriminate.
  - intros n Hn. cbn in Hn. decompose [or] Hn; try contradiction; subst n;
      cbn; tauto.
Qed.

(** ** Payload builder: what each key holds *)

(** X2. The model name of a payload is what follows the last slash of the
    body's [model]: a provider prefix, however long, is taken off, a name
    without a slash is kept, and the name sent never holds a slash. *)
Theorem model_prefix_is_stripped {RT : PyRuntime} (body : pydict)
  (sys msgs : pyval) (payload : pydict) :
  pipe_payload body sys msgs = Ok payload ->
  exists model_s name,
    dget body "model" = Some (PStr model_s) /\
    dget payload "model" = Some (PStr name) /\
    has_char "/" name = false /\
    (has_char "/" model_s = false -> name = model_s) /\
    (forall prefix n,
       model_s = prefix ++ "/" ++ n -> has_char "/" n = false -> name = n).
Proof.
  intros H.
  destruct (pipe_payload_fields body sys msgs payload H)
    as (model_s & processed & max_tokens & Hmodel & _ & _ & Hpm & _).
  cbv zeta in Hpm.
  exists model_s, (last_str (split "/" model_s)).
  split; [exact Hmodel|]. split; [exact Hpm|].
  split; [apply last_str_split_clean|]. split.
  - intros Hno. now rewrite split_without.
  - intros prefix n -> Hn. now apply last_str_split_suffix.
Qed.

Lemma model_prefix_is_stripped_witness :
  let body := Scenario.body_full in
  dget body "model" = Some (PStr "anthropic/claude-3-5-sonnet-20241022") /\
  exists model_s name,
    dget body "model" = Some (PStr model_s) /\
    dget (Scenario.payload_of body) "model" = Some (PStr name) /\
    has_char "/" name = false /\
    (has_char "/" model_s = false -> name = model_s) /\
    (forall prefix n,
       model_s = prefix ++ "/" ++ n -> has_char "/" n = false -> name = n).
Proof.
  cbv zeta. split; [reflexivity|].
  apply (model_prefix_is_stripped (RT := Ref.runtime) Scenario.body_full
           (Scenario.system_of Scenario.body_full)
           (Scenario.messages_of Scenario.body_full)).
  vm_compute; reflexivity.
Defined.

(** X3. A payload holds no other keys than the twelve that [pipe] writes:
    an entry of the body that [pipe] does not read, such as [stop], is
    never forwarded. *)
Theorem payload_keys_are_fixed {RT : PyRuntime} (body : pydict)
  (sys msgs : pyval) (payload : pydict) :
  pipe_payload body sys msgs = Ok payload ->
  forall k v, dget payload k = Some v -> In k PAYLOAD_KEYS.
Proof.
  intros H k v Hk.
  destruct (pipe_payload_steps body sys msgs payload H)
    as (model_s & processed & max_tokens & temperature & top_k & top_p & p1 & p2
        & _ & _ & _ & _ & _ & _ & Hp1 & Hp2 & Hp).
  cbv zeta in Hp1.
  assert (Hbase : forall k v,
            dget (drop_none (payload_literal (last_str (split "/" model_s))
                               processed max_tokens temperature top_k top_p body)) k
            = Some v -> In k PAYLOAD_KEYS).
  { intros k0 v0 H0. apply dget_In, drop_none_keys in H0.
    cbn in H0 |- *. tauto. }
  assert (H1 : forall k v, dget p1 k = Some v -> In k PAYLOAD_KEYS).
  { intros k0 v0 H0. subst p1. destruct (py_truthy sys); [|eauto].
    apply dget_dset_inv in H0. destruct H0 as [->|H0]; [cbn; tauto | eauto]. }
  assert (H2 : forall k v, dget p2 k = Some v -> In k PAYLOAD_KEYS).
  { intros k0 v0 H0. destruct (dget body "tools").
    - destruct Hp2 as (tools & _ & ->).
      apply dget_dset_inv in H0. destruct H0 as [->|H0]; [cbn; tauto|].
      apply dget_dset_inv in H0. destruct H0 as [->|H0]; [cbn; tauto | eauto].
    - subst p2. eauto. }
  destruct (dget body "response_format").
  - destruct Hp as (t & _ & ->).
    apply dget_dset_inv in Hk. destruct Hk as [->|Hk]; [cbn; tauto | eauto].
  - subst payload. eauto.
Qed.

Lemma payload_keys_are_fixed_witness :
  let body := Scenario.body_full in
  dget body "stop" <> None /\
  dget (Scenario.payload_of body) "stop" = None /\
  forall k v, dget (Scenario.payload_of body) k = Some v -> In k PAYLOAD_KEYS.
Proof.
  cbv zeta. split; [discriminate|]. split; [vm_compute; reflexivity|].
  apply (payload_keys_are_fixed (RT := Ref.runtime) Scenario.body_full
           (Scenario.system_of Scenario.body_full)
           (Scenario.messages_of Scenario.body_full)).
  vm_compute; reflexivity.
Defined.

(** X4. The payload has a [system] entry exactly when the system message
    that the host's helper took out of the messages is true as a condition,
    and the entry is then [str(system_message)]. *)
Theorem system_message_goes_to_system {RT : PyRuntime} (body : pydict)
  (sys msgs : pyval) (payload : pydict) :
  pipe_payload body sys msgs = Ok payload ->
  dget payload "system"
  = if py_truthy sys then Some (PStr (py_str sys)) else None.
Proof.
  intros H.
  destruct (pipe_payload_steps body sys msgs payload H)
    as (model_s & processed & max_tokens & temperature & top_k & top_p & p1 & p2
        & _ & _ & _ & _ & _ & _ & Hp1 & Hp2 & Hp).
  cbv zeta in Hp1.
  assert (H1 : dget p1 "system"
               = if py_truthy sys then Some (PStr (py_str sys)) else None).
  { subst p1. destruct (py_truthy sys).
    - apply dget_dset_same.
    - now apply dget_base_late. }
  assert (H2 : dget p2 "system" = dget p1 "system").
  { destruct (dget body "tools").
    - destruct Hp2 as (tools & _ & ->).
      now rewrite !dget_dset_other by discriminate.
    - now subst p2. }
  destruct (dget body "response_format").
  - destruct Hp as (t & _ & ->).
    rewrite dget_dset_other by discriminate. congruence.
  - subst payload. congruence.
Qed.

Lemma system_message_goes_to_system_witness :
  let body := Scenario.body_full in
  py_truthy (Scenario.system_of body) = true /\
  dget (Scenario.payload_of body) "system"
  = Some (PStr "{'role': 'system', 'content': 'Be brief.'}") /\
  dget (Scenario.payload_of body) "system"
  = if py_truthy (Scenario.system_of body)
    then Some (PStr (py_str (PyRuntime := Ref.runtime) (Scenario.system_of body)))
    else None.
Proof.
  cbv zeta. split; [reflexivity|]. split; [vm_compute; reflexivity|].
  apply (system_message_goes_to_system (RT := Ref.runtime) Scenario.body_full
           (Scenario.system_of Scenario.body_full)
           (Scenario.messages_of Scenario.body_full)).
  vm_compute; reflexivity.
Defined.

(** X5. Tool definitions are sent wrapped, each as
    [{"type": "function", "function": tool}] and in the order given, with
    the body's [tool_choice] beside them ([None] when the body has none).  A
    body without [tools] gives a payload with neither key: a [tool_choice]
    given alone is not sent. *)
Theorem tools_are_wrapped {RT : PyRuntime} (body : pydict) (sys msgs : pyval)
  (payload : pydict) :
  pipe_payload body sys msgs = Ok payload ->
  (forall tools, dget body "tools" = Some (PList tools) ->
     dget payload "tools" = Some (PList (map wrapped_tool tools)) /\
     dget payload "tool_choice" = Some (dget_default body "tool_choice" PNone)) /\
  (dget body "tools" = None ->
     dget payload "tools" = None /\ dget payload "tool_choice" = None).
Proof.
  intros H.
  destruct (pipe_payload_steps body sys msgs payload H)
    as (model_s & processed & max_tokens & temperature & top_k & top_p & p1 & p2
        & _ & _ & _ & _ & _ & _ & Hp1 & Hp2 & Hp).
  cbv zeta in Hp1.
  assert (Hlast : forall k, k = "tools" \/ k = "tool_choice" ->
                            dget payload k = dget p2 k).
  { intros k Hk. destruct (dget body "response_format").
    - destruct Hp as (t & _ & ->).
      apply dget_dset_other. destruct Hk; subst k; discriminate.
    - now subst payload. }
  split.
  - intros tools Ht. rewrite Ht in Hp2. destruct Hp2 as (tools' & Hiter & ->).
    inversion Hiter; subst tools'.
    rewrite !Hlast by tauto. split.
    + rewrite dget_dset_other by discriminate. apply dget_dset_same.
    + apply dget_dset_same.
  - intros Ht. rewrite Ht in Hp2. subst p2.
    rewrite !Hlast by tauto.
    assert (H1 : forall k, k = "tools" \/ k = "tool_choice" -> dget p1 k = None).
    { intros k Hk. subst p1. destruct (py_truthy sys).
      - rewrite dget_dset_other by (destruct Hk; subst k; discriminate).
        apply dget_base_late. destruct Hk; subst k; reflexivity.
      - apply dget_base_late. destruct Hk; subst k; reflexivity. }
    split; apply H1; tauto.
Qed.

Lemma tools_are_wrapped_witness :
  dget Scenario.body_choice_only "tool_choice" <> None /\
  dget Scenario.body_choice_only "tools" = None /\
  dget (Scenario.payload_of Scenario.body_choice_only) "tool_choice" = None /\
  dget (Scenario.payload_of Scenario.body_full) "tools"
  = Some (PList [wrapped_tool (PDict [("name", PStr "get_weather")]);
                 wrapped_tool (PDict [("name", PStr "get_time")])]) /\
  dget (Scenario.payload_of Scenario.body_full) "tool_choice"
  = Some (PDict [("type", PStr "auto")]).
Proof.
  split; [discriminate|]. split; [reflexivity|].
  split.
  - refine (proj2 (proj2 (tools_are_wrapped (RT := Ref.runtime)
              Scenario.body_choice_only
              (Scenario.system_of Scenario.body_choice_only)
              (Scenario.messages_of Scenario.body_choice_only) _ _) _)).
    + vm_compute; reflexivity.
    + reflexivity.
  - refine (proj1 (tools_are_wrapped (RT := Ref.runtime) Scenario.body_full
              (Scenario.system_of Scenario.body_full)
              (Scenario.messages_of Scenario.body_full) _ _)
              [PDict [("name", PStr "get_weather")]; PDict [("name", PStr "get_time")]]
              _).
    + vm_compute; reflexivity.
    + reflexivity.
Defined.

(** X6. Of the body's [response_format] only the [type] is sent: the
    payload's entry is [{"type": ...}] with that value, [None] when the
    dictionary has no [type]; whatever else it holds, such as a schema, is
    left behind.  A body without [response_format] gives a payload without
    it. *)
Theorem response_format_keeps_type_only {RT : PyRuntime} (body : pydict)
  (sys msgs : pyval) (payload : pydict) :
  pipe_payload body sys msgs = Ok payload ->
  (forall rf, dget body "response_format" = Some (PDict rf) ->
     dget payload "response_format"
     = Some (PDict [ ("type", dget_default rf "type" PNone) ])) /\
  (dget body "response_format" = None -> dget payload "response_format" = None).
Proof.
  intros H.
  destruct (pipe_payload_steps body sys msgs payload H)
    as (model_s & processed & max_tokens & temperature & top_k & top_p & p1 & p2
        & _ & _ & _ & _ & _ & _ & Hp1 & Hp2 & Hp).
  cbv zeta in Hp1.
  split.
  - intros rf Hrf. rewrite Hrf in Hp. destruct Hp as (t & Ht & ->).
    inversion Ht; subst t. apply dget_dset_same.
  - intros Hrf. rewrite Hrf in Hp. subst payload.
    assert (H1 : dget p1 "response_format" = None).
    { subst p1. destruct (py_truthy sys).
      - rewrite dget_dset_other by discriminate. now apply dget_base_late.
      - now apply dget_base_late. }
    destruct (dget body "tools").
    + destruct Hp2 as (tools & _ & ->).
      now rewrite !dget_dset_other by discriminate.
    + now subst p2.
Qed.

Lemma response_format_keeps_type_only_witness :
  dget Scenario.body_full "response_format"
  = Some (PDict [ ("type", PStr "json_object"); ("schema", PDict []) ]) /\
  dget (Scenario.payload_of Scenario.body_full) "response_format"
  = Some (PDict [ ("type", PStr "json_object") ]).
Proof.
  split; [reflexivity|].
  refine (proj1 (response_format_keeps_type_only (RT := Ref.runtime)
            Scenario.body_full (Scenario.system_of Scenario.body_full)
            (Scenario.messages_of Scenario.body_full) _ _)
            [ ("type", PStr "json_object"); ("schema", PDict []) ] _).
  - vm_compute; reflexivity.
  - reflexivity.
Defined.

(** X7. The sampling parameters are sent as numbers of a fixed type,
    whatever type the body gave them in: [temperature] and [top_p] as the
    [float] and [top_k] as the [int] of the body's value.  A value that
    [float] or [int] refuses builds no payload. *)
Theorem sampling_parameters_are_coerced {RT : PyRuntime} (body : pydict)
  (sys msgs : pyval) (payload : pydict) :
  pipe_payload body sys msgs = Ok payload ->
  (forall k x, k = "temperature" \/ k = "top_p" ->
     dget body k = Some x -> x <> PNone ->
     exists f, py_float x = Ok f /\ dget payload k = Some (PFloat f)) /\
  (forall x, dget body "top_k" = Some x -> x <> PNone ->
     exists z, py_int x = Ok z /\ dget payload "top_k" = Some (PInt z)).
Proof.
  intros H.
  destruct (pipe_payload_inv body sys msgs payload H)
    as (model_s & processed & max_tokens & temperature & top_k & top_p
        & _ & _ & _ & Htemp & Htopk & Htopp & Hbase & _).
  assert (Hf : forall k x v, dget body k = Some x -> x <> PNone ->
                 optional_float body k = Ok v ->
                 exists f, py_float x = Ok f /\ v = PFloat f).
  { intros k x v Hk Hx Hv. unfold optional_float, dget_default in Hv.
    rewrite Hk in Hv. destruct x; try contradiction; cbn [is_none negb] in Hv;
      (bind_inv Hv as fl Hfl; exists fl; split; [exact Hfl | now inversion Hv]). }
  split.
  - intros k x Hk Hx Hnn.
    destruct Hk as [-> | ->].
    + destruct (Hf _ _ _ Hx Hnn Htemp) as (f & Hfl & ->).
      exists f. split; [exact Hfl|].
      rewrite Hbase by reflexivity. now rewrite dget_base.
    + destruct (Hf _ _ _ Hx Hnn Htopp) as (f & Hfl & ->).
      exists f. split; [exact Hfl|].
      rewrite Hbase by reflexivity. now rewrite dget_base.
  - intros x Hx Hnn. unfold optional_int, dget_default in Htopk.
    rewrite Hx in Htopk.
    destruct x; try contradiction; cbn [is_none negb] in Htopk;
      (bind_inv Htopk as zi Hz; exists zi; split; [exact Hz|];
       inversion Htopk; subst top_k;
       rewrite Hbase by reflexivity; now rewrite dget_base).
Qed.

Lemma sampling_parameters_are_coerced_witness :
  let body := Scenario.body_full in
  let payload := Scenario.payload_of body in
  dget body "temperature" = Some (PInt 1) /\
  dget body "top_p" = Some (PStr "0.9") /\
  (exists f, dget body "top_k" = Some (PFloat f)) /\
  (exists f, dget payload "temperature" = Some (PFloat f)) /\
  (exists f, dget payload "top_p" = Some (PFloat f)) /\
  dget payload "top_k" = Some (PInt 40) /\
  (forall k x, k = "temperature" \/ k = "top_p" ->
     dget body k = Some x -> x <> PNone ->
     exists f, py_float (RT := Ref.runtime) x = Ok f
               /\ dget payload k = Some (PFloat f)) /\
  (forall x, dget body "top_k" = Some x -> x <> PNone ->
     exists z, py_int (RT := Ref.runtime) x = Ok z
               /\ dget payload "top_k" = Some (PInt z)).
Proof.
  cbv zeta.
  split; [reflexivity|]. split; [reflexivity|].
  split; [eexists; vm_compute; reflexivity|].
  split; [eexists; vm_compute; reflexivity|].
  split; [eexists; vm_compute; reflexivity|].
  split; [vm_compute; reflexivity|].
  apply (sampling_parameters_are_coerced (RT := Ref.runtime) Scenario.body_full
           (Scenario.system_of Scenario.body_full)
           (Scenario.messages_of Scenario.body_full)).
  vm_compute; reflexivity.
Defined.

(** ** Message processing: what comes out *)

(** X8. [_process_messages] gives one message for each message that it is
    given, in the same order; each has the two keys [role] and [content],
    the role being the one of the input, and the content exactly what
    [process_content] made of the input's content: other entries of a
    message are left behind, and no annotation is added. *)
Theorem messages_come_out_one_for_one {RT : PyRuntime} (msgs out : list pyval) :
  _process_messages (PList msgs) = Ok out ->
  Forall2 (fun m m' =>
             exists mc contents role,
               getitem_str m "content" = Ok mc /\
               process_content mc = Ok contents /\
               getitem_str m "role" = Ok role /\
               m' = processed_message role contents) msgs out.
Proof.
  unfold _process_messages. cbn [py_iter rbind].
  revert out. induction msgs as [|m msgs IH]; cbn [_process_messages_loop];
    intros out H.
  - inversion H. constructor.
  - bind_inv H as m' Hm'. bind_inv H as out' Hout'. inversion H; subst out.
    constructor; [|now apply IH].
    now apply _process_messages_message_plain.
Qed.

Lemma messages_come_out_one_for_one_witness :
  let body := Scenario.body_full in
  exists out,
    Scenario.messages_of body
    = PList [PDict [ ("role", PStr "user"); ("content", PStr "weather?");
                     ("name", PStr "ann") ]] /\
    out = [processed_message (PStr "user") [text_item (PStr "weather?")]] /\
    Forall2 (fun m m' =>
               exists mc contents role,
                 getitem_str m "content" = Ok mc /\
                 process_content mc = Ok contents /\
                 getitem_str m "role" = Ok role /\
                 m' = processed_message role contents)
      [PDict [ ("role", PStr "user"); ("content", PStr "weather?");
               ("name", PStr "ann") ]] out.
Proof.
  cbv zeta. eexists. split; [vm_compute; reflexivity|]. split; [reflexivity|].
  apply (messages_come_out_one_for_one (RT := Ref.runtime)).
  reflexivity.
Defined.

(** X9. A conversation of plain text messages always goes through,
    whatever the roles and the texts: each text becomes the single item
    [{"type": "text", "text": ...}] of its message. *)
Theorem plain_chat_is_kept {RT : PyRuntime} (turns : list (string * string)) :
  _process_messages
    (PList (map (fun t => chat_message (fst t) (snd t)) turns))
  = Ok (map (fun t => processed_message (PStr (fst t)) [text_item (PStr (snd t))])
          turns).
Proof.
  unfold _process_messages. cbn [py_iter rbind].
  induction turns as [|[role text] turns IH]; [reflexivity|].
  cbn [map _process_messages_loop fst snd]. rewrite IH.
  unfold _process_messages_message, chat_message.
  cbn [getitem_str dgetitem dget String.eqb Ascii.eqb Bool.eqb rbind
       process_content _process_messages_contents].
  unfold _process_messages_content.
  cbn [py_get py_get_default dget_default dget String.eqb Ascii.eqb Bool.eqb
       rbind py_eq_str].
  destruct (String.eqb role "assistant"); cbn [and_then rbind py_eq_str
    String.eqb Ascii.eqb Bool.eqb];
    destruct (String.eqb role "user"); reflexivity.
Qed.

(** ** Content normaliser: items one by one *)

(** Items are normalised one by one and in order. *)
Lemma process_content_loop_app (a b : list pyval) :
  process_content_loop (a ++ b)
  = (x <- process_content_loop a ;;
     y <- process_content_loop b ;;
     Ok (x ++ y)%list)%result.
Proof.
  induction a as [|item a IH]; cbn [app process_content_loop].
  - cbn [rbind]. destruct (process_content_loop b); reflexivity.
  - destruct (process_content_item item) as [o|e]; cbn [rbind]; [|reflexivity].
    rewrite IH.
    destruct (process_content_loop a) as [x|e]; cbn [rbind]; [|reflexivity].
    destruct (process_content_loop b) as [y|e]; cbn [rbind]; [|reflexivity].
    destruct o; reflexivity.
Qed.

(** X10. An item whose [type] is none of [text], [image_url] and
    [pdf_url] is left out without a trace: the content list normalises as
    it does without that item. *)
Theorem unknown_items_are_left_out (d : pydict) (t : pyval)
  (pre post : list pyval) :
  dget d "type" = Some t ->
  py_eq_str t "text" = false ->
  py_eq_str t "image_url" = false ->
  py_eq_str t "pdf_url" = false ->
  process_content (PList (pre ++ PDict d :: post))
  = process_content (PList (pre ++ post)).
Proof.
  intros Ht H1 H2 H3.
  assert (Hitem : process_content_item (PDict d) = Ok None).
  { unfold process_content_item, getitem_str, dgetitem. rewrite Ht.
    cbn [rbind]. now rewrite H1, H2, H3. }
  unfold process_content. cbn [py_iter rbind].
  rewrite !process_content_loop_app.
  cbn [process_content_loop]. rewrite Hitem. cbn [rbind].
  destruct (process_content_loop pre); cbn [rbind]; [|reflexivity].
  destruct (process_content_loop post); reflexivity.
Qed.

Lemma unknown_items_are_left_out_witness :
  process_content
    (PList ([text_item (PStr "Let me look.")]
            ++ PDict [ ("type", PStr "tool_calls"); ("id", PStr "call_1") ]
               :: [text_item (PStr "Done.")]))
  = process_content
      (PList ([text_item (PStr "Let me look.")] ++ [text_item (PStr "Done.")])).
Proof.
  apply (unknown_items_are_left_out
           [ ("type", PStr "tool_calls"); ("id", PStr "call_1") ]
           (PStr "tool_calls")); reflexivity.
Defined.

(** ** Content normaliser: images and documents *)

Lemma string_app_assoc (a b c : string) : (a ++ b) ++ c = a ++ b ++ c.
Proof. induction a as [|x a IH]; simpl; [reflexivity | now rewrite IH]. Qed.

Lemma prefix_app (p a b : string) :
  String.prefix p a = true -> String.prefix p (a ++ b) = true.
Proof.
  revert a. induction p as [|x p IH]; intros a H;
    [destruct (a ++ b); reflexivity|].
  destruct a as [|y a]; [discriminate|]. simpl in H |- *.
  destruct (Ascii.ascii_dec x y); [now apply IH | discriminate].
Qed.

Lemma str_in_In (x : string) (l : list string) : str_in x l = true <-> In x l.
Proof.
  unfold str_in. rewrite existsb_exists. split.
  - intros (y & Hy & E). apply String.eqb_eq in E. now subst.
  - intros H. exists x. split; [assumption | apply String.eqb_refl].
Qed.

(** The media type of an inline image is read back from its URL. *)
Lemma process_image_data_url (media_type data : string) :
  startswith media_type "image" = true ->
  has_char "," media_type = false ->
  has_char ":" media_type = false ->
  has_char ";" media_type = false ->
  process_image (image_url_item (data_url media_type data))
  = if str_in media_type SUPPORTED_IMAGE_TYPES
    then Ok (inline_image media_type data)
    else raise ValueError ("Unsupported media type: " ++ media_type).
Proof.
  intros Hp Hcomma Hcolon Hsemi.
  unfold process_image, image_url_item.
  cbn [getitem_str dgetitem dget String.eqb Ascii.eqb Bool.eqb rbind as_str].
  assert (Hstart : startswith (data_url media_type data) "data:image" = true).
  { unfold startswith, data_url. cbn.
    repeat match goal with
           | |- context [Ascii.ascii_dec ?a ?b] =>
               destruct (Ascii.ascii_dec a b); [|congruence]
           end.
    now apply prefix_app. }
  rewrite Hstart.
  assert (Hurl : data_url media_type data
                 = ("data:" ++ media_type ++ ";base64") ++ String "," data).
  { unfold data_url. rewrite !string_app_assoc. reflexivity. }
  rewrite Hurl, split1_at_first.
  2:{ cbn. rewrite has_char_app, Hcomma. reflexivity. }
  cbn [unpack2 rbind].
  change ("data:" ++ media_type ++ ";base64")
    with ("data" ++ String ":" (media_type ++ ";base64")).
  rewrite split_at_first by reflexivity.
  rewrite split_without by (rewrite has_char_app, Hcolon; reflexivity).
  cbn [nth_str nth_error rbind].
  change (media_type ++ ";base64") with (media_type ++ String ";" "base64").
  rewrite split_at_first by exact Hsemi.
  cbn [nth_str nth_error rbind].
  destruct (str_in media_type SUPPORTED_IMAGE_TYPES); reflexivity.
Qed.

(** X11. An inline image is accepted by [process_image] exactly when the
    media type named in its URL is one of the four supported ones, compared
    as written; for any other image type the error names the type.  The
    encoded data go through as they came, commas included. *)
Theorem image_media_type_is_checked (media_type data : string) :
  startswith media_type "image" = true ->
  has_char "," media_type = false ->
  has_char ":" media_type = false ->
  has_char ";" media_type = false ->
  (In media_type SUPPORTED_IMAGE_TYPES ->
   process_image (image_url_item (data_url media_type data))
   = Ok (inline_image media_type data)) /\
  (~ In media_type SUPPORTED_IMAGE_TYPES ->
   process_image (image_url_item (data_url media_type data))
   = raise ValueError ("Unsupported media type: " ++ media_type) /\
   forall pre post out,
     process_content_loop pre = Ok out ->
     process_content (PList (pre ++ image_url_item (data_url media_type data) :: post))
     = raise ValueError ("Unsupported media type: " ++ media_type)).
Proof.
  intros Hp H1 H2 H3.
  pose proof (process_image_data_url media_type data Hp H1 H2 H3) as Hrun.
  split.
  - intros Hin. apply str_in_In in Hin. now rewrite Hin in Hrun.
  - intros Hnot.
    destruct (str_in media_type SUPPORTED_IMAGE_TYPES) eqn:E;
      [apply str_in_In in E; contradiction|].
    split; [exact Hrun|].
    intros pre post out Hpre. unfold process_content. cbn [py_iter rbind].
    eapply process_content_loop_raises; [exact Hpre|].
    unfold process_content_item, image_url_item.
    cbn [getitem_str dgetitem dget String.eqb Ascii.eqb Bool.eqb rbind py_eq_str].
    fold (image_url_item (data_url media_type data)).
    now rewrite Hrun.
Qed.

Lemma image_media_type_is_checked_witness :
  ~ In "image/bmp" SUPPORTED_IMAGE_TYPES /\
  ~ In "image/PNG" SUPPORTED_IMAGE_TYPES /\
  process_image (image_url_item (data_url "image/bmp" "Qk0="))
  = raise ValueError "Unsupported media type: image/bmp" /\
  process_image (image_url_item (data_url "image/PNG" "iVBORw0KGgo="))
  = raise ValueError "Unsupported media type: image/PNG".
Proof.
  assert (H1 : ~ In "image/bmp" SUPPORTED_IMAGE_TYPES)
    by (cbn; intuition discriminate).
  assert (H2 : ~ In "image/PNG" SUPPORTED_IMAGE_TYPES)
    by (cbn; intuition discriminate).
  split; [exact H1|]. split; [exact H2|]. split.
  - exact (proj1 (proj2 (image_media_type_is_checked "image/bmp" "Qk0="
                           eq_refl eq_refl eq_refl eq_refl) H1)).
  - exact (proj1 (proj2 (image_media_type_is_checked "image/PNG" "iVBORw0KGgo="
                           eq_refl eq_refl eq_refl eq_refl) H2)).
Defined.

Section ProducedItems.
Context {RT : PyRuntime}.

Lemma copy_cache_control_produced (pdf_data : pyval) (document : pydict)
  (c : pyval) :
  dget document "type" = Some (PStr "document") ->
  copy_cache_control pdf_data document = Ok c ->
  produced c.
Proof.
  intros Ht H. unfold copy_cache_control in H.
  bind_inv H as cc Hcc. destruct (py_truthy cc).
  - bind_inv H as cc' Hcc'. inversion H; subst c.
    apply produced_document.
    rewrite dget_dset_other by discriminate. exact Ht.
  - inversion H; subst c. now apply produced_document.
Qed.

(** What [process_content] lets through, by shape. *)
Lemma process_content_item_produced (item c : pyval) :
  process_content_item item = Ok (Some c) -> produced c.
Proof.
  unfold process_content_item. intros H.
  bind_inv H as t Ht.
  destruct (py_eq_str t "text").
  { bind_inv H as tx Htx. inversion H; subst c. apply produced_text. }
  destruct (py_eq_str t "image_url").
  { bind_inv H as im Him. inversion H; subst c.
    unfold process_image in Him.
    bind_inv Him as iu Hiu. bind_inv Him as u Hu. bind_inv Him as url Hurl.
    destruct (startswith url "data:image").
    - bind_inv Him as parts Hparts. destruct parts as [mime b64].
      bind_inv Him as m1 Hm1. bind_inv Him as media_type Hmt.
      destruct (str_in media_type SUPPORTED_IMAGE_TYPES) eqn:E;
        cbn [negb] in Him; [|discriminate].
      inversion Him. apply produced_inline. now apply str_in_In.
    - inversion Him. apply produced_remote. }
  destruct (py_eq_str t "pdf_url"); [|discriminate].
  bind_inv H as m Hm. bind_inv H as ms Hms.
  destruct (negb (str_in _ SUPPORTED_PDF_MODELS)); [discriminate|].
  bind_inv H as doc Hpdf. inversion H; subst c.
  unfold process_pdf in Hpdf.
  bind_inv Hpdf as pu Hpu. bind_inv Hpdf as u Hu. bind_inv Hpdf as url Hurl.
  destruct (startswith url "data:application/pdf").
  - bind_inv Hpdf as parts Hparts. destruct parts as [mime b64].
    eapply copy_cache_control_produced; [|exact Hpdf]. reflexivity.
  - eapply copy_cache_control_produced; [|exact Hpdf]. reflexivity.
Qed.

Lemma process_content_loop_produced (items out : list pyval) :
  process_content_loop items = Ok out -> Forall produced out.
Proof.
  revert out. induction items as [|x items IH]; simpl; intros out H.
  - inversion H. constructor.
  - bind_inv H as o Ho. bind_inv H as out' Hout'. inversion H; subst out.
    destruct o as [c|]; [constructor|]; eauto using process_content_item_produced.
Qed.

Lemma process_content_produced (content : pyval) (out : list pyval) :
  process_content content = Ok out -> Forall produced out.
Proof.
  unfold process_content. intros H.
  destruct content;
    try (bind_inv H as items Hitems; eauto using process_content_loop_produced; fail).
  inversion H. constructor; [apply produced_text | constructor].
Qed.

(** The inner loop of [_process_messages] on an item that is not an
    image, and on one that is. *)
Lemma _process_messages_content_other (message c : pydict) (k : string) :
  dget c "type" = Some (PStr k) ->
  In k ["text"; "document"] ->
  _process_messages_content (PDict message) (PDict c) = Ok (PDict c).
Proof.
  intros Ht Hk. unfold _process_messages_content.
  cbn [py_get py_get_default rbind]. unfold dget_default at 2 4 5. rewrite Ht.
  assert (Hand : forall b, and_then b (Ok false) = Ok false) by (now intros []).
  cbn in Hk. decompose [or] Hk; try contradiction; subst k;
    cbn [rbind py_eq_str String.eqb Ascii.eqb Bool.eqb];
    rewrite !Hand; reflexivity.
Qed.

Lemma _process_messages_content_image (message c : pydict) :
  dget c "type" = Some (PStr "image") ->
  _process_messages_content (PDict message) (PDict c)
  = (_ <- check_image (PDict c) ;; Ok (PDict c))%result.
Proof.
  intros Ht. unfold _process_messages_content.
  cbn [py_get py_get_default rbind]. unfold dget_default at 2 4 5. rewrite Ht.
  assert (Hand : forall b, and_then b (Ok false) = Ok false) by (now intros []).
  cbn [rbind py_eq_str String.eqb Ascii.eqb Bool.eqb].
  rewrite !Hand. reflexivity.
Qed.

(** On what [process_content] produced, the inner loop either keeps the
    item or refuses it for its size. *)
Lemma _process_messages_content_produced (message : pydict) (c : pyval) :
  produced c ->
  _process_messages_content (PDict message) c = Ok c \/
  exists n,
    (inject_Z MAX_IMAGE_SIZE < image_size n)%Q /\
    _process_messages_content (PDict message) c
    = raise ValueError (IMAGE_SIZE_ERROR n).
Proof.
  intros [tx | media_type data Hin | url | d Hd].
  - left. apply (_process_messages_content_other message _ "text");
      [reflexivity | cbn; tauto].
  - unfold inline_image.
    rewrite _process_messages_content_image by reflexivity.
    fold (inline_image media_type data).
    rewrite (check_image_inline _ _ Hin).
    destruct (Qle_bool (image_size (py_len data)) (inject_Z MAX_IMAGE_SIZE)) eqn:E.
    + now left.
    + right. exists (py_len data). split; [|reflexivity].
      apply Qnot_le_lt. intros Hle. apply Qle_bool_iff in Hle. congruence.
  - left. unfold remote_image.
    now rewrite _process_messages_content_image by reflexivity.
  - left. apply (_process_messages_content_other message _ "document");
      [exact Hd | cbn; tauto].
Qed.

Lemma _process_messages_contents_produced (message : pydict)
  (contents : list pyval) :
  Forall produced contents ->
  _process_messages_contents (PDict message) contents = Ok contents \/
  exists n,
    (inject_Z MAX_IMAGE_SIZE < image_size n)%Q /\
    _process_messages_contents (PDict message) contents
    = raise ValueError (IMAGE_SIZE_ERROR n).
Proof.
  induction 1 as [|c contents Hc Hall IH]; cbn [_process_messages_contents];
    [now left|].
  destruct (_process_messages_content_produced message c Hc)
    as [-> | (n & Hn & ->)]; [|right; exists n; now split].
  cbn [rbind].
  destruct IH as [-> | (n & Hn & ->)]; [now left | right; exists n; now split].
Qed.
End ProducedItems.

(** X12. Once [process_content] has normalised the content of a message,
    the only reason for [_process_messages] to refuse the message is an
    inline image above the size limit: otherwise the message comes out with
    the normalised items unchanged.  In particular the second test of the
    media type, in [_process_messages], never fails. *)
Theorem only_the_size_limit_rejects {RT : PyRuntime} (message : pydict)
  (mc role : pyval) (contents : list pyval) :
  dget message "content" = Some mc ->
  dget message "role" = Some role ->
  process_content mc = Ok contents ->
  _process_messages_message (PDict message)
  = Ok (processed_message role contents) \/
  exists n,
    (inject_Z MAX_IMAGE_SIZE < image_size n)%Q /\
    _process_messages_message (PDict message)
    = raise ValueError (IMAGE_SIZE_ERROR n).
Proof.
  intros Hmc Hrole Hcontents.
  unfold _process_messages_message, getitem_str, dgetitem.
  rewrite Hmc, Hrole. cbn [rbind]. rewrite Hcontents. cbn [rbind].
  destruct (_process_messages_contents_produced message contents
              (process_content_produced mc contents Hcontents))
    as [-> | (n & Hn & ->)].
  - now left.
  - right. exists n. now split.
Qed.

Lemma only_the_size_limit_rejects_witness :
  let message :=
    [ ("role", PStr "user");
      ("content", PList [text_item (PStr "Look:");
                         image_url_item (data_url "image/png" "iVBORw0KGgo=");
                         image_url_item "https://example.org/a.png"]) ] in
  process_content
    (PList [text_item (PStr "Look:");
            image_url_item (data_url "image/png" "iVBORw0KGgo=");
            image_url_item "https://example.org/a.png"])
  = Ok [text_item (PStr "Look:"); inline_image "image/png" "iVBORw0KGgo=";
        remote_image "https://example.org/a.png"] /\
  (_process_messages_message (RT := Ref.runtime) (PDict message)
   = Ok (processed_message (PStr "user")
           [text_item (PStr "Look:"); inline_image "image/png" "iVBORw0KGgo=";
            remote_image "https://example.org/a.png"]) \/
   exists n,
     (inject_Z MAX_IMAGE_SIZE < image_size n)%Q /\
     _process_messages_message (RT := Ref.runtime) (PDict message)
     = raise ValueError (IMAGE_SIZE_ERROR n)).
Proof.
  cbv zeta. split; [reflexivity|].
  eapply (only_the_size_limit_rejects (RT := Ref.runtime)); reflexivity.
Defined.

(** X13. The size limit is applied to each image on its own: a message
    with any number of inline images of supported types, each estimated at
    no more than 5 MiB, goes through with all of them, whatever their
    number and their total size. *)
Theorem images_are_limited_one_by_one {RT : PyRuntime}
  (images : list (string * string)) (role : pyval) :
  Forall (fun i => In (fst i) SUPPORTED_IMAGE_TYPES /\
                   (image_size (py_len (snd i)) <= inject_Z MAX_IMAGE_SIZE)%Q)
    images ->
  _process_messages
    (PList [PDict [ ("role", role);
                    ("content",
                     PList (map (fun i => image_url_item (data_url (fst i) (snd i)))
                              images)) ]])
  = Ok [processed_message role
          (map (fun i => inline_image (fst i) (snd i)) images)].
Proof.
  intros Hall.
  unfold _process_messages.
  cbn [py_iter rbind _process_messages_loop _process_messages_message
       getitem_str dgetitem dget String.eqb Ascii.eqb Bool.eqb process_content].
  assert (Hnorm : process_content_loop
                    (map (fun i => image_url_item (data_url (fst i) (snd i))) images)
                  = Ok (map (fun i => inline_image (fst i) (snd i)) images)).
  { induction Hall as [|[mt data] images [Hin _] Hall IH];
      cbn [map process_content_loop fst snd]; [reflexivity|].
    unfold process_content_item at 1, image_url_item at 1.
    cbn [getitem_str dgetitem dget rbind String.eqb Ascii.eqb Bool.eqb py_eq_str].
    fold (image_url_item (data_url mt data)).
    rewrite (process_image_inline _ _ Hin). cbn [rbind].
    now rewrite IH. }
  rewrite Hnorm. cbn [rbind].
  assert (Hkeep : forall message,
            _process_messages_contents (PDict message)
              (map (fun i => inline_image (fst i) (snd i)) images)
            = Ok (map (fun i => inline_image (fst i) (snd i)) images)).
  { intros message. clear Hnorm.
    induction Hall as [|[mt data] images [Hin Hsize] Hall IH];
      cbn [map _process_messages_contents fst snd]; [reflexivity|].
    unfold inline_image at 1.
    rewrite _process_messages_content_image by reflexivity.
    fold (inline_image mt data).
    rewrite (check_image_inline _ _ Hin).
    cbn [fst snd] in Hsize. apply Qle_bool_iff in Hsize. rewrite Hsize.
    cbn [rbind]. now rewrite IH. }
  rewrite Hkeep. reflexivity.
Qed.

Lemma images_are_limited_one_by_one_witness :
  let images := [ ("image/png", "iVBORw0KGgo="); ("image/jpeg", "/9j/4AAQ");
                  ("image/png", "iVBORw0KGgo=") ] in
  _process_messages (RT := Ref.runtime)
    (PList [PDict [ ("role", PStr "user");
                    ("content",
                     PList (map (fun i => image_url_item (data_url (fst i) (snd i)))
                              images)) ]])
  = Ok [processed_message (PStr "user")
          (map (fun i => inline_image (fst i) (snd i)) images)].
Proof.
  cbv zeta.
  apply (images_are_limited_one_by_one (RT := Ref.runtime)).
  repeat constructor; cbn; try tauto; discriminate.
Defined.

(** X14. An image whose URL does not start with [data:image] is sent by
    reference: the URL goes into a source of type [url] as it is, and
    neither its media type nor its size is looked at. *)
Theorem image_by_reference_is_not_inspected {RT : PyRuntime} (url : string)
  (role : pyval) :
  startswith url "data:image" = false ->
  _process_messages
    (PList [PDict [ ("role", role); ("content", PList [image_url_item url]) ]])
  = Ok [processed_message role [remote_image url]].
Proof.
  intros Hurl.
  unfold _process_messages.
  cbn [py_iter rbind _process_messages_loop _process_messages_message
       getitem_str dgetitem dget String.eqb Ascii.eqb Bool.eqb
       process_content process_content_loop].
  unfold process_content_item, image_url_item, process_image.
  cbn [getitem_str dgetitem dget rbind String.eqb Ascii.eqb Bool.eqb
       py_eq_str as_str].
  rewrite Hurl. cbn [rbind _process_messages_contents].
  rewrite _process_messages_content_image by reflexivity.
  reflexivity.
Qed.

Lemma image_by_reference_is_not_inspected_witness :
  _process_messages (RT := Ref.runtime)
    (PList [PDict [ ("role", PStr "user");
                    ("content", PList [image_url_item "https://example.org/scan.bmp"]) ]])
  = Ok [processed_message (PStr "user") [remote_image "https://example.org/scan.bmp"]].
Proof.
  apply (image_by_reference_is_not_inspected (RT := Ref.runtime)
           "https://example.org/scan.bmp" (PStr "user")).
  reflexivity.
Defined.

Lemma copy_cache_control_hint (d : pydict) (source : pyval) :
  copy_cache_control (PDict d) [ ("type", PStr "document"); ("source", source) ]
  = Ok (PDict ([ ("type", PStr "document"); ("source", source) ] ++ kept_hint d)).
Proof.
  unfold copy_cache_control, kept_hint.
  cbn [py_get py_get_default rbind getitem_str]. unfold dget_default, dgetitem.
  destruct (dget d "cache_control") as [cc|]; [|reflexivity].
  destruct (py_truthy cc); reflexivity.
Qed.

(** X15. A [pdf_url] item for a model that reads PDF is always accepted:
    an inline document of any length keeps its encoded data as they came
    (no size is computed, no type is tested), a document by reference keeps
    its URL, and the item's [cache_control] is taken over exactly when it is
    true as a condition. *)
Theorem pdf_of_supported_model_is_accepted (d u : pydict) (m : string) :
  dget d "type" = Some (PStr "pdf_url") ->
  pdf_model_name d = Some m ->
  In m SUPPORTED_PDF_MODELS ->
  dget d "pdf_url" = Some (PDict u) ->
  (forall data,
     dget u "url" = Some (PStr (data_url "application/pdf" data)) ->
     process_content_item (PDict d)
     = Ok (Some (inline_document data (kept_hint d)))) /\
  (forall url,
     dget u "url" = Some (PStr url) ->
     startswith url "data:application/pdf" = false ->
     process_content_item (PDict d)
     = Ok (Some (remote_document url (kept_hint d)))).
Proof.
  intros Htype Hm Hin Hpdf.
  assert (Hitem : process_content_item (PDict d)
                  = (doc <- process_pdf (PDict d) ;; Ok (Some doc))%result).
  { unfold process_content_item, getitem_str, dgetitem. rewrite Htype.
    cbn [rbind py_eq_str String.eqb Ascii.eqb Bool.eqb py_get_default].
    unfold pdf_model_name in Hm.
    destruct (dget_default d "model" (PStr "")) as [| | | |ms| |]; try discriminate.
    inversion Hm; subst m. cbn [as_str rbind].
    apply str_in_In in Hin. now rewrite Hin. }
  rewrite Hitem. unfold process_pdf, getitem_str, dgetitem. rewrite Hpdf.
  cbn [rbind]. split.
  - intros data Hu. rewrite Hu. cbn [rbind as_str].
    change (startswith (data_url "application/pdf" data) "data:application/pdf")
      with true.
    change (split1 "," (data_url "application/pdf" data))
      with ["data:application/pdf;base64"; data].
    cbn [unpack2 rbind]. now rewrite copy_cache_control_hint.
  - intros url Hu Hs. rewrite Hu. cbn [rbind as_str]. rewrite Hs.
    now rewrite copy_cache_control_hint.
Qed.

Lemma pdf_of_supported_model_is_accepted_witness :
  dget Scenario.pdf_item_inline "type" = Some (PStr "pdf_url") /\
  pdf_model_name Scenario.pdf_item_inline = Some "claude-3-5-sonnet-20241022" /\
  In "claude-3-5-sonnet-20241022" SUPPORTED_PDF_MODELS /\
  kept_hint Scenario.pdf_item_inline = [ ("cache_control", EPHEMERAL) ] /\
  process_content_item (PDict Scenario.pdf_item_inline)
  = Ok (Some (inline_document "JVBERi0xLjQK" (kept_hint Scenario.pdf_item_inline))).
Proof.
  split; [reflexivity|]. split; [reflexivity|]. split; [cbn; tauto|].
  split; [reflexivity|].
  refine (proj1 (pdf_of_supported_model_is_accepted Scenario.pdf_item_inline
                   [ ("url", PStr (data_url "application/pdf" "JVBERi0xLjQK")) ]
                   "claude-3-5-sonnet-20241022" _ _ _ _) "JVBERi0xLjQK" _).
  - reflexivity.
  - reflexivity.
  - cbn; tauto.
  - reflexivity.
  - reflexivity.
Defined.

(** ** Header negotiation *)

Lemma py_any_existsb {A} (f : A -> result bool) (g : A -> bool) (l : list A) :
  Forall (fun x => f x = Ok (g x)) l -> py_any f l = Ok (existsb g l).
Proof.
  induction 1 as [|x l Hx Hl IH]; cbn [py_any existsb]; [reflexivity|].
  rewrite Hx. destruct (g x); [reflexivity | exact IH].
Qed.

Lemma existsb_orb {A} (p q : A -> bool) (l : list A) :
  existsb (fun x => p x || q x) l = existsb p l || existsb q l.
Proof.
  induction l as [|x l IH]; cbn [existsb]; [reflexivity|].
  rewrite IH. destruct (p x), (q x), (existsb p l), (existsb q l); reflexivity.
Qed.

Lemma existsb_same {A} (p q : A -> bool) (l : list A) :
  (forall x, p x = q x) -> existsb p l = existsb q l.
Proof.
  intros H. induction l as [|x l IH]; cbn [existsb]; [reflexivity|].
  now rewrite H, IH.
Qed.

Section Negotiation.
Context {RT : PyRuntime}.

(** On well-formed messages a test of the items never fails, and [any]
    of [any] is the plain existence of an item. *)
Lemma any_item_mentions (p : pyval -> result bool) (q : pyval -> bool)
  (body : pydict) (msgs : list pyval) :
  (forall d, p (PDict d) = Ok (q (PDict d))) ->
  dget body "messages" = Some (PList msgs) ->
  well_formed msgs ->
  any_item p body = Ok (mentions q msgs).
Proof.
  intros Hp Hbody Hwf. unfold any_item, dget_default. rewrite Hbody.
  cbn [py_iter rbind]. unfold mentions.
  apply py_any_existsb.
  eapply Forall_impl; [|exact Hwf].
  intros msg (d & c & -> & Hc & Hitems).
  unfold getitem_str, dgetitem, items_of, field. rewrite Hc. cbn [rbind].
  destruct c; try reflexivity.
  apply py_any_existsb.
  eapply Forall_impl; [|exact (Hitems _ eq_refl)].
  intros item (x & ->). apply Hp.
Qed.

Lemma item_is_pdf_total (d : pydict) :
  item_is_pdf (PDict d) = Ok (is_pdf_item (PDict d)).
Proof.
  unfold item_is_pdf, is_pdf_item, field.
  cbn [py_get py_get_default rbind]. unfold dget_default.
  destruct (dget d "type"); reflexivity.
Qed.

Lemma item_has_cache_control_total (d : pydict) :
  item_has_cache_control (PDict d) = Ok (has_hint (PDict d)).
Proof.
  unfold item_has_cache_control, has_hint, field.
  cbn [py_get py_get_default rbind]. unfold dget_default.
  destruct (dget d "cache_control"); reflexivity.
Qed.

Lemma item_is_pdf_or_cached_total (d : pydict) :
  item_is_pdf_or_cached (PDict d)
  = Ok (is_pdf_item (PDict d) || has_hint (PDict d)).
Proof.
  unfold item_is_pdf_or_cached.
  rewrite item_is_pdf_total. cbn [rbind].
  destruct (is_pdf_item (PDict d)); [reflexivity|].
  apply item_has_cache_control_total.
Qed.
End Negotiation.

(** X16. For well-formed messages the negotiation of the beta features
    never fails and depends on two facts only: the header [anthropic-beta]
    names [pdfs-2024-09-25] exactly when some item of some content list has
    the type [pdf_url], and [prompt-caching-2024-07-31] exactly when some
    item has a [cache_control] that is true as a condition; both are joined
    by a comma, in this order, and without either the header is absent. *)
Theorem beta_headers_follow_the_items {RT : PyRuntime} (body : pydict)
  (msgs : list pyval) (key : string) :
  dget body "messages" = Some (PList msgs) ->
  well_formed msgs ->
  let pdf := mentions is_pdf_item msgs in
  let hint := mentions has_hint msgs in
  exists beta,
    pipe_beta_headers body = Ok beta /\
    (In PDF_BETA_HEADER beta <-> pdf = true) /\
    (In BETA_HEADER beta <-> hint = true) /\
    header_get (pipe_headers key beta) "anthropic-beta"
    = match pdf, hint with
      | true, true => Some "pdfs-2024-09-25,prompt-caching-2024-07-31"
      | true, false => Some "pdfs-2024-09-25"
      | false, true => Some "prompt-caching-2024-07-31"
      | false, false => None
      end.
Proof.
  intros Hbody Hwf pdf hint.
  exists ((if pdf then [PDF_BETA_HEADER] else [])
          ++ (if hint then [BETA_HEADER] else []))%list.
  split.
  - unfold pipe_beta_headers.
    rewrite (any_item_mentions _ (fun i => is_pdf_item i || has_hint i) body msgs
               item_is_pdf_or_cached_total Hbody Hwf).
    rewrite (any_item_mentions _ is_pdf_item body msgs item_is_pdf_total Hbody Hwf).
    rewrite (any_item_mentions _ has_hint body msgs item_has_cache_control_total
               Hbody Hwf).
    fold pdf hint. cbn [rbind].
    assert (Hsome : mentions (fun i => is_pdf_item i || has_hint i) msgs
                    = pdf || hint).
    { unfold pdf, hint, mentions.
      rewrite <- existsb_orb. apply existsb_same. intros msg.
      apply existsb_orb. }
    rewrite Hsome. destruct pdf, hint; reflexivity.
  - destruct pdf, hint; cbn; repeat split; try tauto;
      intros H; decompose [or] H; try discriminate; try contradiction.
Qed.

Lemma beta_headers_follow_the_items_witness :
  let body := Scenario.body_pdf_cached in
  exists msgs,
    dget body "messages" = Some (PList msgs) /\
    mentions is_pdf_item msgs = true /\
    mentions has_hint msgs = true /\
    pipe_beta_headers body = Ok [PDF_BETA_HEADER; BETA_HEADER] /\
    exists beta,
      pipe_beta_headers body = Ok beta /\
      (In PDF_BETA_HEADER beta <-> mentions is_pdf_item msgs = true) /\
      (In BETA_HEADER beta <-> mentions has_hint msgs = true) /\
      header_get (pipe_headers "sk-ant-test" beta) "anthropic-beta"
      = match mentions is_pdf_item msgs, mentions has_hint msgs with
        | true, true => Some "pdfs-2024-09-25,prompt-caching-2024-07-31"
        | true, false => Some "pdfs-2024-09-25"
        | false, true => Some "prompt-caching-2024-07-31"
        | false, false => None
        end.
Proof.
  cbv zeta. eexists. split; [reflexivity|].
  split; [reflexivity|]. split; [reflexivity|]. split; [reflexivity|].
  apply (beta_headers_follow_the_items (RT := Ref.runtime)
           Scenario.body_pdf_cached _ "sk-ant-test" eq_refl).
  repeat constructor; eexists _, _; (split; [reflexivity|]);
    (split; [reflexivity|]); intros items Hitems; inversion Hitems;
    repeat constructor; eexists; reflexivity.
Defined.

(** ** Entry point: from the request to the answer *)

Lemma emit_fields (e : bool) (d : string) (b : bool) (st : State) :
  let st' := snd (emit e d b st) in
  emit e d b st = (Ok tt, st') /\
  self st' = self st /\
  http_script (world st') = http_script (world st) /\
  aio_script (world st') = aio_script (world st) /\
  sent (world st') = sent (world st) /\
  slept (world st') = slept (world st) /\
  log (world st') = log (world st) /\
  events (world st')
  = (events (world st) ++ heard e [ {| description := d; done := b |} ])%list.
Proof.
  destruct e; cbn; repeat split; try reflexivity. now rewrite app_nil_r.
Qed.

Section CallFacts.
Context {RT : PyRuntime}.

(** What [pipe] comes to once the request is built. *)
Lemma pipe_prepared (body : pydict) (emitter : bool) (st : State)
  (hs : headers) (payload : pydict) :
  prepared body st hs payload ->
  pipe body emitter st
  = try_except (pipe_call hs payload body emitter) is_Exception
      (pipe_except "Error: " emitter)
      (snd (emit emitter "Processing request..." false st)).
Proof.
  intros (Hkey & bm & sm & beta & Hbm & Hsm & Hpl & Hbeta & ->).
  unfold pipe.
  destruct (String.eqb (ANTHROPIC_API_KEY (self st)) "") eqn:E;
    [apply String.eqb_eq in E; contradiction|].
  unfold pipe_try, try_except.
  unfold bind at 1, lift at 1, dgetitem. rewrite Hbm.
  unfold bind at 1, lift at 1. rewrite Hsm.
  unfold bind at 1.
  destruct (emit_fields emitter "Processing request..." false st)
    as (Hemit & Hself & _).
  set (st1 := snd (emit emitter "Processing request..." false st)) in *.
  rewrite Hemit.
  unfold bind at 1, lift at 1. rewrite Hpl.
  unfold bind at 1, lift at 1. rewrite Hbeta.
  unfold bind at 1. cbv beta iota. rewrite Hself. reflexivity.
Qed.

(** The first attempt of [_send_request] when the reply is not a rate
    limit, and when the request fails. *)
Lemma _send_request_first_reply (url : string) (hs : headers) (payload : pydict)
  (st : State) (r : Response) (tail : list (result Response)) :
  http_script (world st) = Ok r :: tail ->
  status_code r <> Some 429 ->
  _send_request url hs payload st
  = (Ok r, snd (requests_post url hs payload st)).
Proof.
  intros Hs Hother.
  unfold _send_request. change (Z.to_nat (max_retries - 0)) with 3%nat.
  cbn [_send_request_loop].
  unfold bind at 1, _send_request_body, try_except, bind, requests_post.
  rewrite Hs.
  assert (status_is (status_code r) 429 = false) as ->.
  { unfold status_is. destruct (status_code r) as [z|]; [|reflexivity].
    destruct (Z.eqb_spec z 429); [subst; contradiction | reflexivity]. }
  reflexivity.
Qed.

Lemma _send_request_failure (url : string) (hs : headers) (payload : pydict)
  (st : State) (e : pyexc) (tail : list (result Response)) :
  http_script (world st) = Raise e :: tail ->
  _send_request url hs payload st
  = (Raise e,
     if is_RequestException (exc_cls e)
     then snd (logging ERROR ("Request failed: " ++ exc_str e)
                 (snd (requests_post url hs payload st)))
     else snd (requests_post url hs payload st)).
Proof.
  intros Hs.
  unfold _send_request. change (Z.to_nat (max_retries - 0)) with 3%nat.
  cbn [_send_request_loop].
  unfold bind at 1, _send_request_body, try_except, bind, requests_post.
  rewrite Hs. cbv beta iota.
  destruct (is_RequestException (exc_cls e)); reflexivity.
Qed.

(** The inner [try] of [pipe] for a request that is not streamed, in
    terms of what [_send_request] gives. *)
Lemma pipe_call_not_streamed (hs : headers) (payload body : pydict)
  (emitter : bool) (st : State) (s : pyval) :
  dget payload "stream" = Some s ->
  py_truthy s = false ->
  pipe_call hs payload body emitter st
  = try_except
      (response <- _send_request MODEL_URL hs payload ;;
       if negb (status_is (status_code response) 200) then
         ret (Value (error_text
                       ("Error: HTTP " ++ format_status (status_code response)
                          ++ ": " ++ text response)))
       else
         hr <- _handle_response response ;;
         c <- lift (getitem_str (fst hr) "content") ;;
         c0 <- lift (getitem_0 c) ;;
         response_text <- lift (getitem_str c0 "text") ;;
         emit emitter "Request completed successfully" true ;;;
         ret (Value response_text))%M
      is_RequestException (pipe_except "Request failed: " emitter) st.
Proof.
  intros Hs Hf. unfold pipe_call, try_except.
  unfold bind at 1, lift at 1, dgetitem. rewrite Hs, Hf. reflexivity.
Qed.

(** The error text of either [except] clause of [pipe]. *)
Lemma pipe_except_fields (prefix : string) (e : pyexc) (emitter : bool)
  (st : State) :
  let msg := with_request_id (prefix ++ exc_str e) (request_id (self st)) in
  pipe_except prefix emitter e st
  = (Ok (Value (error_text msg)), snd (emit emitter msg true st)).
Proof.
  cbv zeta. unfold pipe_except, bind, get_request_id, ret.
  destruct (emit_fields emitter
              (with_request_id (prefix ++ exc_str e) (request_id (self st))) true st)
    as (Hemit & _).
  set (st1 := snd (emit emitter _ true st)) in *.
  now rewrite Hemit.
Qed.
End CallFacts.

Section ReplyFacts.
Context {RT : PyRuntime}.

(** A reply with status 200 and a JSON object as its body is handed back
    as it is, with the cache metrics beside it, and the instance is left
    alone. *)
Lemma _handle_response_200 (r : Response) (st : State) (j : pydict) :
  status_code r = Some 200 ->
  json r = Ok (PDict j) ->
  usage_ok j ->
  exists usage,
    dget_default j "usage" (PDict []) = PDict usage /\
    _handle_response r st
    = (Ok (PDict j,
           PDict [ ("cache_creation_input_tokens",
                    dget_default usage "cache_creation_input_tokens" (PInt 0));
                   ("cache_read_input_tokens",
                    dget_default usage "cache_read_input_tokens" (PInt 0));
                   ("input_tokens", dget_default usage "input_tokens" (PInt 0));
                   ("output_tokens", dget_default usage "output_tokens" (PInt 0)) ]),
       st).
Proof.
  intros H200 Hj Hu. unfold _handle_response. rewrite H200, Hj.
  cbn [status_is Z.eqb Pos.eqb negb].
  assert (Husage : exists usage, dget_default j "usage" (PDict []) = PDict usage).
  { unfold usage_ok in Hu. unfold dget_default.
    destruct (dget j "usage") as [[| | | | | |usage]|]; try contradiction; eauto. }
  destruct Husage as (usage & Husage). exists usage. split; [exact Husage|].
  unfold bind, lift, ret. cbn [py_get_default]. rewrite Husage. reflexivity.
Qed.
End ReplyFacts.

(** X17. A request that is not streamed and is answered at once with
    status 200 and a JSON object whose [content] starts with an item that has
    a [text]: [pipe] returns that text itself, not a dictionary, after exactly
    one request that carries the payload and the headers built for the body;
    it does not wait, leaves the instance as it was, and tells a listening
    host that the request is being processed and then that it completed. *)
Theorem reply_text_is_returned {RT : PyRuntime} (body : pydict)
  (emitter : bool) (st : State) (hs : headers) (payload : pydict) (s : pyval)
  (r : Response) (tail : list (result Response)) (j first : pydict)
  (others : list pyval) (t : pyval) :
  prepared body st hs payload ->
  dget payload "stream" = Some s ->
  py_truthy s = false ->
  http_script (world st) = Ok r :: tail ->
  status_code r = Some 200 ->
  json r = Ok (PDict j) ->
  usage_ok j ->
  dget j "content" = Some (PList (PDict first :: others)) ->
  dget first "text" = Some t ->
  exists st',
    pipe body emitter st = (Ok (Value t), st') /\
    self st' = self st /\
    sent (world st') = (sent (world st) ++ [posted MODEL_URL hs payload])%list /\
    http_script (world st') = tail /\
    slept (world st') = slept (world st) /\
    events (world st')
    = (events (world st)
       ++ heard emitter
            [ {| description := "Processing request..."; done := false |};
              {| description := "Request completed successfully"; done := true |} ])%list.
Proof.
  intros Hprep Hs Hf Hscript H200 Hj Hu Hc Ht.
  rewrite (pipe_prepared body emitter st hs payload Hprep).
  destruct (emit_fields emitter "Processing request..." false st)
    as (_ & Hself1 & Hhttp1 & _ & Hsent1 & Hslept1 & _ & Hev1).
  set (st1 := snd (emit emitter "Processing request..." false st)) in *.
  unfold try_except at 1.
  rewrite (pipe_call_not_streamed hs payload body emitter st1 s Hs Hf).
  unfold try_except at 1. unfold bind at 1.
  rewrite (_send_request_first_reply MODEL_URL hs payload st1 r tail)
    by (rewrite ?H200; congruence).
  rewrite H200. cbn [status_is Z.eqb Pos.eqb negb].
  set (st2 := snd (requests_post MODEL_URL hs payload st1)).
  unfold bind at 1.
  destruct (_handle_response_200 r st2 j H200 Hj Hu) as (usage & _ & ->).
  unfold bind at 1, lift at 1. cbn [fst getitem_str]. unfold dgetitem. rewrite Hc.
  unfold bind at 1, lift at 1. cbn [getitem_0].
  unfold bind at 1, lift at 1. cbn [getitem_str]. unfold dgetitem. rewrite Ht.
  unfold bind at 1.
  destruct (emit_fields emitter "Request completed successfully" true st2)
    as (Hemit & Hself3 & Hhttp3 & _ & Hsent3 & Hslept3 & _ & Hev3).
  set (st3 := snd (emit emitter "Request completed successfully" true st2)) in *.
  rewrite Hemit. unfold ret.
  exists st3. split; [reflexivity|].
  split; [now rewrite Hself3, <- Hself1|].
  split; [rewrite Hsent3; unfold st2; cbn; now rewrite Hsent1|].
  split; [rewrite Hhttp3; unfold st2; cbn; now rewrite Hhttp1, Hscript|].
  split; [rewrite Hslept3; unfold st2; cbn; exact Hslept1|].
  rewrite Hev3. unfold st2. cbn [requests_post snd world events].
  rewrite Hev1, <- app_assoc. destruct emitter; reflexivity.
Qed.

Lemma reply_text_is_returned_witness :
  let st := Scenario.fresh [Ok Scenario.reply_200] [] in
  let payload := Scenario.payload_of Scenario.body_plain in
  exists st',
    pipe (RT := Ref.runtime) Scenario.body_plain true st
    = (Ok (Value (PStr "Hello")), st') /\
    self st' = self st /\
    sent (world st')
    = (sent (world st) ++ [posted MODEL_URL Scenario.headers_plain payload])%list /\
    http_script (world st') = [] /\
    slept (world st') = slept (world st) /\
    events (world st')
    = (events (world st)
       ++ heard true
            [ {| description := "Processing request..."; done := false |};
              {| description := "Request completed successfully"; done := true |} ])%list.
Proof.
  cbv zeta.
  eapply (reply_text_is_returned (RT := Ref.runtime) Scenario.body_plain true
            (Scenario.fresh [Ok Scenario.reply_200] []) Scenario.headers_plain
            (Scenario.payload_of Scenario.body_plain) (PBool false)
            Scenario.reply_200 []).
  - split; [discriminate|].
    eexists _, _, _. repeat split; vm_compute; reflexivity.
  - vm_compute; reflexivity.
  - reflexivity.
  - reflexivity.
  - reflexivity.
  - vm_compute; reflexivity.
  - exact I.
  - reflexivity.
  - reflexivity.
Defined.

Section OutcomeFacts.
Context {RT : PyRuntime}.

(** The answer of [pipe] when [_send_request] raises, and when it gives a
    response whose status is not 200. *)
Lemma pipe_of_failed_request (body : pydict) (emitter : bool) (st : State)
  (hs : headers) (payload : pydict) (s : pyval) (e : pyexc) (st2 : State) :
  prepared body st hs payload ->
  dget payload "stream" = Some s ->
  py_truthy s = false ->
  _send_request MODEL_URL hs payload
    (snd (emit emitter "Processing request..." false st)) = (Raise e, st2) ->
  let msg := with_request_id (error_prefix e ++ exc_str e) (request_id (self st)) in
  pipe body emitter st
  = (Ok (Value (error_text msg)), snd (emit emitter msg true st2)).
Proof.
  intros Hprep Hs Hf Hsend. cbv zeta.
  rewrite (pipe_prepared body emitter st hs payload Hprep).
  destruct (emit_fields emitter "Processing request..." false st)
    as (_ & Hself1 & _).
  set (st1 := snd (emit emitter "Processing request..." false st)) in *.
  assert (Hself2 : self st2 = self st).
  { rewrite <- Hself1. pose proof (keeps__send_request MODEL_URL hs payload st1) as H.
    now rewrite Hsend in H. }
  unfold try_except at 1.
  rewrite (pipe_call_not_streamed hs payload body emitter st1 s Hs Hf).
  unfold try_except at 1. unfold bind at 1. rewrite Hsend.
  unfold error_prefix.
  destruct (is_RequestException (exc_cls e)).
  - rewrite pipe_except_fields. now rewrite Hself2.
  - cbv beta iota delta [is_Exception].
    rewrite pipe_except_fields. now rewrite Hself2.
Qed.

Lemma pipe_of_refused_request (body : pydict) (emitter : bool) (st : State)
  (hs : headers) (payload : pydict) (s : pyval) (r : Response) (st2 : State) :
  prepared body st hs payload ->
  dget payload "stream" = Some s ->
  py_truthy s = false ->
  _send_request MODEL_URL hs payload
    (snd (emit emitter "Processing request..." false st)) = (Ok r, st2) ->
  status_is (status_code r) 200 = false ->
  pipe body emitter st
  = (Ok (Value (error_text ("Error: HTTP " ++ format_status (status_code r)
                              ++ ": " ++ text r))), st2).
Proof.
  intros Hprep Hs Hf Hsend Hstatus.
  rewrite (pipe_prepared body emitter st hs payload Hprep).
  set (st1 := snd (emit emitter "Processing request..." false st)) in *.
  unfold try_except at 1.
  rewrite (pipe_call_not_streamed hs payload body emitter st1 s Hs Hf).
  unfold try_except at 1. unfold bind at 1. rewrite Hsend, Hstatus.
  reflexivity.
Qed.

(** A rate-limited reply whose wait cannot be used. *)
Lemma _send_request_unreadable_wait (url : string) (hs : headers)
  (payload : pydict) (st : State) (r : Response) (tail : list (result Response))
  (e : pyexc) :
  http_script (world st) = Ok r :: tail ->
  status_code r = Some 429 ->
  retry_after_of 0 r = Raise e ->
  _send_request url hs payload st
  = (Raise e,
     if is_RequestException (exc_cls e)
     then snd (logging ERROR ("Request failed: " ++ exc_str e)
                 (snd (requests_post url hs payload st)))
     else snd (requests_post url hs payload st)).
Proof.
  intros Hs H429 Hw.
  unfold _send_request. change (Z.to_nat (max_retries - 0)) with 3%nat.
  cbn [_send_request_loop].
  unfold bind at 1, _send_request_body, try_except, bind, requests_post, lift.
  rewrite Hs, H429. cbn [status_is Z.eqb Pos.eqb]. rewrite Hw. cbv beta iota.
  destruct (is_RequestException (exc_cls e)); reflexivity.
Qed.

Lemma _send_request_negative_wait (url : string) (hs : headers)
  (payload : pydict) (st : State) (r : Response) (tail : list (result Response))
  (w : Z) :
  http_script (world st) = Ok r :: tail ->
  status_code r = Some 429 ->
  retry_after_of 0 r = Ok w ->
  w < 0 ->
  _send_request url hs payload st
  = (Raise (mk_exc ValueError "sleep length must be non-negative"),
     snd (logging WARNING
            ("Rate limit hit. Retrying in " ++ string_of_Z w
               ++ " seconds. Retry count: " ++ string_of_Z (0 + 1))
            (snd (requests_post url hs payload st)))).
Proof.
  intros Hs H429 Hw Hneg.
  unfold _send_request. change (Z.to_nat (max_retries - 0)) with 3%nat.
  cbn [_send_request_loop].
  unfold bind at 1, _send_request_body, try_except, bind, requests_post, lift,
    time_sleep.
  rewrite Hs, H429. cbn [status_is Z.eqb Pos.eqb]. rewrite Hw.
  cbn [logging map_world].
  destruct (Z.ltb_spec w 0); [|lia]. reflexivity.
Qed.
End OutcomeFacts.

(** X18. A reply whose status is neither 200 nor 429 is not retried:
    after that one request [pipe] returns the error dictionary with the text
    [Error: HTTP <status>: <body of the reply>].  The request identifier of
    the reply is neither stored nor shown, and a listening host is not told
    that the request is over. *)
Theorem http_error_is_reported_at_once {RT : PyRuntime} (body : pydict)
  (emitter : bool) (st : State) (hs : headers) (payload : pydict) (s : pyval)
  (r : Response) (tail : list (result Response)) :
  prepared body st hs payload ->
  dget payload "stream" = Some s ->
  py_truthy s = false ->
  http_script (world st) = Ok r :: tail ->
  status_code r <> Some 200 ->
  status_code r <> Some 429 ->
  exists st',
    pipe body emitter st
    = (Ok (Value (error_text ("Error: HTTP " ++ format_status (status_code r)
                                ++ ": " ++ text r))), st') /\
    self st' = self st /\
    sent (world st') = (sent (world st) ++ [posted MODEL_URL hs payload])%list /\
    http_script (world st') = tail /\
    slept (world st') = slept (world st) /\
    events (world st')
    = (events (world st)
       ++ heard emitter
            [ {| description := "Processing request..."; done := false |} ])%list.
Proof.
  intros Hprep Hs Hf Hscript H200 H429.
  destruct (emit_fields emitter "Processing request..." false st)
    as (_ & Hself1 & Hhttp1 & _ & Hsent1 & Hslept1 & _ & Hev1).
  eexists. split.
  - eapply pipe_of_refused_request; eauto.
    + apply (_send_request_first_reply MODEL_URL hs payload _ r tail);
        [now rewrite Hhttp1 | exact H429].
    + unfold status_is. destruct (status_code r) as [z|]; [|reflexivity].
      destruct (Z.eqb_spec z 200); [subst; contradiction | reflexivity].
  - cbn [requests_post snd world self sent http_script slept events].
    rewrite Hself1, Hsent1, Hhttp1, Hslept1, Hev1, Hscript.
    repeat split; reflexivity.
Qed.

Lemma http_error_is_reported_at_once_witness :
  let st := Scenario.fresh [Ok Scenario.reply_529; Ok Scenario.reply_200] [] in
  let payload := Scenario.payload_of Scenario.body_plain in
  exists st',
    pipe (RT := Ref.runtime) Scenario.body_plain true st
    = (Ok (Value (error_text
                    ("Error: HTTP " ++ format_status (status_code Scenario.reply_529)
                       ++ ": " ++ text Scenario.reply_529))), st') /\
    self st' = self st /\
    sent (world st')
    = (sent (world st) ++ [posted MODEL_URL Scenario.headers_plain payload])%list /\
    http_script (world st') = [Ok Scenario.reply_200] /\
    slept (world st') = slept (world st) /\
    events (world st')
    = (events (world st)
       ++ heard true
            [ {| description := "Processing request..."; done := false |} ])%list.
Proof.
  cbv zeta.
  eapply (http_error_is_reported_at_once (RT := Ref.runtime) Scenario.body_plain
            true
            (Scenario.fresh [Ok Scenario.reply_529; Ok Scenario.reply_200] [])
            Scenario.headers_plain (Scenario.payload_of Scenario.body_plain)
            (PBool false) Scenario.reply_529 [Ok Scenario.reply_200]).
  - split; [discriminate|].
    eexists _, _, _. repeat split; vm_compute; reflexivity.
  - vm_compute; reflexivity.
  - reflexivity.
  - reflexivity.
  - discriminate.
  - discriminate.
Defined.

(** X19. A request that fails on the way is not repeated: [pipe] returns
    the error dictionary after that one attempt, without waiting.  For a
    failure of the [requests] library the text is [Request failed: ...] and
    the failure is logged; for any other exception it is [Error: ...].  The
    text ends with the request identifier that the instance held before the
    call, if any. *)
Theorem failed_request_is_not_repeated {RT : PyRuntime} (body : pydict)
  (emitter : bool) (st : State) (hs : headers) (payload : pydict) (s : pyval)
  (e : pyexc) (tail : list (result Response)) :
  prepared body st hs payload ->
  dget payload "stream" = Some s ->
  py_truthy s = false ->
  http_script (world st) = Raise e :: tail ->
  exists st',
    pipe body emitter st
    = (Ok (Value (error_text
                    (with_request_id (error_prefix e ++ exc_str e)
                       (request_id (self st))))), st') /\
    self st' = self st /\
    sent (world st') = (sent (world st) ++ [posted MODEL_URL hs payload])%list /\
    http_script (world st') = tail /\
    slept (world st') = slept (world st) /\
    log (world st')
    = (log (world st)
       ++ if is_RequestException (exc_cls e)
          then [(ERROR, ("Request failed: " ++ exc_str e)%string)] else [])%list.
Proof.
  intros Hprep Hs Hf Hscript.
  destruct (emit_fields emitter "Processing request..." false st)
    as (_ & Hself1 & Hhttp1 & _ & Hsent1 & Hslept1 & Hlog1 & _).
  eexists. split.
  - eapply pipe_of_failed_request; eauto.
    apply (_send_request_failure MODEL_URL hs payload _ e tail).
    now rewrite Hhttp1.
  - match goal with
    | |- context [emit emitter ?m true ?x] =>
        destruct (emit_fields emitter m true x)
          as (_ & Hself3 & Hhttp3 & _ & Hsent3 & Hslept3 & Hlog3 & _)
    end.
    rewrite Hself3, Hsent3, Hhttp3, Hslept3, Hlog3.
    destruct (is_RequestException (exc_cls e));
      cbn [logging map_world requests_post snd world self sent http_script
           slept log];
      rewrite Hself1, Hsent1, Hhttp1, Hslept1, Hlog1, Hscript, ?app_nil_r;
      repeat split; reflexivity.
Qed.

Lemma failed_request_is_not_repeated_witness :
  let e := mk_exc RequestException "Read timed out." in
  let st := holding (Some "req_001")
              (Scenario.fresh [Raise e; Ok Scenario.reply_200] []) in
  let payload := Scenario.payload_of Scenario.body_plain in
  exists st',
    pipe (RT := Ref.runtime) Scenario.body_plain false st
    = (Ok (Value (error_text
                    "Request failed: Read timed out. (Request ID: req_001)")), st') /\
    self st' = self st /\
    sent (world st')
    = (sent (world st) ++ [posted MODEL_URL Scenario.headers_plain payload])%list /\
    http_script (world st') = [Ok Scenario.reply_200] /\
    slept (world st') = slept (world st) /\
    log (world st')
    = (log (world st)
       ++ if is_RequestException (exc_cls e)
          then [(ERROR, ("Request failed: " ++ exc_str e)%string)] else [])%list.
Proof.
  cbv zeta.
  eapply (failed_request_is_not_repeated (RT := Ref.runtime) Scenario.body_plain
            false
            (holding (Some "req_001")
               (Scenario.fresh [Raise (mk_exc RequestException "Read timed out.");
                                Ok Scenario.reply_200] []))
            Scenario.headers_plain (Scenario.payload_of Scenario.body_plain)
            (PBool false) (mk_exc RequestException "Read timed out.")
            [Ok Scenario.reply_200]).
  - split; [discriminate|].
    eexists _, _, _. repeat split; vm_compute; reflexivity.
  - vm_compute; reflexivity.
  - reflexivity.
  - reflexivity.
Defined.

(** X20. Three rate-limited replies in a row end the call: [pipe] has
    sent the same request three times, has waited after each reply, asks for
    nothing more, and returns the error dictionary with the text
    [Error: HTTP None: ], the status and the body of the empty response that
    [_send_request] hands back. *)
Theorem three_rate_limits_end_the_call {RT : PyRuntime} (body : pydict)
  (emitter : bool) (st : State) (hs : headers) (payload : pydict) (s : pyval)
  (rs : list Response) (ws : list Z) (tail : list (result Response)) :
  prepared body st hs payload ->
  dget payload "stream" = Some s ->
  py_truthy s = false ->
  rate_limited 0 rs ws ->
  List.length rs = 3%nat ->
  http_script (world st) = (map Ok rs ++ tail)%list ->
  exists st',
    pipe body emitter st
    = (Ok (Value (error_text "Error: HTTP None: ")), st') /\
    self st' = self st /\
    sent (world st')
    = (sent (world st) ++ repeat (posted MODEL_URL hs payload) 3)%list /\
    http_script (world st') = tail /\
    slept (world st') = (slept (world st) ++ ws)%list.
Proof.
  intros Hprep Hs Hf Hrl Hlen Hscript.
  destruct (emit_fields emitter "Processing request..." false st)
    as (_ & Hself1 & Hhttp1 & _ & Hsent1 & Hslept1 & _ & _).
  set (st1 := snd (emit emitter "Processing request..." false st)) in *.
  destruct (_send_request_loop_429s MODEL_URL hs payload rs ws 3 0 st1 tail Hrl
              ltac:(now rewrite Hhttp1) ltac:(lia))
    as (st2 & Hloop & Hself2 & Hhttp2 & _ & Hsent2 & Hslept2).
  rewrite Hlen in Hsent2.
  eexists. split.
  - eapply (pipe_of_refused_request body emitter st hs payload s empty_Response);
      eauto.
    fold st1. unfold _send_request. change (Z.to_nat (max_retries - 0)) with 3%nat.
    rewrite Hloop, Hlen. cbn [Nat.sub _send_request_loop]. reflexivity.
  - cbn [logging map_world snd world self sent http_script slept].
    rewrite Hself2, Hself1, Hsent2, Hsent1, Hhttp2, Hslept2, Hslept1.
    repeat split; reflexivity.
Qed.

Lemma three_rate_limits_end_the_call_witness :
  let rs := [Scenario.reply_429; Scenario.reply_429; Scenario.reply_429] in
  let st := Scenario.fresh (map Ok rs ++ [Ok Scenario.reply_200]) [] in
  let payload := Scenario.payload_of Scenario.body_plain in
  rate_limited (RT := Ref.runtime) 0 rs [1; 2; 4] /\
  exists st',
    pipe (RT := Ref.runtime) Scenario.body_plain false st
    = (Ok (Value (error_text "Error: HTTP None: ")), st') /\
    self st' = self st /\
    sent (world st')
    = (sent (world st)
       ++ repeat (posted MODEL_URL Scenario.headers_plain payload) 3)%list /\
    http_script (world st') = [Ok Scenario.reply_200] /\
    slept (world st') = (slept (world st) ++ [1; 2; 4])%list.
Proof.
  cbv zeta.
  assert (H : rate_limited (RT := Ref.runtime) 0
                [Scenario.reply_429; Scenario.reply_429; Scenario.reply_429]
                [1; 2; 4]).
  { cbn. repeat split; try reflexivity; lia. }
  split; [exact H|].
  eapply (three_rate_limits_end_the_call (RT := Ref.runtime) Scenario.body_plain
            false
            (Scenario.fresh
               (map Ok [Scenario.reply_429; Scenario.reply_429; Scenario.reply_429]
                  ++ [Ok Scenario.reply_200]) [])
            Scenario.headers_plain (Scenario.payload_of Scenario.body_plain)
            (PBool false)
            [Scenario.reply_429; Scenario.reply_429; Scenario.reply_429]
            [1; 2; 4] [Ok Scenario.reply_200]).
  - split; [discriminate|].
    eexists _, _, _. repeat split; vm_compute; reflexivity.
  - vm_compute; reflexivity.
  - reflexivity.
  - exact H.
  - reflexivity.
  - reflexivity.
Defined.

(** X21. A rate-limited reply whose [retry-after] cannot be used ends the
    call at once, without a wait and without a second request: when [int]
    refuses the value, as it does for a date, [pipe] returns that error as a
    text; when the value is a negative number, the error is the one of
    [time.sleep]. *)
Theorem unusable_retry_after_ends_the_call {RT : PyRuntime} (body : pydict)
  (emitter : bool) (st : State) (hs : headers) (payload : pydict) (s : pyval)
  (r : Response) (tail : list (result Response)) :
  prepared body st hs payload ->
  dget payload "stream" = Some s ->
  py_truthy s = false ->
  http_script (world st) = Ok r :: tail ->
  status_code r = Some 429 ->
  (forall e, retry_after_of 0 r = Raise e ->
     exists st',
       pipe body emitter st
       = (Ok (Value (error_text
                       (with_request_id (error_prefix e ++ exc_str e)
                          (request_id (self st))))), st') /\
       sent (world st') = (sent (world st) ++ [posted MODEL_URL hs payload])%list /\
       http_script (world st') = tail /\
       slept (world st') = slept (world st)) /\
  (forall w, retry_after_of 0 r = Ok w -> w < 0 ->
     exists st',
       pipe body emitter st
       = (Ok (Value (error_text
                       (with_request_id "Error: sleep length must be non-negative"
                          (request_id (self st))))), st') /\
       sent (world st') = (sent (world st) ++ [posted MODEL_URL hs payload])%list /\
       http_script (world st') = tail /\
       slept (world st') = slept (world st)).
Proof.
  intros Hprep Hs Hf Hscript H429.
  destruct (emit_fields emitter "Processing request..." false st)
    as (_ & Hself1 & Hhttp1 & _ & Hsent1 & Hslept1 & _ & _).
  split.
  - intros e Hw. eexists. split.
    + eapply pipe_of_failed_request; eauto.
      apply (_send_request_unreadable_wait MODEL_URL hs payload _ r tail e);
        [now rewrite Hhttp1 | exact H429 | exact Hw].
    + match goal with
      | |- context [emit emitter ?m true ?x] =>
          destruct (emit_fields emitter m true x)
            as (_ & _ & Hhttp3 & _ & Hsent3 & Hslept3 & _ & _)
      end.
      rewrite Hsent3, Hhttp3, Hslept3.
      destruct (is_RequestException (exc_cls e));
        cbn [logging map_world requests_post snd world sent http_script slept];
        rewrite Hsent1, Hhttp1, Hslept1, Hscript; repeat split; reflexivity.
  - intros w Hw Hneg. eexists. split.
    + eapply (pipe_of_failed_request body emitter st hs payload s
                (mk_exc ValueError "sleep length must be non-negative"));
        [exact Hprep | exact Hs | exact Hf |].
      apply (_send_request_negative_wait MODEL_URL hs payload _ r tail w);
        [now rewrite Hhttp1 | exact H429 | exact Hw | exact Hneg].
    + match goal with
      | |- context [emit emitter ?m true ?x] =>
          destruct (emit_fields emitter m true x)
            as (_ & _ & Hhttp3 & _ & Hsent3 & Hslept3 & _ & _)
      end.
      rewrite Hsent3, Hhttp3, Hslept3.
      cbn [logging map_world requests_post snd world sent http_script slept].
      rewrite Hsent1, Hhttp1, Hslept1, Hscript. repeat split; reflexivity.
Qed.

Lemma unusable_retry_after_ends_the_call_witness :
  let st := Scenario.fresh [Ok Scenario.reply_429_date; Ok Scenario.reply_200] [] in
  let payload := Scenario.payload_of Scenario.body_plain in
  let e := mk_exc ValueError
             "invalid literal for int() with base 10: 'Wed, 21 Oct 2015 07:28:00 GMT'" in
  retry_after_of (RT := Ref.runtime) 0 Scenario.reply_429_date = Raise e /\
  exists st',
    pipe (RT := Ref.runtime) Scenario.body_plain false st
    = (Ok (Value (error_text
                    (with_request_id (error_prefix e ++ exc_str e)
                       (request_id (self st))))), st') /\
    sent (world st')
    = (sent (world st) ++ [posted MODEL_URL Scenario.headers_plain payload])%list /\
    http_script (world st') = [Ok Scenario.reply_200] /\
    slept (world st') = slept (world st).
Proof.
  cbv zeta.
  assert (H : retry_after_of (RT := Ref.runtime) 0 Scenario.reply_429_date
              = Raise (mk_exc ValueError
                  "invalid literal for int() with base 10: 'Wed, 21 Oct 2015 07:28:00 GMT'"))
    by (vm_compute; reflexivity).
  split; [exact H|].
  refine (proj1 (unusable_retry_after_ends_the_call (RT := Ref.runtime)
            Scenario.body_plain false
            (Scenario.fresh [Ok Scenario.reply_429_date; Ok Scenario.reply_200] [])
            Scenario.headers_plain (Scenario.payload_of Scenario.body_plain)
            (PBool false) Scenario.reply_429_date [Ok Scenario.reply_200]
            _ _ _ _ _) _ H).
  - split; [discriminate|].
    eexists _, _, _. repeat split; vm_compute; reflexivity.
  - vm_compute; reflexivity.
  - reflexivity.
  - reflexivity.
  - reflexivity.
Defined.

(** ** Streams *)

Section StreamNet.
Context {RT : PyRuntime}.

(** The decoder of a line writes to the log and to the events only. *)
Lemma _stream_with_ui_line_net (line : string) (emitter : bool) (st : State) :
  net_equal st (snd (_stream_with_ui_line line emitter st)).
Proof.
  unfold _stream_with_ui_line.
  destruct (negb (String.eqb line "") && startswith line "data: ");
    [|apply net_equal_refl].
  unfold try_except, bind, lift, logging, map_world, ret, emit.
  destruct (json_loads (drop 6 line)) as [data|e];
    [|destruct (is_JSONDecodeError (exc_cls e)); repeat split].
  destruct (getitem_str data "type") as [t|e];
    [|destruct (is_JSONDecodeError (exc_cls e)); repeat split].
  destruct (and_then _ _) as [[|]|e];
    [| |destruct (is_JSONDecodeError (exc_cls e)); repeat split].
  - destruct (getitem_str data "delta") as [dl|e];
      [|destruct (is_JSONDecodeError (exc_cls e)); repeat split].
    destruct (getitem_str dl "text") as [x|e];
      [repeat split|destruct (is_JSONDecodeError (exc_cls e)); repeat split].
  - destruct (py_eq_str t "message_stop"); [|repeat split].
    destruct emitter; repeat split.
Qed.

Lemma _stream_with_ui_lines_net (chunks : list chunk) (emitter : bool)
  (st : State) :
  net_equal st (snd (_stream_with_ui_lines chunks emitter st)).
Proof.
  revert st. induction chunks as [|[line|e] chunks IH]; intros st;
    [apply net_equal_refl| |apply net_equal_refl].
  cbn [_stream_with_ui_lines].
  pose proof (_stream_with_ui_line_net line emitter st) as H.
  destruct (_stream_with_ui_line line emitter st) as [r s]. cbn [snd] in H.
  destruct r as [[fragment| |]|e]; try exact H.
  - specialize (IH s).
    destruct (_stream_with_ui_lines chunks emitter s) as [[ys q] t].
    cbn [snd] in *. eapply net_equal_trans; eauto.
  - eapply net_equal_trans; [exact H | apply IH].
Qed.

(** A line that the decoder has no use for changes nothing, and a
    closing line ends the loop. *)
Lemma _stream_with_ui_line_silent (line : string) (emitter : bool) (st : State) :
  silent line ->
  _stream_with_ui_line line emitter st = (Ok Next, st).
Proof.
  intros [Hp | (d & t & Hj & Ht & Hstop & Hdelta)]; unfold _stream_with_ui_line.
  - rewrite Hp, andb_false_r. reflexivity.
  - destruct (negb (String.eqb line "") && startswith line "data: ");
      [|reflexivity].
    unfold try_except, bind, lift, ret. rewrite Hj.
    cbn [getitem_str]. unfold dgetitem. rewrite Ht.
    cbn [py_eq_str].
    destruct (String.eqb t "content_block_delta") eqn:E.
    + apply String.eqb_eq in E. destruct (Hdelta E) as (dl & Hdl & Htext).
      cbn [and_then rbind]. rewrite Hdl. cbn [rbind py_contains_str].
      unfold dmem. rewrite Htext.
      destruct (String.eqb t "message_stop") eqn:E';
        [apply String.eqb_eq in E'; contradiction | reflexivity].
    + cbn [and_then].
      destruct (String.eqb t "message_stop") eqn:E';
        [apply String.eqb_eq in E'; contradiction | reflexivity].
Qed.

Lemma _stream_with_ui_line_closing (line : string) (emitter : bool) (st : State) :
  closing line ->
  _stream_with_ui_line line emitter st
  = (Ok Break, snd (emit emitter "Request completed" true st)).
Proof.
  intros (Hp & d & Hj & Ht). unfold _stream_with_ui_line.
  destruct line as [|a line]; [discriminate|].
  rewrite Hp. cbn [String.eqb negb andb].
  unfold try_except, bind, lift. rewrite Hj.
  cbn [getitem_str]. unfold dgetitem. rewrite Ht.
  cbn [py_eq_str String.eqb Ascii.eqb Bool.eqb and_then].
  destruct emitter; reflexivity.
Qed.
End StreamNet.

(** X22. For a request that asks for a stream [pipe] sends nothing
    itself: it hands back the generator for the URL of the provider, the
    headers and the payload built for the body, and leaves the network and
    the instance as they were. *)
Theorem stream_is_left_to_the_host {RT : PyRuntime} (body : pydict)
  (emitter : bool) (st : State) (hs : headers) (payload : pydict) (s : pyval) :
  prepared body st hs payload ->
  dget payload "stream" = Some s ->
  py_truthy s = true ->
  exists st',
    pipe body emitter st
    = (Ok (Generator {| sc_url := MODEL_URL; sc_headers := hs;
                        sc_payload := payload; sc_body := body;
                        sc_emitter := emitter |}), st') /\
    net_equal st st' /\
    events (world st')
    = (events (world st)
       ++ heard emitter
            [ {| description := "Processing request..."; done := false |} ])%list.
Proof.
  intros Hprep Hs Ht.
  rewrite (pipe_prepared body emitter st hs payload Hprep).
  destruct (emit_fields emitter "Processing request..." false st)
    as (_ & Hself1 & Hhttp1 & Haio1 & Hsent1 & Hslept1 & _ & Hev1).
  set (st1 := snd (emit emitter "Processing request..." false st)) in *.
  exists st1. split.
  - unfold try_except at 1, pipe_call, try_except.
    unfold bind at 1, lift at 1, dgetitem. rewrite Hs, Ht. reflexivity.
  - split; [|exact Hev1]. repeat split; congruence.
Qed.

Lemma stream_is_left_to_the_host_witness :
  let st := Scenario.fresh [] [Ok (Scenario.stream_AB [])] in
  let payload := Scenario.payload_of Scenario.body_stream in
  exists st',
    pipe (RT := Ref.runtime) Scenario.body_stream false st
    = (Ok (Generator {| sc_url := MODEL_URL; sc_headers := Scenario.headers_plain;
                        sc_payload := payload; sc_body := Scenario.body_stream;
                        sc_emitter := false |}), st') /\
    net_equal st st' /\
    events (world st')
    = (events (world st)
       ++ heard false
            [ {| description := "Processing request..."; done := false |} ])%list.
Proof.
  cbv zeta.
  eapply (stream_is_left_to_the_host (RT := Ref.runtime) Scenario.body_stream
            false (Scenario.fresh [] [Ok (Scenario.stream_AB [])])
            Scenario.headers_plain (Scenario.payload_of Scenario.body_stream)
            (PBool true)).
  - split; [discriminate|].
    eexists _, _, _. repeat split; vm_compute; reflexivity.
  - vm_compute; reflexivity.
  - reflexivity.
Defined.

(** X23. A stream issues exactly one request, through [aiohttp], with the
    URL, the headers and the payload it was given, whatever the answer: it
    is never repeated, not even after a rate limit, it never waits, and it
    does not touch the key of the instance. *)
Theorem stream_sends_one_request {RT : PyRuntime} (url : string) (hs : headers)
  (payload body : pydict) (emitter : bool) (st : State) :
  let st' := snd (_stream_with_ui url hs payload body emitter st) in
  sent (world st') = (sent (world st) ++ [streamed url hs payload])%list /\
  aio_script (world st') = tl (aio_script (world st)) /\
  http_script (world st') = http_script (world st) /\
  slept (world st') = slept (world st) /\
  ANTHROPIC_API_KEY (self st') = ANTHROPIC_API_KEY (self st).
Proof.
  cbv zeta. unfold _stream_with_ui.
  set (st1 := snd (session_post url hs payload st)).
  assert (H1 : sent (world st1) = (sent (world st) ++ [streamed url hs payload])%list
               /\ aio_script (world st1) = tl (aio_script (world st))
               /\ http_script (world st1) = http_script (world st)
               /\ slept (world st1) = slept (world st)
               /\ ANTHROPIC_API_KEY (self st1) = ANTHROPIC_API_KEY (self st))
    by (repeat split).
  assert (Hnet : forall a b, net_equal a b ->
            sent (world a) = (sent (world st) ++ [streamed url hs payload])%list
            /\ aio_script (world a) = tl (aio_script (world st))
            /\ http_script (world a) = http_script (world st)
            /\ slept (world a) = slept (world st)
            /\ ANTHROPIC_API_KEY (self a) = ANTHROPIC_API_KEY (self st) ->
            sent (world b) = (sent (world st) ++ [streamed url hs payload])%list
            /\ aio_script (world b) = tl (aio_script (world st))
            /\ http_script (world b) = http_script (world st)
            /\ slept (world b) = slept (world st)
            /\ ANTHROPIC_API_KEY (self b) = ANTHROPIC_API_KEY (self st)).
  { intros a b (Ha & Hb & Hc & Hd & He) (G1 & G2 & G3 & G4 & G5).
    rewrite <- Ha, <- Hb, <- Hc, <- Hd, <- He. repeat split; assumption. }
  assert (Hemit : forall d b s, net_equal s (snd (emit emitter d b s))).
  { intros d b s. destruct (emit_effect emitter d b s) as (s' & -> & Hq).
    exact Hq. }
  assert (Hpost : session_post url hs payload st
                  = (fst (session_post url hs payload st), st1)) by reflexivity.
  rewrite Hpost.
  destruct (fst (session_post url hs payload st)) as [response|e].
  - set (st2 := snd (set_request_id _ st1)).
    assert (H2 : sent (world st2) = (sent (world st) ++ [streamed url hs payload])%list
                 /\ aio_script (world st2) = tl (aio_script (world st))
                 /\ http_script (world st2) = http_script (world st)
                 /\ slept (world st2) = slept (world st)
                 /\ ANTHROPIC_API_KEY (self st2) = ANTHROPIC_API_KEY (self st))
      by (repeat split).
    destruct (negb (status response =? 200)).
    + cbn [snd]. eapply Hnet; [apply Hemit | exact H2].
    + pose proof (_stream_with_ui_lines_net (content response) emitter st2) as Hl.
      destruct (_stream_with_ui_lines (content response) emitter st2)
        as [[ys [u|e]] st3]; cbn [snd] in *.
      * eapply Hnet; [exact Hl | exact H2].
      * unfold _stream_with_ui_except. cbn [snd].
        eapply Hnet; [apply Hemit|]. eapply Hnet; [exact Hl | exact H2].
  - unfold _stream_with_ui_except. cbn [snd].
    eapply Hnet; [apply Hemit | exact H1].
Qed.

(** X24. A stream whose reply has another status than 200 yields exactly
    one fragment, [Error: HTTP <status>: <body of the reply>] followed by
    the request identifier of that reply when it has one; no line of the
    body is read, the identifier is stored on the instance, and a listening
    host gets the same text as a final event. *)
Theorem refused_stream_is_one_fragment {RT : PyRuntime} (url : string)
  (hs : headers) (payload body : pydict) (emitter : bool) (st : State)
  (response : ClientResponse) (rest : list (result ClientResponse)) :
  aio_script (world st) = Ok response :: rest ->
  status response <> 200 ->
  let rid := header_get (cr_headers response) "x-request-id" in
  let msg := with_request_id
               ("Error: HTTP " ++ string_of_Z (status response) ++ ": "
                  ++ cr_text response) rid in
  let '(fragments, st') := _stream_with_ui url hs payload body emitter st in
  fragments = [PStr msg] /\
  request_id (self st') = rid /\
  events (world st')
  = (events (world st) ++ heard emitter [ {| description := msg; done := true |} ])%list /\
  log (world st') = log (world st).
Proof.
  intros Hs Hstatus. cbv zeta.
  unfold _stream_with_ui, session_post. rewrite Hs.
  destruct (Z.eqb_spec (status response) 200); [contradiction|].
  cbn [negb].
  match goal with
  | |- context [emit emitter ?m true ?x] =>
      destruct (emit_fields emitter m true x)
        as (_ & Hself & _ & _ & _ & _ & Hlog & Hev)
  end.
  split; [reflexivity|]. rewrite Hself, Hev, Hlog. repeat split.
Qed.

Lemma refused_stream_is_one_fragment_witness :
  let st := Scenario.fresh [] [Ok Scenario.stream_refused] in
  let msg := dq "Error: HTTP 429: {'error':{'message':'invalid_api_key'}} (Request ID: req_429)" in
  let '(fragments, st') :=
    _stream_with_ui (RT := Ref.runtime) MODEL_URL [] [] [] true st in
  fragments = [PStr msg] /\
  request_id (self st') = Some "req_429" /\
  events (world st')
  = (events (world st) ++ heard true [ {| description := msg; done := true |} ])%list /\
  log (world st') = log (world st).
Proof.
  cbv zeta.
  apply (refused_stream_is_one_fragment (RT := Ref.runtime) MODEL_URL [] [] []
           true (Scenario.fresh [] [Ok Scenario.stream_refused])
           Scenario.stream_refused []).
  - reflexivity.
  - discriminate.
Defined.

(** X25. A stream that cannot be opened yields exactly one fragment,
    [Stream error: ...] with the text of the exception.  The instance is not
    changed, so that the identifier appended to the text, if any, is the one
    left by an earlier call. *)
Theorem unopened_stream_is_one_fragment {RT : PyRuntime} (url : string)
  (hs : headers) (payload body : pydict) (emitter : bool) (st : State)
  (e : pyexc) (rest : list (result ClientResponse)) :
  aio_script (world st) = Raise e :: rest ->
  let msg := with_request_id ("Stream error: " ++ exc_str e) (request_id (self st)) in
  let '(fragments, st') := _stream_with_ui url hs payload body emitter st in
  fragments = [PStr msg] /\
  self st' = self st /\
  events (world st')
  = (events (world st) ++ heard emitter [ {| description := msg; done := true |} ])%list.
Proof.
  intros Hs. cbv zeta.
  unfold _stream_with_ui, session_post. rewrite Hs.
  unfold _stream_with_ui_except. cbn [self snd].
  match goal with
  | |- context [emit emitter ?m true ?x] =>
      destruct (emit_fields emitter m true x)
        as (_ & Hself & _ & _ & _ & _ & _ & Hev)
  end.
  split; [reflexivity|]. rewrite Hself, Hev. repeat split.
Qed.

Lemma unopened_stream_is_one_fragment_witness :
  let e := mk_exc ClientError "Cannot connect to host api.anthropic.com:443" in
  let st := holding (Some "req_001") (Scenario.fresh [] [Raise e]) in
  let msg := "Stream error: Cannot connect to host api.anthropic.com:443 (Request ID: req_001)" in
  let '(fragments, st') :=
    _stream_with_ui (RT := Ref.runtime) MODEL_URL [] [] [] true st in
  fragments = [PStr msg] /\
  self st' = self st /\
  events (world st')
  = (events (world st) ++ heard true [ {| description := msg; done := true |} ])%list.
Proof.
  cbv zeta.
  apply (unopened_stream_is_one_fragment (RT := Ref.runtime) MODEL_URL [] [] []
           true
           (holding (Some "req_001")
              (Scenario.fresh []
                 [Raise (mk_exc ClientError "Cannot connect to host api.anthropic.com:443")]))
           (mk_exc ClientError "Cannot connect to host api.anthropic.com:443") []).
  reflexivity.
Defined.

(** X26. Lines that the decoder has no use for are passed over without a
    trace: a line that does not start with [data: ] (the name of an event, an
    empty line), and a line whose event is neither the closing one nor a
    delta with a [text] (a keep-alive, the start of a message, a delta of
    tool input).  The loop over the lines, and the whole stream, go as they
    do without that line. *)
Theorem other_lines_are_ignored {RT : PyRuntime} (line : string)
  (emitter : bool) :
  silent line ->
  (forall pre post st,
     _stream_with_ui_lines (pre ++ Line line :: post) emitter st
     = _stream_with_ui_lines (pre ++ post) emitter st) /\
  (forall url hs payload body st response pre post,
     _stream_with_ui url hs payload body emitter
       (with_stream st (with_content response (pre ++ Line line :: post)))
     = _stream_with_ui url hs payload body emitter
         (with_stream st (with_content response (pre ++ post)))).
Proof.
  intros Hsilent.
  assert (Hlines : forall pre post st,
            _stream_with_ui_lines (pre ++ Line line :: post) emitter st
            = _stream_with_ui_lines (pre ++ post) emitter st).
  { intros pre post. induction pre as [|[l|x] pre IH]; intros st;
      [| |reflexivity].
    - cbn [app _stream_with_ui_lines].
      now rewrite (_stream_with_ui_line_silent line emitter st Hsilent).
    - cbn [app _stream_with_ui_lines].
      destruct (_stream_with_ui_line l emitter st) as [[[fragment| |]|x] s];
        try reflexivity; now rewrite IH. }
  split; [exact Hlines|].
  intros url hs payload body st response pre post.
  unfold _stream_with_ui, session_post, with_stream, with_content.
  cbn [world aio_script self http_script sent slept log events tl
       status cr_headers cr_text content snd set_request_id].
  destruct (negb (status response =? 200)); [reflexivity|].
  now rewrite Hlines.
Qed.

Lemma other_lines_are_ignored_witness :
  silent (RT := Ref.runtime) Scenario.line_event_name /\
  silent (RT := Ref.runtime) Scenario.line_ping /\
  silent (RT := Ref.runtime) Scenario.line_tool_delta /\
  fst (_stream_with_ui (RT := Ref.runtime) MODEL_URL [] [] [] false
         (with_stream (Scenario.fresh [] [])
            (with_content (Scenario.stream_with [])
               ([Line line_A] ++ Line Scenario.line_tool_delta
                  :: [Line line_B; Line line_stop]))))
  = [PStr "A"; PStr "B"].
Proof.
  assert (H : silent (RT := Ref.runtime) Scenario.line_tool_delta).
  { right. eexists _, _. split; [vm_compute; reflexivity|].
    split; [reflexivity|]. split; [discriminate|].
    intros _. eexists. split; reflexivity. }
  split; [left; reflexivity|].
  split.
  { right. eexists _, _. split; [vm_compute; reflexivity|].
    split; [reflexivity|]. split; [discriminate|]. discriminate. }
  split; [exact H|].
  rewrite (proj2 (other_lines_are_ignored (RT := Ref.runtime)
                    Scenario.line_tool_delta false H)
             MODEL_URL [] [] [] (Scenario.fresh [] []) (Scenario.stream_with [])
             [Line line_A] [Line line_B; Line line_stop]).
  vm_compute. reflexivity.
Defined.

(** X27. The closing event ends the stream: whatever arrives after the
    line that carries it, further deltas or a failure of the connection, is
    never read. *)
Theorem nothing_is_read_after_the_closing_event {RT : PyRuntime}
  (line : string) (emitter : bool) :
  closing line ->
  (forall post st,
     _stream_with_ui_lines (Line line :: post) emitter st
     = ([], Ok tt, snd (emit emitter "Request completed" true st))) /\
  (forall pre post st,
     _stream_with_ui_lines (pre ++ Line line :: post) emitter st
     = _stream_with_ui_lines (pre ++ [Line line]) emitter st).
Proof.
  intros Hclosing.
  assert (Hone : forall post st,
            _stream_with_ui_lines (Line line :: post) emitter st
            = ([], Ok tt, snd (emit emitter "Request completed" true st))).
  { intros post st. cbn [_stream_with_ui_lines].
    now rewrite (_stream_with_ui_line_closing line emitter st Hclosing). }
  split; [exact Hone|].
  intros pre post. induction pre as [|[l|x] pre IH]; intros st; [| |reflexivity].
  - cbn [app]. now rewrite !Hone.
  - cbn [app _stream_with_ui_lines].
    destruct (_stream_with_ui_line l emitter st) as [[[fragment| |]|x] s];
      try reflexivity; now rewrite IH.
Qed.

Lemma nothing_is_read_after_the_closing_event_witness :
  closing (RT := Ref.runtime) line_stop /\
  forall st,
    _stream_with_ui_lines (RT := Ref.runtime)
      ([Line line_A] ++ Line line_stop
         :: [ReadError (mk_exc ClientError "Connection reset"); Line line_B])
      true st
    = _stream_with_ui_lines (RT := Ref.runtime)
        ([Line line_A] ++ [Line line_stop]) true st.
Proof.
  assert (H : closing (RT := Ref.runtime) line_stop).
  { split; [reflexivity|]. eexists. split; [vm_compute; reflexivity | reflexivity]. }
  split; [exact H|].
  intros st.
  apply (proj2 (nothing_is_read_after_the_closing_event (RT := Ref.runtime)
                  line_stop true H)).
Defined.

(** X28. An event that is a JSON object without a [type] ends the stream:
    the [KeyError] is not a parse failure, so the line is not passed over;
    the stream yields [Stream error: 'type'], with the request identifier of
    the reply when it has one, and the lines that follow are lost. *)
Theorem event_without_type_ends_the_stream {RT : PyRuntime} (url : string)
  (hs : headers) (payload body : pydict) (emitter : bool) (st : State)
  (response : ClientResponse) (rest : list (result ClientResponse))
  (line : string) (d : pydict) (post : list chunk) :
  aio_script (world st) = Ok response :: rest ->
  status response = 200 ->
  content response = Line line :: post ->
  startswith line "data: " = true ->
  json_loads (drop 6 line) = Ok (PDict d) ->
  dget d "type" = None ->
  fst (_stream_with_ui url hs payload body emitter st)
  = [PStr (with_request_id "Stream error: 'type'"
             (header_get (cr_headers response) "x-request-id"))].
Proof.
  intros Hs H200 Hc Hp Hj Ht.
  destruct (_stream_with_ui_fragments url hs payload body emitter st response rest
              Hs H200) as (st2 & _ & ->).
  rewrite Hc. cbn [_stream_with_ui_lines].
  assert (Hline : _stream_with_ui_line line emitter st2
                  = (Raise (mk_exc KeyError (repr_key "type")), st2)).
  { unfold _stream_with_ui_line.
    destruct line as [|a line]; [discriminate|].
    rewrite Hp. cbn [String.eqb negb andb].
    unfold try_except, bind at 1, lift at 1. rewrite Hj.
    unfold bind at 1, lift at 1. cbn [getitem_str]. unfold dgetitem.
    rewrite Ht. reflexivity. }
  rewrite Hline. reflexivity.
Qed.

Lemma event_without_type_ends_the_stream_witness :
  fst (_stream_with_ui (RT := Ref.runtime) MODEL_URL [] [] [] false
         (Scenario.fresh []
            [Ok (Scenario.stream_with [Scenario.line_untyped; line_B; line_stop])]))
  = [PStr "Stream error: 'type' (Request ID: req_011C)"].
Proof.
  eapply (event_without_type_ends_the_stream (RT := Ref.runtime) MODEL_URL [] [] []
            false
            (Scenario.fresh []
               [Ok (Scenario.stream_with [Scenario.line_untyped; line_B; line_stop])])
            (Scenario.stream_with [Scenario.line_untyped; line_B; line_stop]) []
            Scenario.line_untyped).
  - reflexivity.
  - reflexivity.
  - reflexivity.
  - reflexivity.
  - vm_compute; reflexivity.
  - reflexivity.
Defined.

(** ** Response decoder: replies that report an error *)

(** X29. On a reply whose status is not 200 [_handle_response] never
    fails: it returns the error dictionary with [None] beside it and stores
    the request identifier of the reply on the instance.  The text is
    [Error: HTTP <status>: <detail>], followed by the identifier when there
    is one; the detail is the [message] of the [error] object of a JSON body
    and in every other case the body as text: when the body is not JSON, is
    not an object, has no [error], has an [error] that is not an object, or
    an [error] without a [message]. *)
Theorem error_reply_is_always_decoded {RT : PyRuntime} (r : Response)
  (st : State) :
  status_code r <> Some 200 ->
  let rid := header_get (resp_headers r) "x-request-id" in
  exists detail,
    _handle_response r st
    = (Ok (error_text
             (with_request_id
                ("Error: HTTP " ++ format_status (status_code r) ++ ": " ++ detail)
                rid),
           PNone),
       holding rid st) /\
    (forall j ed m,
       json r = Ok (PDict j) -> dget j "error" = Some (PDict ed) ->
       dget ed "message" = Some (PStr m) -> detail = m) /\
    (forall j ed,
       json r = Ok (PDict j) -> dget j "error" = Some (PDict ed) ->
       dget ed "message" = None -> detail = text r) /\
    (forall j, json r = Ok (PDict j) -> dget j "error" = None -> detail = text r) /\
    (forall j v, json r = Ok (PDict j) -> dget j "error" = Some v ->
                 (forall ed, v <> PDict ed) -> detail = text r) /\
    (forall v, json r = Ok v -> (forall j, v <> PDict j) -> detail = text r) /\
    (forall e, json r = Raise e -> detail = text r).
Proof.
  intros Hstatus. cbv zeta.
  assert (Hnot : negb (status_is (status_code r) 200) = true).
  { unfold status_is. destruct (status_code r) as [z|]; [|reflexivity].
    destruct (Z.eqb_spec z 200); [subst; contradiction | reflexivity]. }
  unfold _handle_response. rewrite Hnot. cbv zeta.
  set (detail := (j <- json r ;;
                  error_data <- py_get_default j "error" (PDict []) ;;
                  m <- py_get_default error_data "message" (PStr (text r)) ;;
                  Ok (py_format m))%result).
  exists (match detail with Ok d => d | Raise _ => text r end).
  split.
  { unfold bind, set_request_id, ret, holding. cbn [snd].
    destruct detail; reflexivity. }
  unfold detail.
  repeat split.
  - intros j ed m Hj He Hm. rewrite Hj. cbn [rbind py_get_default].
    unfold dget_default. rewrite He. cbn [rbind py_get_default].
    unfold dget_default. rewrite Hm. reflexivity.
  - intros j ed Hj He Hm. rewrite Hj. cbn [rbind py_get_default].
    unfold dget_default. rewrite He. cbn [rbind py_get_default].
    unfold dget_default. rewrite Hm. reflexivity.
  - intros j Hj He. rewrite Hj. cbn [rbind py_get_default].
    unfold dget_default. rewrite He. reflexivity.
  - intros j v Hj He Hv. rewrite Hj. cbn [rbind py_get_default].
    unfold dget_default. rewrite He.
    destruct v; try reflexivity. exfalso. eapply Hv; reflexivity.
  - intros v Hj Hv. rewrite Hj.
    destruct v; try reflexivity. exfalso. eapply Hv; reflexivity.
  - intros e Hj. rewrite Hj. reflexivity.
Qed.

Lemma error_reply_is_always_decoded_witness :
  let st := Scenario.fresh [] [] in
  _handle_response (RT := Ref.runtime) Scenario.reply_401 st
  = (Ok (error_text "Error: HTTP 401: invalid x-api-key (Request ID: req_401)",
         PNone),
     holding (Some "req_401") st) /\
  exists detail,
    _handle_response (RT := Ref.runtime) Scenario.reply_502 st
    = (Ok (error_text
             (with_request_id
                ("Error: HTTP " ++ format_status (status_code Scenario.reply_502)
                   ++ ": " ++ detail)
                (header_get (resp_headers Scenario.reply_502) "x-request-id")),
           PNone),
       holding (header_get (resp_headers Scenario.reply_502) "x-request-id") st) /\
    detail = "<html>Bad Gateway</html>".
Proof.
  cbv zeta. split; [vm_compute; reflexivity|].
  destruct (error_reply_is_always_decoded (RT := Ref.runtime) Scenario.reply_502
              (Scenario.fresh [] []) ltac:(discriminate))
    as (detail & Hrun & _ & _ & _ & _ & _ & Hraise).
  exists detail. split; [exact Hrun|].
  eapply Hraise. vm_compute. reflexivity.
Defined.

(** ** Entry point: no exception leaves it *)

(** X30. [pipe] always answers: whatever the body and the state of the
    network, it returns a value or a generator, and no exception of the
    class [Exception] leaves it (the emitter of the host taken not to fail).
    Without an API key the answer is the error dictionary
    [Error: ANTHROPIC_API_KEY is required], given before the body is looked
    at and without anything being sent; a listening host gets the same text
    as a final event. *)
Theorem pipe_always_answers {RT : PyRuntime} (body : pydict) (emitter : bool)
  (st : State) :
  exists r st',
    pipe body emitter st = (Ok r, st') /\
    (ANTHROPIC_API_KEY (self st) = "" ->
     r = Value (error_text "Error: ANTHROPIC_API_KEY is required") /\
     net_equal st st' /\
     events (world st')
     = (events (world st)
        ++ heard emitter
             [ {| description := "Error: ANTHROPIC_API_KEY is required";
                  done := true |} ])%list).
Proof.
  unfold pipe.
  destruct (String.eqb (ANTHROPIC_API_KEY (self st)) "") eqn:E.
  - unfold bind, ret.
    destruct (emit_fields emitter "Error: ANTHROPIC_API_KEY is required" true st)
      as (Hemit & Hself & Hhttp & Haio & Hsent & Hslept & _ & Hev).
    set (st1 := snd (emit emitter _ true st)) in *.
    rewrite Hemit. eexists _, st1. split; [reflexivity|].
    intros _. split; [reflexivity|]. split; [|exact Hev].
    repeat split; congruence.
  - apply String.eqb_neq in E.
    unfold pipe_try, try_except.
    match goal with
    | |- context [match ?m st with _ => _ end] => destruct (m st) as [[r|e] st1]
    end.
    + eexists _, _. split; [reflexivity|]. intros H; contradiction.
    + cbv beta iota delta [is_Exception].
      rewrite pipe_except_fields.
      eexists _, _. split; [reflexivity|]. intros H; contradiction.
Qed.

(** ** Message processing: tool items and cache hints *)

Section HintFacts.
Context {RT : PyRuntime}.

(** The messages of a request, one by one. *)
Lemma _process_messages_loop_plain (msgs out : list pyval) :
  _process_messages_loop msgs = Ok out ->
  Forall2 (fun m m' =>
             exists mc contents role,
               getitem_str m "content" = Ok mc /\
               process_content mc = Ok contents /\
               getitem_str m "role" = Ok role /\
               m' = PDict [ ("role", role); ("content", PList contents) ] /\
               Forall produced_kind contents) msgs out.
Proof.
  revert out. induction msgs as [|m msgs IH]; cbn [_process_messages_loop];
    intros out H.
  - inversion H. constructor.
  - bind_inv H as m' Hm'. bind_inv H as out' Hout'. inversion H; subst out.
    constructor; [|now apply IH].
    destruct (_process_messages_message_plain m m' Hm')
      as (mc & contents & role & Hmc & Hcontents & Hrole & ->).
    exists mc, contents, role. repeat split; try assumption.
    eapply process_content_kinds; eauto.
Qed.

(** [process_image] copies no hint. *)
Lemma process_image_without_hint (item im : pyval) :
  process_image item = Ok im ->
  exists d, im = PDict d /\ dget d "cache_control" = None.
Proof.
  unfold process_image. intros H.
  bind_inv H as iu Hiu. bind_inv H as u Hu. bind_inv H as url Hurl.
  destruct (startswith url "data:image").
  - bind_inv H as parts Hparts. destruct parts as [mime b64].
    bind_inv H as m1 Hm1. bind_inv H as media_type Hmt.
    destruct (negb (str_in media_type SUPPORTED_IMAGE_TYPES)); [discriminate|].
    inversion H. eexists. split; reflexivity.
  - inversion H. eexists. split; reflexivity.
Qed.

(** [process_pdf] copies the hint of its item when it is true as a
    condition. *)
Lemma process_pdf_with_hint (d : pydict) (doc cc : pyval) :
  process_pdf (PDict d) = Ok doc ->
  dget d "cache_control" = Some cc ->
  py_truthy cc = true ->
  exists dd, doc = PDict dd /\ dget dd "cache_control" = Some cc.
Proof.
  intros H Hcc Ht.
  assert (Hcopy : forall document c,
            copy_cache_control (PDict d) document = Ok c ->
            exists dd, c = PDict dd /\ dget dd "cache_control" = Some cc).
  { intros document c Hc. unfold copy_cache_control in Hc.
    cbn [py_get py_get_default rbind getitem_str] in Hc.
    unfold dget_default, dgetitem in Hc. rewrite Hcc in Hc. rewrite Ht in Hc.
    cbn [rbind] in Hc. inversion Hc.
    eexists. split; [reflexivity | apply dget_dset_same]. }
  unfold process_pdf in H.
  bind_inv H as pu Hpu. bind_inv H as u Hu. bind_inv H as url Hurl.
  destruct (startswith url "data:application/pdf").
  - bind_inv H as parts Hparts. destruct parts as [mime b64]. eauto.
  - eauto.
Qed.
End HintFacts.

(** C9, on the code. No item of tool-call or tool-result kind reaches the
    payload, with or without annotation: [process_content] drops every item
    whose type is [tool_calls] or [tool_results], whatever the role of the
    message; every item that it lets through has the type [text], [image] or
    [document]; on such an item the loop of [_process_messages], whose two
    branches that set [cache_control] ask for the types [tool_calls] and
    [tool_results], changes nothing; so every processed message holds exactly
    what [process_content] made of its content.  As to the hints that items
    carry: [process_image] never copies a [cache_control], so an image loses
    its hint, while [process_pdf] copies one that is true as a condition, so
    a document keeps it.  The four messages of the scenario show each
    case. *)
Theorem tool_items_are_dropped (RT : PyRuntime) :
  (forall d k pre post,
     dget d "type" = Some (PStr k) ->
     In k ["tool_calls"; "tool_results"] ->
     process_content_item (PDict d) = Ok None /\
     process_content (PList (pre ++ PDict d :: post))
     = process_content (PList (pre ++ post))) /\
  (forall content out,
     process_content content = Ok out -> Forall produced_kind out) /\
  (forall message c c',
     produced_kind c -> _process_messages_content message c = Ok c' -> c' = c) /\
  (forall msgs out,
     _process_messages (PList msgs) = Ok out ->
     Forall2 (fun m m' =>
                exists mc contents role,
                  getitem_str m "content" = Ok mc /\
                  process_content mc = Ok contents /\
                  getitem_str m "role" = Ok role /\
                  m' = PDict [ ("role", role); ("content", PList contents) ] /\
                  Forall produced_kind contents) msgs out) /\
  (forall item im,
     process_image item = Ok im ->
     exists d, im = PDict d /\ dget d "cache_control" = None) /\
  (forall d doc cc,
     process_pdf (PDict d) = Ok doc ->
     dget d "cache_control" = Some cc ->
     py_truthy cc = true ->
     exists dd, doc = PDict dd /\ dget dd "cache_control" = Some cc) /\
  _process_messages (PList [Scenario.tool_call_message])
  = Ok [PDict [ ("role", PStr "assistant");
                ("content", PList [PDict [ ("type", PStr "text");
                                           ("text", PStr "Let me look.") ]]) ]]
  /\ _process_messages (PList [Scenario.tool_result_message])
     = Ok [PDict [ ("role", PStr "user"); ("content", PList []) ]]
  /\ _process_messages (PList [Scenario.cached_image_message])
     = Ok [PDict [ ("role", PStr "user");
                   ("content",
                    PList [PDict [ ("type", PStr "image");
                                   ("source", PDict [ ("type", PStr "url");
                                                      ("url", PStr "https://example.org/a.png") ]) ]]) ]]
  /\ _process_messages (PList [Scenario.cached_pdf_message])
     = Ok [PDict [ ("role", PStr "user");
                   ("content",
                    PList [PDict [ ("type", PStr "document");
                                   ("source", PDict [ ("type", PStr "url");
                                                      ("url", PStr "https://example.org/a.pdf") ]);
                                   ("cache_control", EPHEMERAL) ]]) ]].
Proof.
  split.
  { intros d k pre post Ht Hk.
    assert (Hitem : process_content_item (PDict d) = Ok None).
    { unfold process_content_item, getitem_str, dgetitem. rewrite Ht.
      cbn in Hk. decompose [or] Hk; try contradiction; subst k; reflexivity. }
    split; [exact Hitem|].
    unfold process_content. cbn [py_iter rbind].
    rewrite !process_content_loop_app.
    cbn [process_content_loop]. rewrite Hitem. cbn [rbind].
    destruct (process_content_loop pre); cbn [rbind]; [|reflexivity].
    destruct (process_content_loop post); reflexivity. }
  split; [exact process_content_kinds|].
  split; [exact _process_messages_content_unchanged|].
  split.
  { intros msgs out H. unfold _process_messages in H. cbn [py_iter rbind] in H.
    now apply _process_messages_loop_plain. }
  split; [exact process_image_without_hint|].
  split; [exact process_pdf_with_hint|].
  repeat split; vm_compute; reflexivity.
Qed.

(** ** The instance across calls: whose identifier an error text shows *)

Section CarriedFacts.
Context {RT : PyRuntime}.

(** A stream leaves the key of the instance alone. *)
Lemma _stream_with_ui_key (url : string) (hs : headers) (payload body : pydict)
  (emitter : bool) (st : State) :
  ANTHROPIC_API_KEY (self (snd (_stream_with_ui url hs payload body emitter st)))
  = ANTHROPIC_API_KEY (self st).
Proof.
  unfold _stream_with_ui.
  assert (Hemit : forall d b s, self (snd (emit emitter d b s)) = self s)
    by (intros; apply keeps_emit).
  assert (Hpost : session_post url hs payload st
                  = (fst (session_post url hs payload st),
                     snd (session_post url hs payload st))) by reflexivity.
  rewrite Hpost.
  destruct (fst (session_post url hs payload st)) as [response|e].
  - set (st2 := snd (set_request_id _ _)).
    assert (H2 : ANTHROPIC_API_KEY (self st2) = ANTHROPIC_API_KEY (self st))
      by reflexivity.
    destruct (negb (status response =? 200)).
    + cbn [snd]. now rewrite Hemit.
    + pose proof (_stream_with_ui_lines_self (content response) emitter st2) as Hl.
      destruct (_stream_with_ui_lines (content response) emitter st2)
        as [[ys [u|e]] st3]; cbn [snd] in *.
      * now rewrite Hl.
      * unfold _stream_with_ui_except. cbn [snd]. now rewrite Hemit, Hl.
  - unfold _stream_with_ui_except. cbn [snd]. now rewrite Hemit.
Qed.

Lemma with_request_id_held (msg rid : string) :
  rid <> "" ->
  with_request_id msg (Some rid) = msg ++ " (Request ID: " ++ rid ++ ")".
Proof.
  intros H. unfold with_request_id.
  destruct (String.eqb rid "") eqn:E; [apply String.eqb_eq in E; contradiction|].
  reflexivity.
Qed.
End CarriedFacts.

(** C8, on the code. The request identifier lives on the instance and
    crosses calls.  [pipe] never assigns it, hence never resets it.  A
    stream, once its reply has arrived, stores the [x-request-id] of that
    reply, whatever was held before.  Every error text that comes from an
    [except] clause of [pipe] ends with the identifier held when the call
    began: the text for a body without [messages], for any failure while the
    payload is built, for any failure of the request.  The other error texts
    of [pipe] show no identifier at all: the one for a reply with an error
    status, although that reply has an identifier of its own, and the one
    for a missing key.  Hence after a streamed call whose reply carried an
    identifier, every later call on the instance that fails while its
    payload is built is answered with the identifier of the streamed call:
    the second result depends on the first. *)
Theorem request_id_outlives_the_call {RT : PyRuntime} :
  (forall body emitter st, self (snd (pipe body emitter st)) = self st) /\
  (forall g st response rest earlier,
     aio_script (world st) = Ok response :: rest ->
     consume (Generator g) (holding earlier st) = consume (Generator g) st /\
     request_id (self (snd (consume (Generator g) st)))
     = header_get (cr_headers response) "x-request-id") /\
  (forall body emitter st,
     ANTHROPIC_API_KEY (self st) <> "" ->
     dget body "messages" = None ->
     fst (pipe body emitter st)
     = Ok (Value (error_text
                    (with_request_id "Error: 'messages'" (request_id (self st)))))) /\
  (forall body emitter st bm sm e,
     ANTHROPIC_API_KEY (self st) <> "" ->
     dget body "messages" = Some bm ->
     pop_system_message bm = Ok sm ->
     pipe_payload body (fst sm) (snd sm) = Raise e ->
     fst (pipe body emitter st)
     = Ok (Value (error_text
                    (with_request_id ("Error: " ++ exc_str e)
                       (request_id (self st)))))) /\
  (forall body emitter st hs payload s e tail,
     prepared body st hs payload ->
     dget payload "stream" = Some s ->
     py_truthy s = false ->
     http_script (world st) = Raise e :: tail ->
     fst (pipe body emitter st)
     = Ok (Value (error_text
                    (with_request_id (error_prefix e ++ exc_str e)
                       (request_id (self st)))))) /\
  (forall body emitter st hs payload s r tail,
     prepared body st hs payload ->
     dget payload "stream" = Some s ->
     py_truthy s = false ->
     http_script (world st) = Ok r :: tail ->
     status_code r <> Some 200 ->
     status_code r <> Some 429 ->
     fst (pipe body emitter st)
     = Ok (Value (error_text
                    ("Error: HTTP " ++ format_status (status_code r) ++ ": "
                       ++ text r)))) /\
  (forall body emitter st,
     ANTHROPIC_API_KEY (self st) = "" ->
     fst (pipe body emitter st)
     = Ok (Value (error_text "Error: ANTHROPIC_API_KEY is required"))) /\
  (forall g st response rest rid body emitter bm sm e,
     aio_script (world st) = Ok response :: rest ->
     header_get (cr_headers response) "x-request-id" = Some rid ->
     rid <> "" ->
     ANTHROPIC_API_KEY (self st) <> "" ->
     dget body "messages" = Some bm ->
     pop_system_message bm = Ok sm ->
     pipe_payload body (fst sm) (snd sm) = Raise e ->
     fst (pipe body emitter (snd (consume (Generator g) st)))
     = Ok (Value (error_text
                    (("Error: " ++ exc_str e) ++ " (Request ID: " ++ rid ++ ")")))).
Proof.
  split; [intros body emitter st; apply keeps_pipe|].
  split.
  { intros g st response rest earlier Hs. cbn [consume]. split.
    - eapply _stream_with_ui_forgets; eauto.
    - eapply _stream_with_ui_request_id; eauto. }
  split; [intros body emitter st; apply pipe_without_messages|].
  assert (Hbuild : forall body emitter st bm sm e,
            ANTHROPIC_API_KEY (self st) <> "" ->
            dget body "messages" = Some bm ->
            pop_system_message bm = Ok sm ->
            pipe_payload body (fst sm) (snd sm) = Raise e ->
            fst (pipe body emitter st)
            = Ok (Value (error_text
                           (with_request_id ("Error: " ++ exc_str e)
                              (request_id (self st)))))).
  { intros body emitter st bm sm e Hkey Hbm Hsm Hpl.
    destruct (pipe_payload_raises body emitter st bm sm e Hkey Hbm Hsm Hpl)
      as (st' & -> & _). reflexivity. }
  split; [exact Hbuild|].
  split.
  { intros body emitter st hs payload s e tail Hprep Hs Hf Hscript.
    destruct (emit_fields emitter "Processing request..." false st)
      as (_ & _ & Hhttp1 & _).
    erewrite pipe_of_failed_request; [reflexivity | eauto | eauto | eauto |].
    apply (_send_request_failure MODEL_URL hs payload _ e tail).
    now rewrite Hhttp1. }
  split.
  { intros body emitter st hs payload s r tail Hprep Hs Hf Hscript H200 H429.
    destruct (emit_fields emitter "Processing request..." false st)
      as (_ & _ & Hhttp1 & _).
    erewrite pipe_of_refused_request; [reflexivity | eauto | eauto | eauto | |].
    - apply (_send_request_first_reply MODEL_URL hs payload _ r tail);
        [now rewrite Hhttp1 | exact H429].
    - unfold status_is. destruct (status_code r) as [z|]; [|reflexivity].
      destruct (Z.eqb_spec z 200); [subst; contradiction | reflexivity]. }
  split.
  { intros body emitter st Hkey. unfold pipe. rewrite Hkey. cbn [String.eqb].
    unfold bind, ret.
    destruct (emit_fields emitter "Error: ANTHROPIC_API_KEY is required" true st)
      as (Hemit & _).
    set (st1 := snd (emit emitter _ true st)) in *.
    now rewrite Hemit. }
  intros g st response rest rid body emitter bm sm e Hs Hrid Hne Hkey Hbm Hsm Hpl.
  rewrite (Hbuild body emitter _ bm sm e); try assumption.
  - cbn [consume].
    rewrite (_stream_with_ui_request_id _ _ _ _ _ st response rest Hs), Hrid.
    now rewrite with_request_id_held.
  - cbn [consume]. now rewrite _stream_with_ui_key.
Qed.

(** C8, as stated, fails: the same request gets one answer from a new
    instance and another from an instance that has served a streamed request
    before, whose reply carried the identifier [req_011C].  This holds for a
    request without [messages] and for a request with an image of a type that
    is not supported; the identifier shown is not one of the failing call,
    which has received no reply at all. *)
Lemma second_call_depends_on_first :
  let st0 := Scenario.fresh [] [Ok (Scenario.stream_AB [])] in
  let st1 := Scenario.after_call Scenario.body_stream st0 in
  request_id (self st0) = None /\
  request_id (self st1) = Some "req_011C" /\
  fst (pipe (RT := Ref.runtime) Scenario.body_no_messages false st0)
  = Ok (Value (error_text "Error: 'messages'")) /\
  fst (pipe (RT := Ref.runtime) Scenario.body_no_messages false st1)
  = Ok (Value (error_text "Error: 'messages' (Request ID: req_011C)")) /\
  fst (pipe (RT := Ref.runtime) Scenario.body_bmp false st0)
  = Ok (Value (error_text "Error: Unsupported media type: image/bmp")) /\
  fst (pipe (RT := Ref.runtime) Scenario.body_bmp false st1)
  = Ok (Value (error_text
                 "Error: Unsupported media type: image/bmp (Request ID: req_011C)")) /\
  sent (world (snd (pipe (RT := Ref.runtime) Scenario.body_bmp false st1)))
  = sent (world st1).
Proof. cbv zeta. repeat split; vm_compute; reflexivity. Qed.
